(** * World-Bank indicator pipeline (uday.py): shallow embedding and properties

    The script is a chain of calls into pandas, scikit-learn, numpy and scipy.
    Each function of uday.py is embedded under its own name; the library
    routines it calls are embedded next to it, at the level of their
    documented behaviour (pandas 2, scikit-learn 1.2); what they leave
    unspecified or draw at random is a parameter.

    Numbers.  A numpy/pandas float is idealised as an exact real; the IEEE
    values that are not finite (nan, +inf, -inf) are all represented by
    [None].  Rounding and overflow are not modelled. *)

From Stdlib Require Import Reals Lra Lia ZArith String Ascii DecimalString
  SpecFloat Bool Arith List Permutation.
Import ListNotations.

Set Implicit Arguments.

(** ** Python exceptions *)

Inductive exn : Type :=
| KeyError | ValueError | TypeError | IndexError | RuntimeError
| FileNotFoundError.

Inductive result (A : Type) : Type :=
| Ok (a : A)
| Raise (e : exn).

Arguments Ok {A} a.
Arguments Raise {A} e.

Definition bind {A B : Type} (c : result A) (k : A -> result B) : result B :=
  match c with
  | Ok a => k a
  | Raise e => Raise e
  end.

Notation "x <- c ;; k" := (bind c (fun x => k))
  (at level 61, c at next level, right associativity).
Notation "' p <- c ;; k" := (bind c (fun p => k))
  (at level 61, p pattern, c at next level, right associativity).

(** ** Floats *)

Definition float : Type := option R.

Definition lift2 (f : R -> R -> R) (x y : float) : float :=
  match x, y with
  | Some a, Some b => Some (f a b)
  | _, _ => None
  end.

Definition fadd : float -> float -> float := lift2 Rplus.
Definition fsub : float -> float -> float := lift2 Rminus.
Definition fmul : float -> float -> float := lift2 Rmult.

(** [x / y] of numpy: a zero divisor gives inf or nan (with a warning),
    never an exception. *)
Definition fdiv (x y : float) : float :=
  match x, y with
  | Some a, Some b => if Req_dec_T b 0 then None else Some (a / b)%R
  | _, _ => None
  end.

(** [np.sqrt]: nan on a negative argument. *)
Definition fsqrt (x : float) : float :=
  match x with
  | Some a => if Rlt_dec a 0 then None else Some (sqrt a)
  | None => None
  end.

Definition is_finite (x : float) : bool :=
  match x with
  | Some _ => true
  | None => false
  end.

(** ** numpy on one-dimensional arrays *)

Module Numpy.

(** [np.sum] of finite values. *)
Definition sum (xs : list R) : R := fold_right Rplus 0%R xs.

(** [np.arange(n)] as floats. *)
Definition arange (n : nat) : list R := map INR (seq 0 n).

Fixpoint map2 (f : R -> R -> R) (xs ys : list R) : list R :=
  match xs, ys with
  | x :: xs', y :: ys' => f x y :: map2 f xs' ys'
  | _, _ => []
  end.

(** Element-wise binary operation with numpy's broadcasting rule for two
    1-D arrays: equal lengths, or one of them of length 1; anything else
    raises ValueError. *)
Definition broadcast2 (f : R -> R -> R) (xs ys : list R) : result (list R) :=
  if Nat.eqb (length xs) (length ys) then Ok (map2 f xs ys)
  else match xs, ys with
       | [x], _ => Ok (map (f x) ys)
       | _, [y] => Ok (map (fun x => f x y) xs)
       | _, _ => Raise ValueError
       end.

(** [np.diag] of a 2-D array: the entries m[i][i].  The array is given by
    its rows, which all have one length; a nested list with rows of
    different lengths is no array, numpy refuses it, and it is outside the
    domain of [diag]. *)
Fixpoint diag_from (A : Type) (i : nat) (m : list (list A)) : list A :=
  match m with
  | [] => []
  | r :: m' =>
      match nth_error r i with
      | Some x => x :: diag_from (S i) m'
      | None => []
      end
  end.

Definition diag (A : Type) (m : list (list A)) : list A := diag_from 0 m.

(** The values of an array when all of them are finite ([np.isfinite]),
    row by row for a 2-D array. *)
Fixpoint all_finite (xs : list float) : option (list R) :=
  match xs with
  | [] => Some []
  | Some x :: xs' => option_map (cons x) (all_finite xs')
  | None :: _ => None
  end.

Fixpoint all_finite_rows (rows : list (list float)) : option (list (list R)) :=
  match rows with
  | [] => Some []
  | r :: rows' =>
      match all_finite r, all_finite_rows rows' with
      | Some r', Some rs => Some (r' :: rs)
      | _, _ => None
      end
  end.

End Numpy.

(** ** Growth estimator: exp_growth and err_ranges *)

Definition exp_growth (x a b : R) : R := (a * exp (b * x))%R.

Section ErrRanges.

(** [stats.t.ppf q df], the quantile function of Student's t.  scipy is
    not part of the repository: the quantile function is a parameter. *)
Variable t_ppf : R -> Z -> float.

(** [exp_growth(xdata, *popt)] on an array: the call unpacks [popt] into
    the two parameters and fails with TypeError on any other arity. *)
Definition exp_growth_array (xdata popt : list R) : result (list R) :=
  match popt with
  | [a; b] => Ok (map (fun x => exp_growth x a b) xdata)
  | _ => Raise TypeError
  end.

(** [df = max(0, n - m)] *)
Definition err_df (ydata popt : list R) : Z :=
  Z.max 0 (Z.of_nat (length ydata) - Z.of_nat (length popt)).

(** [residuals = ydata - exp_growth(xdata, *popt)] *)
Definition err_residuals (xdata ydata popt : list R) : result (list R) :=
  fitted <- exp_growth_array xdata popt ;;
  Numpy.broadcast2 Rminus ydata fitted.

(** [stdev = np.sqrt(np.sum(residuals**2) / df)] *)
Definition err_stdev (residuals : list R) (df : Z) : float :=
  fsqrt (fdiv (Some (Numpy.sum (map (fun r => r * r)%R residuals)))
              (Some (IZR df))).

Definition err_ranges (xdata ydata popt : list R) (pcov : list (list float))
    (alpha : R) : result (list float) :=
  let df := err_df ydata popt in
  let tval := fmul (Some (-1)%R) (t_ppf (alpha / 2) df) in
  residuals <- err_residuals xdata ydata popt ;;
  let stdev := err_stdev residuals df in
  Ok (map (fun d => fmul (fmul tval stdev) (fsqrt (fadd (Some 1%R) d)))
          (Numpy.diag pcov)).

(** The formula of the specification, written from its words: residual
    standard deviation and two-sided critical value for [n] observations
    and [p] parameters, and the half-width of one parameter from its
    entry [variance] on the diagonal of the covariance matrix. *)
Definition spec_residuals (xdata ydata : list R) (a b : R) : list R :=
  map (fun xy => (snd xy - a * exp (b * fst xy))%R) (combine xdata ydata).

Definition spec_stdev (xdata ydata : list R) (a b : R) (n p : nat) : float :=
  fsqrt (fdiv (Some (Numpy.sum (map (fun r => r * r)%R
                                    (spec_residuals xdata ydata a b))))
              (Some (INR n - INR p)%R)).

Definition spec_critical_value (alpha : R) (n p : nat) : float :=
  t_ppf (1 - alpha / 2) (Z.of_nat n - Z.of_nat p).

Definition spec_half_width (xdata ydata : list R) (a b : R) (alpha : R)
    (variance : float) : float :=
  let n := length ydata in
  fmul (fmul (spec_critical_value alpha n 2)
             (spec_stdev xdata ydata a b n 2))
       (fsqrt (fadd (Some 1%R) variance)).

End ErrRanges.

(** The quantile function of Student's t with one degree of freedom (the
    Cauchy distribution), used as the instance of [t_ppf] in examples. *)
Definition cauchy_ppf (q : R) (df : Z) : float :=
  if Z.leb df 0 then None
  else if Rlt_dec 0 q then
         if Rlt_dec q 1 then Some (tan (PI * (q - 1 / 2)))%R else None
       else None.

(** ** Ordered keys

    Index labels are compared by a three-way comparison, as pandas sorts
    group keys: strings by code point, integers by value, tuples
    lexicographically. *)

Class Ord (A : Type) : Type := cmp : A -> A -> comparison.

#[export] Hint Mode Ord ! : typeclass_instances.

#[export] Instance Ord_string : Ord string := String.compare.
#[export] Instance Ord_Z : Ord Z := Z.compare.
#[export] Instance Ord_nat : Ord nat := Nat.compare.
#[export] Instance Ord_prod {A B : Type} `{Ord A} `{Ord B} : Ord (A * B) :=
  fun x y =>
    match cmp (fst x) (fst y) with
    | Eq => cmp (snd x) (snd y)
    | c => c
    end.

(** The one law the proofs need: the comparison answers [Eq] exactly on equal
    labels. *)
Class OrdLaws (A : Type) `{Ord A} : Prop :=
  cmp_eq : forall x y : A, cmp x y = Eq <-> x = y.

Arguments OrdLaws A {_}.

#[export] Hint Mode OrdLaws ! - : typeclass_instances.

Section Keys.

Context {A : Type} `{Ord A}.

Definition key_eqb (x y : A) : bool :=
  match cmp x y with
  | Eq => true
  | _ => false
  end.

Definition key_leb (x y : A) : bool :=
  match cmp x y with
  | Gt => false
  | _ => true
  end.

Definition mem (x : A) (l : list A) : bool := existsb (key_eqb x) l.

Fixpoint unique (l : list A) : list A :=
  match l with
  | [] => []
  | x :: l' => if mem x l' then unique l' else x :: unique l'
  end.

(** Stable insertion: [x] goes after the elements that compare equal. *)
Fixpoint insert (x : A) (l : list A) : list A :=
  match l with
  | [] => [x]
  | y :: l' => if key_leb y x then y :: insert x l' else x :: l
  end.

Definition sort (l : list A) : list A := fold_right insert [] (rev l).

Definition sorted_unique (l : list A) : list A := sort (unique l).

(** Position of the first occurrence of a label. *)
Fixpoint index_of (x : A) (l : list A) : option nat :=
  match l with
  | [] => None
  | y :: l' =>
      if key_eqb x y then Some 0%nat
      else option_map S (index_of x l')
  end.

End Keys.

(** Stable sort of a list by a key. *)
Section SortBy.

Context {A K : Type} `{Ord K}.
Variable key : A -> K.

Fixpoint insert_by (x : A) (l : list A) : list A :=
  match l with
  | [] => [x]
  | y :: l' => if key_leb (key y) (key x) then y :: insert_by x l' else x :: l
  end.

Definition sort_by (l : list A) : list A := fold_right insert_by [] (rev l).

End SortBy.

(** ** pandas *)

Module Pandas.

(** A DataFrame with row labels [index], column labels [columns] and, per
    column, the list of its cells (one per row); a missing cell (NaN) is
    [None]. *)
Record DataFrame (I C : Type) : Type := mkDF {
  index : list I;
  columns : list C;
  data : list (list float)
}.

Arguments mkDF {I C} index columns data.

Section Frames.

Context {I C : Type}.

(** [df.shape] *)
Definition shape (df : DataFrame I C) : nat * nat :=
  (length (index df), length (columns df)).

(** A frame is rectangular: one data column per column label, one cell
    per row label in each. *)
Definition well_formed (df : DataFrame I C) : Prop :=
  length (data df) = length (columns df) /\
  Forall (fun col => length col = length (index df)) (data df).

(** The rows of the frame, as [df.to_numpy()] lists them. *)
Definition rows (df : DataFrame I C) : list (list float) :=
  map (fun i => map (fun col => nth i col None) (data df))
      (seq 0 (length (index df))).

(** [df.transpose()] *)
Definition transpose (df : DataFrame I C) : DataFrame C I :=
  mkDF (columns df) (index df) (rows df).

(** [df.dropna(how='all', axis=1)]: drop the columns without any value. *)
Definition dropna_all_columns (df : DataFrame I C) : DataFrame I C :=
  let kept := filter (fun lc => existsb is_finite (snd lc))
                     (combine (columns df) (data df)) in
  mkDF (index df) (map fst kept) (map snd kept).

(** [df.iat[i, j]]: the cell in row [i] of column [j] (NaN out of range). *)
Definition iat (df : DataFrame I C) (i j : nat) : float :=
  nth i (nth j (data df) []) None.

(** The elements of a list at the given positions. *)
Definition take (A : Type) (positions : list nat) (l : list A) : list A :=
  flat_map (fun p => match nth_error l p with
                     | Some x => [x]
                     | None => []
                     end) positions.

(** [df.iloc[positions]]: the rows at the given positions. *)
Definition take_rows (positions : list nat) (df : DataFrame I C)
    : DataFrame I C :=
  mkDF (take positions (index df)) (columns df)
       (map (take positions) (data df)).

End Frames.

(** The finite values of a column and their mean, NaN when there is none
    ([nanmean], the mean pandas takes with skipna). *)
Definition finite_values (vs : list float) : list R :=
  flat_map (fun v => match v with Some x => [x] | None => [] end) vs.

Definition nanmean (vs : list float) : float :=
  match finite_values vs with
  | [] => None
  | xs => Some (Numpy.sum xs / INR (length xs))%R
  end.

(** *** pivot_table

    [df.pivot_table(index=..., columns=..., values='Value')] on a long
    table given as records (index key, column key, value); a key is [None]
    when one of its columns is NaN.  Defaults: aggfunc mean, dropna True,
    sort True. *)
Section PivotTable.

Context {I C : Type} `{Ord I} `{Ord C}.

Definition record : Type := option I * option C * float.

(** groupby drops the records with a NaN key. *)
Definition keyed (rs : list record) : list (I * C * float) :=
  flat_map (fun r => match r with
                     | (Some i, Some c, v) => [((i, c), v)]
                     | _ => []
                     end) rs.

Definition group_keys (rs : list record) : list (I * C) :=
  sorted_unique (map fst (keyed rs)).

Definition group_values (k : I * C) (rs : list record) : list float :=
  map snd (filter (fun kv => key_eqb (fst kv) k) (keyed rs)).

(** [grouped.agg('mean')] *)
Definition agg_mean (rs : list record) : list (I * C * float) :=
  map (fun k => (k, nanmean (group_values k rs))) (group_keys rs).

(** [agged.dropna(how='all')]: groups whose mean is NaN go. *)
Definition dropna_groups (agged : list (I * C * float))
    : list (I * C * float) :=
  filter (fun kv => is_finite (snd kv)) agged.

Definition lookup (k : I * C) (agged : list (I * C * float)) : float :=
  match find (fun kv => key_eqb (fst kv) k) agged with
  | Some kv => snd kv
  | None => None
  end.

(** [agged.unstack(columns)]: sorted row keys, sorted column keys, NaN
    where a (row, column) group does not exist. *)
Definition unstack (agged : list (I * C * float)) : DataFrame I C :=
  let idx := sorted_unique (map (fun kv => fst (fst kv)) agged) in
  let cols := sorted_unique (map (fun kv => snd (fst kv)) agged) in
  mkDF idx cols
       (map (fun c => map (fun i => lookup (i, c) agged) idx) cols).

Definition pivot_table (rs : list record) : DataFrame I C :=
  dropna_all_columns (unstack (dropna_groups (agg_mean rs))).

End PivotTable.

(** *** Label-based selection on the entity-major table

    [df.loc[(countries, indicators), years]] on a frame whose row index is
    the two-level (Country, Indicator Name) index (pandas 2 semantics: a
    requested label that a level does not hold raises KeyError). *)
Section Loc.

Definition level_has (level : list string) (x : string) : bool :=
  existsb (String.eqb x) level.

(** A row is selected when both its labels are requested. *)
Definition requested (countries indicators : list string)
    (k : string * string) : bool :=
  level_has countries (fst k) && level_has indicators (snd k).

(** Rank of a row in the order of the requested labels; a label that is
    requested more than once counts where it comes first. *)
Definition request_rank (countries indicators : list string)
    (k : string * string) : nat * nat :=
  (match index_of (fst k) countries with Some n => n | None => 0 end,
   match index_of (snd k) indicators with Some n => n | None => 0 end)%nat.

(** [MultiIndex.get_locs]: positions of the rows selected by the two
    lists, ordered as the lists are. *)
Definition get_locs (idx : list (string * string))
    (countries indicators : list string) : result (list nat) :=
  match countries with
  | [] => Ok []
  | _ =>
      if negb (forallb (level_has (map fst idx)) countries)
      then Raise KeyError
      else
        match indicators with
        | [] => Ok []
        | _ =>
            if negb (forallb (level_has (map snd idx)) indicators)
            then Raise KeyError
            else
              let selected :=
                filter (fun pk => requested countries indicators (snd pk))
                       (combine (seq 0 (length idx)) idx) in
              match selected with
              | [] => Raise KeyError
              | _ =>
                  Ok (map fst
                        (sort_by (fun pk => request_rank countries
                                              indicators (snd pk))
                                 selected))
              end
        end
  end.

(** Selection of columns by a list of labels: KeyError when a label is
    not a column. *)
Fixpoint get_columns {I C : Type} `{Ord C} (df : DataFrame I C)
    (labels : list C) : result (list (list float)) :=
  match labels with
  | [] => Ok []
  | l :: labels' =>
      match index_of l (columns df) with
      | None => Raise KeyError
      | Some j =>
          rest <- get_columns df labels' ;;
          Ok (nth j (data df) [] :: rest)
      end
  end.

Definition loc (df : DataFrame (string * string) Z)
    (countries indicators : list string) (years : list Z)
    : result (DataFrame (string * string) Z) :=
  positions <- get_locs (index df) countries indicators ;;
  let selected := take_rows positions df in
  cols <- get_columns selected years ;;
  Ok (mkDF (index selected) years cols).

(** [df.loc[:, start:stop]] on sorted column labels: both ends
    included. *)
Definition loc_columns_slice {I : Type} (df : DataFrame I Z)
    (start stop : Z) : DataFrame I Z :=
  let kept := filter (fun lc => Z.leb start (fst lc) && Z.leb (fst lc) stop)
                     (combine (columns df) (data df)) in
  mkDF (index df) (map fst kept) (map snd kept).

End Loc.

(** *** Pearson correlation, [df.corr()]

    Each pair of columns is correlated over the rows where both have a
    value (min_periods = 1); NaN when there is no such row or when one of
    the two has no spread over them.  This is the coefficient in exact
    arithmetic; the loop pandas runs on float64 values is [Float64.nancorr]
    below. *)
Section Corr.



Fixpoint complete_pairs (xs ys : list float) : list (R * R) :=
  match xs, ys with
  | Some x :: xs', Some y :: ys' => (x, y) :: complete_pairs xs' ys'
  | _ :: xs', _ :: ys' => complete_pairs xs' ys'
  | _, _ => []
  end.

Definition mean (xs : list R) : R := (Numpy.sum xs / INR (length xs))%R.

(** Sum of products of deviations from the means. *)
Definition sum_dev (ps : list (R * R)) : R :=
  let mx := mean (map fst ps) in
  let my := mean (map snd ps) in
  Numpy.sum (map (fun p => (fst p - mx) * (snd p - my))%R ps).

Definition pearson (xs ys : list float) : float :=
  let ps := complete_pairs xs ys in
  match ps with
  | [] => None
  | _ =>
      let sxx := sum_dev (map (fun p => (fst p, fst p)) ps) in
      let syy := sum_dev (map (fun p => (snd p, snd p)) ps) in
      fdiv (Some (sum_dev ps)) (Some (sqrt (sxx * syy)))
  end.

Definition corr {I C : Type} (df : DataFrame I C) : DataFrame C C :=
  mkDF (columns df) (columns df)
       (map (fun cy => map (fun cx => pearson cx cy) (data df)) (data df)).

End Corr.

End Pandas.

(** ** The correlation loop in binary64

    [df.corr()] runs pandas' [nancorr] on float64 values: Welford's update
    of the two means and of the three sums of products over the rows where
    both columns are finite, every operation rounded to binary64, nothing
    guarding against overflow.  [Pandas.pearson] is that loop read in exact
    arithmetic; here it is on IEEE 754 binary64 numbers ([spec_float] with
    53 bits of precision), a missing cell being NaN. *)

Module Float64.

Definition prec : Z := 53.
Definition emax : Z := 1024.

Definition add : spec_float -> spec_float -> spec_float := SFadd prec emax.
Definition sub : spec_float -> spec_float -> spec_float := SFsub prec emax.
Definition mul : spec_float -> spec_float -> spec_float := SFmul prec emax.
Definition div : spec_float -> spec_float -> spec_float := SFdiv prec emax.
Definition sqrt : spec_float -> spec_float := SFsqrt prec emax.

(** The binary64 number nearest to an integer: [float(z)]. *)
Definition of_Z (z : Z) : spec_float := binary_normalize prec emax z 0 false.

(** [np.isfinite] *)
Definition isfinite (x : spec_float) : bool :=
  match x with
  | S754_zero _ | S754_finite _ _ _ => true
  | S754_infinity _ | S754_nan => false
  end.

(** The running state of the loop over the rows. *)
Record welford : Type := mkWelford {
  nobs : Z;
  meanx : spec_float;
  meany : spec_float;
  ssqdm_x : spec_float;
  ssqdm_y : spec_float;
  covxy : spec_float
}.

Definition update (w : welford) (vx vy : spec_float) : welford :=
  let nobs := (nobs w + 1)%Z in
  let dx := sub vx (meanx w) in
  let dy := sub vy (meany w) in
  let meanx := add (meanx w) (mul (div (of_Z 1) (of_Z nobs)) dx) in
  let meany := add (meany w) (mul (div (of_Z 1) (of_Z nobs)) dy) in
  mkWelford nobs meanx meany
            (add (ssqdm_x w) (mul (sub vx meanx) dx))
            (add (ssqdm_y w) (mul (sub vy meany) dy))
            (add (covxy w) (mul (sub vx meanx) dy)).

Fixpoint loop (w : welford) (xs ys : list spec_float) : welford :=
  match xs, ys with
  | vx :: xs', vy :: ys' =>
      if isfinite vx && isfinite vy then loop (update w vx vy) xs' ys'
      else loop w xs' ys'
  | _, _ => w
  end.

(** The coefficient of two columns: NaN without a complete row or with a
    divisor equal to 0, else the quotient, whatever the divisor is. *)
Definition nancorr (xs ys : list spec_float) : spec_float :=
  let w := loop (mkWelford 0 (of_Z 0) (of_Z 0) (of_Z 0) (of_Z 0) (of_Z 0))
                xs ys in
  if Z.ltb (nobs w) 1 then S754_nan
  else
    let divisor := sqrt (mul (ssqdm_x w) (ssqdm_y w)) in
    if SFeqb divisor (of_Z 0) then S754_nan else div (covxy w) divisor.

(** The matrix of [df.corr()] for a frame given by its columns: the loop
    runs once for each pair of columns and fills both cells. *)
Definition corr (data : list (list spec_float)) : list (list spec_float) :=
  map (fun i =>
         map (fun j => nancorr (nth (Nat.max i j) data [])
                               (nth (Nat.min i j) data []))
             (seq 0 (length data)))
      (seq 0 (length data)).

End Float64.

(** ** scikit-learn *)

Module Sklearn.

(** *** StandardScaler

    Per column: subtract the mean and divide by the population standard
    deviation, both taken over the values that are present; a column
    without spread is divided by 1; a NaN cell stays NaN.  The values are
    those of exact arithmetic: what is proved of them below is where the
    cells are and which of them are missing, not their last digits. *)

Definition nanvar (col : list float) : float :=
  match Pandas.finite_values col with
  | [] => None
  | xs =>
      let m := Pandas.mean xs in
      Some (Numpy.sum (map (fun x => (x - m) * (x - m))%R xs)
            / INR (length xs))%R
  end.

Definition scale_ (col : list float) : float :=
  match nanvar col with
  | Some v => if Req_dec_T v 0 then Some 1%R else Some (sqrt v)
  | None => None
  end.

Definition scale_column (col : list float) : list float :=
  map (fun x => fdiv (fsub x (Pandas.nanmean col)) (scale_ col)) col.

(** [StandardScaler().fit_transform(X)] on [n_samples] rows given by
    columns; an array without rows or without columns is refused. *)
Definition fit_transform (n_samples : nat) (X : list (list float))
    : result (list (list float)) :=
  match n_samples, X with
  | O, _ => Raise ValueError
  | _, [] => Raise ValueError
  | _, _ => Ok (map scale_column X)
  end.

(** *** KMeans *)

Record KMeans : Type := mkKMeans {
  n_clusters : nat;
  n_init : nat;
  max_iter : nat;
  tol : R;
  random_state : option Z
}.

(** Defaults of the constructor (scikit-learn 1.2). *)
Definition default_n_init : nat := 10.
Definition default_max_iter : nat := 300.
Definition default_tol : R := (1 / 10000)%R.

(** What [fit] leaves on the estimator. *)
Record Fitted : Type := mkFitted {
  labels_ : list Z;
  cluster_centers_ : list (list R);
  inertia_ : R
}.

Definition sqdist (x c : list R) : R :=
  Numpy.sum (Numpy.map2 (fun a b => (a - b) * (a - b))%R x c).

(** [argmin]: position of the smallest value, the first one on ties. *)
Fixpoint argmin_from (i best : Z) (best_value : R) (vs : list R) : Z :=
  match vs with
  | [] => best
  | v :: vs' =>
      if Rlt_dec v best_value
      then argmin_from (i + 1)%Z i v vs'
      else argmin_from (i + 1)%Z best best_value vs'
  end.

Definition argmin (vs : list R) : Z :=
  match vs with
  | [] => 0%Z
  | v :: vs' => argmin_from 1 0 v vs'
  end.

(** E-step: each sample goes to its nearest centre. *)
Definition e_step (X centers : list (list R)) : list Z :=
  map (fun x => argmin (map (sqdist x) centers)) X.

Definition members (X : list (list R)) (labels : list Z) (j : Z)
    : list (list R) :=
  map fst (filter (fun xl => Z.eqb (snd xl) j) (combine X labels)).

(** Column-wise sum and mean of a non-empty list of rows. *)
Definition add_rows (r s : list R) : list R := Numpy.map2 Rplus r s.

Definition mean_rows (first : list R) (others : list (list R)) : list R :=
  map (fun t => t / INR (S (length others)))%R
      (fold_left add_rows others first).

Definition column_means (X : list (list R)) : list R :=
  match X with
  | [] => []
  | r :: X' => mean_rows r X'
  end.

Definition inertia (X : list (list R)) (centers : list (list R))
    (labels : list Z) : R :=
  Numpy.sum (map (fun xl => sqdist (fst xl)
                              (nth (Z.to_nat (snd xl)) centers []))
                 (combine X labels)).

Fixpoint labels_eqb (l1 l2 : list Z) : bool :=
  match l1, l2 with
  | [], [] => true
  | a :: l1', b :: l2' => Z.eqb a b && labels_eqb l1' l2'
  | _, _ => false
  end.

(** [_is_same_clustering]: equal up to a renaming of the labels. *)
Fixpoint same_clustering_from (mapping : list (Z * Z)) (l1 l2 : list Z)
    : bool :=
  match l1, l2 with
  | a :: l1', b :: l2' =>
      match find (fun m => Z.eqb (fst m) a) mapping with
      | None => same_clustering_from ((a, b) :: mapping) l1' l2'
      | Some m => Z.eqb (snd m) b && same_clustering_from mapping l1' l2'
      end
  | _, _ => true
  end.

Definition is_same_clustering (l1 l2 : list Z) : bool :=
  same_clustering_from [] l1 l2.

(** The labels of [k] clusters on the rows [X]: one per row, each between 0
    and [k] - 1. *)
Definition labelling (X : list (list R)) (k : nat) (labels : list Z) : Prop :=
  length labels = length X /\
  Forall (fun l => (0 <= l < Z.of_nat k)%Z) labels.

Section Fit.

(** numpy's random generator and the two library routines that consume
    it or that depend on an unspecified order are parameters: the
    generator seeded from an integer, the k-means++ seeding of the
    centres, and the replacement centre of a cluster left empty. *)
Variable RandomState : Type.
Variable seeded : Z -> RandomState.
Variable init_centroids :
  RandomState -> list (list R) -> nat -> list (list R) * RandomState.
Variable relocate_empty :
  list (list R) -> list (list R) -> list Z -> Z -> list R.

(** M-step: each centre moves to the mean of its samples. *)
Definition m_step (X centers : list (list R)) (labels : list Z) (k : nat)
    : list (list R) :=
  map (fun j => match members X labels (Z.of_nat j) with
                | [] => relocate_empty X centers labels (Z.of_nat j)
                | r :: rs => mean_rows r rs
                end)
      (seq 0 k).

Definition center_shift_tot (old new : list (list R)) : R :=
  Numpy.sum (map (fun cc => sqdist (fst cc) (snd cc)) (combine old new)).

(** The Lloyd iterations: at most [fuel] of them; stops when the labels
    repeat (strict convergence) or when the centres moved by at most
    [tolerance].  Returns labels, centres and whether the convergence
    was strict. *)
Fixpoint lloyd_loop (fuel : nat) (X : list (list R)) (k : nat)
    (tolerance : R) (centers : list (list R)) (labels_old : list Z)
    : list Z * list (list R) * bool :=
  match fuel with
  | O => (labels_old, centers, false)
  | S fuel' =>
      let labels := e_step X centers in
      let centers_new := m_step X centers labels k in
      if labels_eqb labels labels_old then (labels, centers_new, true)
      else if Rle_dec (center_shift_tot centers centers_new) tolerance
           then (labels, centers_new, false)
           else lloyd_loop fuel' X k tolerance centers_new labels
  end.

(** [_kmeans_single_lloyd]: the labels start at -1; without strict
    convergence a last E-step makes them match the final centres. *)
Definition kmeans_single (X : list (list R)) (k : nat) (iterations : nat)
    (tolerance : R) (centers_init : list (list R)) : Fitted :=
  let '(labels, centers, strict) :=
    lloyd_loop iterations X k tolerance centers_init
               (map (fun _ => (-1)%Z) X) in
  let labels := if strict then labels else e_step X centers in
  mkFitted labels centers (inertia X centers labels).

(** The [n_init] restarts: the run with the lowest inertia is kept. *)
Fixpoint restarts (n : nat) (rs : RandomState) (X : list (list R))
    (km : KMeans) (tolerance : R) (best : option Fitted)
    : option Fitted * RandomState :=
  match n with
  | O => (best, rs)
  | S n' =>
      let '(centers_init, rs') := init_centroids rs X (n_clusters km) in
      let run := kmeans_single X (n_clusters km) (max_iter km) tolerance
                               centers_init in
      let best' :=
        match best with
        | None => Some run
        | Some b =>
            if Rlt_dec (inertia_ run) (inertia_ b)
            then if is_same_clustering (labels_ run) (labels_ b)
                 then Some b else Some run
            else Some b
        end in
      restarts n' rs' X km tolerance best'
  end.

(** [check_random_state]: an integer seeds a generator of its own; None
    is numpy's global generator. *)
Definition check_random_state (global : RandomState) (seed : option Z)
    : RandomState :=
  match seed with
  | Some s => seeded s
  | None => global
  end.

(** [X.shape[1]]: the number of features of an array given by its rows. *)
Definition n_features (X : list (list R)) : nat := length (hd [] X).

(** Variance of each feature, averaged, times [tol]. *)
Definition tolerance_of (X : list (list R)) (tol : R) : R :=
  let n := INR (length X) in
  let m := column_means X in
  let sq := map (fun r => Numpy.map2 (fun a b => (a - b) * (a - b))%R r m) X in
  let vars := map (fun t => t / n)%R
                  (match sq with
                   | [] => []
                   | r :: rs => fold_left add_rows rs r
                   end) in
  (Pandas.mean vars * tol)%R.

(** [KMeans.fit] on the rows of an array, with numpy's global generator in
    state [global]: the result (or the ValueError of the validation)
    and the state the global generator is left in.  The validation refuses
    a value that is not finite, a parameter that is 0, an array without
    samples or without features, and fewer samples than clusters. *)
Definition fit (global : RandomState) (km : KMeans)
    (rows : list (list float)) : result Fitted * RandomState :=
  match Numpy.all_finite_rows rows with
  | None => (Raise ValueError, global)
  | Some X =>
      if (Nat.eqb (n_clusters km) 0 || Nat.eqb (n_init km) 0
          || Nat.eqb (max_iter km) 0
          || Nat.eqb (length X) 0
          || Nat.eqb (n_features X) 0
          || Nat.ltb (length X) (n_clusters km))%bool
      then (Raise ValueError, global)
      else
        let rs := check_random_state global (random_state km) in
        let X_mean := column_means X in
        let Xc := map (fun r => Numpy.map2 Rminus r X_mean) X in
        let '(best, rs') :=
          restarts (n_init km) rs Xc km (tolerance_of Xc (tol km)) None in
        let global' := match random_state km with
                       | Some _ => global
                       | None => rs'
                       end in
        match best with
        | None => (Raise ValueError, global')
        | Some b =>
            (Ok (mkFitted (labels_ b)
                   (map (fun c => add_rows c X_mean) (cluster_centers_ b))
                   (inertia_ b)),
             global')
        end
  end.

(** [KMeans.fit_predict] *)
Definition fit_predict (global : RandomState) (km : KMeans)
    (rows : list (list float)) : result (list Z) * RandomState :=
  let '(r, global') := fit global km rows in
  (f <- r ;; Ok (labels_ f), global').

End Fit.

End Sklearn.

(** ** The indicator file

    What [pd.read_csv(filename, skiprows=4)] yields for a World-Bank file:
    the columns 'Country Name', 'Country Code', 'Indicator Name' and
    'Indicator Code', and then one column per remaining header ([header]),
    each row holding one cell per such column.  The two code columns are
    dropped first thing by the script and are not represented.  A file
    that lacks one of these four columns, on which the script's [drop] or
    [melt] raises KeyError, is not a frame of this type. *)

Inductive cell : Type :=
| Number (r : R)
| Text (s : string)
| Blank.

Record csv_row : Type := mkRow {
  Country_Name : option string;
  Indicator_Name : option string;
  cells : list cell
}.

Record csv_frame : Type := mkCsv {
  header : list string;
  body : list csv_row
}.

(** A row of the melted (long) table. *)
Record melted (Y V : Type) : Type := mkMelted {
  Country : option string;
  Indicator : option string;
  Year : Y;
  Value : V
}.

Arguments mkMelted {Y V} Country Indicator Year Value.

Fixpoint remove_nth {A : Type} (n : nat) (l : list A) : list A :=
  match n, l with
  | _, [] => []
  | O, _ :: l' => l'
  | S n', x :: l' => x :: remove_nth n' l'
  end.

(** [df.drop([name], axis=1)]: KeyError when there is no such column. *)
Definition drop_column (name : string) (df : csv_frame) : result csv_frame :=
  match index_of name (header df) with
  | None => Raise KeyError
  | Some j =>
      Ok (mkCsv (remove_nth j (header df))
                (map (fun r => mkRow (Country_Name r) (Indicator_Name r)
                                     (remove_nth j (cells r)))
                     (body df)))
  end.

(** [df.melt(id_vars=['Country', 'Indicator Name'], var_name='Year',
    value_name='Value')]: the value columns are stacked one after the
    other. *)
Definition melt (df : csv_frame) : list (melted string cell) :=
  flat_map (fun jl => map (fun r => mkMelted (Country_Name r) (Indicator_Name r)
                                             (snd jl)
                                             (nth (fst jl) (cells r) Blank))
                          (body df))
           (combine (seq 0 (length (header df))) (header df)).

(** A two-level key is NaN as soon as one of its parts is. *)
Definition key2 {A B : Type} (a : option A) (b : option B) : option (A * B) :=
  match a, b with
  | Some x, Some y => Some (x, y)
  | _, _ => None
  end.

Section Loader.

(** [pd.read_csv(filename, skiprows=4)], and [pd.to_numeric(...,
    errors='coerce')] on a column label (a year, or NaN) and on a text
    cell (a number, or NaN): file system and number syntax are
    parameters. *)
Variable read_csv : string -> result csv_frame.
Variable label_to_numeric : string -> option Z.
Variable text_to_numeric : string -> float.

Definition cell_to_numeric (c : cell) : float :=
  match c with
  | Number r => Some r
  | Text s => text_to_numeric s
  | Blank => None
  end.

(** The two [pd.to_numeric] lines. *)
Definition to_numeric (long : list (melted string cell))
    : list (melted (option Z) float) :=
  map (fun r => mkMelted (Country r) (Indicator r)
                         (label_to_numeric (Year r))
                         (cell_to_numeric (Value r)))
      long.

(** [pivot_table(index=['Country', 'Indicator Name'], columns='Year',
    values='Value')] *)
Definition pivot_years (long : list (melted (option Z) float))
    : Pandas.DataFrame (string * string) Z :=
  Pandas.pivot_table
    (map (fun r => (key2 (Country r) (Indicator r), Year r, Value r)) long).

(** [pivot_table(index=['Year', 'Indicator Name'], columns='Country',
    values='Value')] *)
Definition pivot_countries (long : list (melted (option Z) float))
    : Pandas.DataFrame (Z * string) string :=
  Pandas.pivot_table
    (map (fun r => (key2 (Year r) (Indicator r), Country r, Value r)) long).

(** A row of the frame holds a value: in some column whose label is a
    year, its cell is a number. *)
Definition row_has_value (df : csv_frame) (r : csv_row) : Prop :=
  exists j label y x,
    nth_error (header df) j = Some label /\
    label_to_numeric label = Some y /\
    cell_to_numeric (nth j (cells r) Blank) = Some x.

Definition file_read (filename : string)
    : result (Pandas.DataFrame (string * string) Z
              * Pandas.DataFrame (Z * string) string) :=
  df <- read_csv filename ;;
  (* drop: of the three columns only 'Unnamed: 66' is among [header] *)
  df <- drop_column "Unnamed: 66" df ;;
  (* rename: 'Country Name' becomes 'Country', the field [Country] below *)
  let long := to_numeric (melt df) in
  let df_years := pivot_years long in
  let df_countries := pivot_countries long in
  let df_years := Pandas.dropna_all_columns df_years in
  let df_countries := Pandas.dropna_all_columns df_countries in
  Ok (df_years, df_countries).

(** [isin]: a NaN name is in no list. *)
Definition isin (name : option string) (names : list string) : bool :=
  match name with
  | Some s => existsb (String.eqb s) names
  | None => false
  end.

Definition filter_Cereal_yield_data (filename : string)
    (countries indicators : list string) (start_year end_year : Z)
    : result (Pandas.DataFrame (string * string) Z) :=
  df <- read_csv filename ;;
  df <- drop_column "Unnamed: 66" df ;;
  (* the rows whose country and indicator are both in the lists *)
  let df := mkCsv (header df)
                  (filter (fun r => isin (Country_Name r) countries
                                    && isin (Indicator_Name r) indicators)
                          (body df)) in
  let long := to_numeric (melt df) in
  let data := pivot_years long in
  Ok (Pandas.loc_columns_slice data start_year end_year).

End Loader.

(** [list(range(1991, 2019))] *)
Definition subset_years : list Z := map Z.of_nat (seq 1991 (2019 - 1991)).

Definition subset_data (df_years : Pandas.DataFrame (string * string) Z)
    (countries indicators : list string)
    : result (Pandas.DataFrame Z (string * string)) :=
  let years := subset_years in
  df <- Pandas.loc df_years countries indicators years ;;
  let df := Pandas.transpose df in
  Ok df.



(** [pd.RangeIndex(n)], the default index of a new frame. *)
Definition RangeIndex (n : nat) : list Z := map Z.of_nat (seq 0 n).

Definition normalize_data {I C : Type} (df : Pandas.DataFrame I C)
    : result (Pandas.DataFrame Z C) :=
  let n := length (Pandas.index df) in
  scaled <- Sklearn.fit_transform n (Pandas.data df) ;;
  let df_normalized := Pandas.mkDF (RangeIndex n) (Pandas.columns df) scaled in
  Ok df_normalized.

Section Clustering.

Variable RandomState : Type.
Variable seeded : Z -> RandomState.
Variable init_centroids :
  RandomState -> list (list R) -> nat -> list (list R) * RandomState.
Variable relocate_empty :
  list (list R) -> list (list R) -> list Z -> Z -> list R.

(** [perform_kmeans_clustering(df, num_clusters)], run with numpy's global
    generator in state [global]; returns the labels and the state the
    global generator is left in. *)
Definition perform_kmeans_clustering {I C : Type} (global : RandomState)
    (df : Pandas.DataFrame I C) (num_clusters : nat)
    : result (list Z) * RandomState :=
  let kmeans := Sklearn.mkKMeans num_clusters 5 Sklearn.default_max_iter
                                 Sklearn.default_tol (Some 42%Z) in
  Sklearn.fit_predict seeded init_centroids relocate_empty global kmeans
                      (Pandas.rows df).

(** The two literal lists of the main block. *)
Definition main_indicators : list string :=
  ["Cereal yield (kg per hectare)"; "Population, total"]%string.

Definition main_countries : list string :=
  ["India"; "United States"; "China"; "Bangladesh"]%string.

(** The clustering part of the script's main block, from the entity-major
    table [df_years] that [file_read] returned: subset, normalise, fit
    KMeans with 3 clusters; yields [cluster_labels] and
    [cluster_centers]. *)
Definition main_clustering (global : RandomState)
    (df_years : Pandas.DataFrame (string * string) Z)
    : result (list Z * list (list R)) :=
  let indicators := main_indicators in
  let countries := main_countries in
  df <- subset_data df_years countries indicators ;;
  df_normalized <- normalize_data df ;;
  let n_clusters := 3%nat in
  let kmeans := Sklearn.mkKMeans n_clusters Sklearn.default_n_init
                                 Sklearn.default_max_iter
                                 Sklearn.default_tol (Some 42%Z) in
  fitted <- fst (Sklearn.fit seeded init_centroids relocate_empty global
                             kmeans (Pandas.rows df_normalized)) ;;
  Ok (Sklearn.labels_ fitted, Sklearn.cluster_centers_ fitted).

End Clustering.

(** ** print_cluster_summary *)

(** [np.bincount(x)] on an array of numpy integers, as KMeans returns its
    labels: the number of occurrences of each value from 0 to the largest
    one; no bin for an empty array; ValueError on a negative entry.
    Python integers beyond the range of int64 are no such array. *)
Definition count_of (v : Z) (xs : list Z) : nat :=
  length (filter (Z.eqb v) xs).

Definition bincount (xs : list Z) : result (list nat) :=
  if existsb (fun x => Z.ltb x 0) xs then Raise ValueError
  else match xs with
       | [] => Ok []
       | _ => Ok (map (fun v => count_of (Z.of_nat v) xs)
                      (seq 0 (S (Z.to_nat (fold_right Z.max 0%Z xs)))))
       end.

(** [str] of a non-negative integer, as an f-string formats it. *)
Definition str (n : nat) : string := NilEmpty.string_of_uint (Nat.to_uint n).

(** The lines [print_cluster_summary] prints. *)
Definition print_cluster_summary (cluster_labels : list Z)
    : result (list string) :=
  cluster_counts <- bincount cluster_labels ;;
  Ok (map (fun ic => ("Cluster " ++ str (fst ic + 1) ++ ": "
                      ++ str (snd ic) ++ " data points")%string)
          (combine (seq 0 (length cluster_counts)) cluster_counts)).

(** ** predict_future *)

(** One plotted line: abscissae, ordinates and legend label. *)
Record Line : Type := mkLine {
  line_x : list R;
  line_y : list float;
  line_label : string
}.

(** What [predict_future] leaves behind: the figure it shows.  The function
    has no return statement. *)
Record Figure : Type := mkFigure {
  lines : list Line;
  xlabel : string;
  ylabel : string;
  title : string
}.

(** [', '.join(indicators)] *)
Fixpoint join (sep : string) (l : list string) : string :=
  match l with
  | [] => EmptyString
  | [s] => s
  | s :: l' => (s ++ sep ++ join sep l')%string
  end.

Section PredictFuture.

Variable read_csv : string -> result csv_frame.
Variable label_to_numeric : string -> option Z.
Variable text_to_numeric : string -> float.
Variable t_ppf : R -> Z -> float.

(** [curve_fit(exp_growth, xdata, ydata)] on finite data: the fitted
    parameters and their covariance, or the error of a fit that does not
    converge.  scipy's solver is a parameter. *)
Variable curve_fit : list R -> list R -> result (list R * list (list float)).

(** The body of the fitting loop for row [i]: the value stored in
    [growth_rate[i]]. *)
Definition fit_row (xdata : list R) (row : list float) : result R :=
  match Numpy.all_finite row with
  | None => Raise ValueError
  | Some ydata =>
      '(popt, pcov) <- curve_fit xdata ydata ;;
      ci <- err_ranges t_ppf xdata ydata popt pcov (5 / 100) ;;
      match nth_error popt 1 with
      | Some b => Ok b
      | None => Raise ValueError
      end
  end.

Fixpoint fit_rows (xdata : list R) (rows : list (list float))
    : result (list R) :=
  match rows with
  | [] => Ok []
  | row :: rows' =>
      b <- fit_row xdata row ;;
      bs <- fit_rows xdata rows' ;;
      Ok (b :: bs)
  end.

Definition predict_future (Cereal_yield_data : string)
    (countries indicators : list string) (start_year end_year : Z)
    : result Figure :=
  data <- filter_Cereal_yield_data read_csv label_to_numeric text_to_numeric
            Cereal_yield_data countries indicators start_year end_year ;;
  let xdata := Numpy.arange (length (Pandas.columns data)) in
  (* growth_rate[i] = popt[1], every entry of row i *)
  rates <- fit_rows xdata (Pandas.rows data) ;;
  let growth_rate := map (fun b => map (fun _ => b) xdata) rates in
  (* the plot: the rows of [data]; [growth_rate] is not used *)
  Ok (mkFigure
        (map (fun kr => mkLine xdata (snd kr) (fst (fst kr)))
             (combine (Pandas.index data) (Pandas.rows data)))
        "Year" "Indicator Value" (join ", " indicators)).

End PredictFuture.

(** ** Observations of the long table

    The values the melted table holds for one country, one indicator and one
    year: one per row of the file with these two names and per column whose
    label is this year. *)
Definition name_is (name : option string) (s : string) : bool :=
  match name with
  | Some s' => String.eqb s' s
  | None => false
  end.

Definition year_is (year : option Z) (y : Z) : bool :=
  match year with
  | Some y' => Z.eqb y' y
  | None => false
  end.

Definition observations (long : list (melted (option Z) float))
    (c i : string) (y : Z) : list float :=
  map (fun m => Value m)
      (filter (fun m => name_is (Country m) c && name_is (Indicator m) i
                        && year_is (Year m) y)%bool
              long).

Section LoaderReadings.

Variable label_to_numeric : string -> option Z.
Variable text_to_numeric : string -> float.

(** Row [r] of the frame holds the value [x] for country [c], indicator [i]
    and year [y]: it bears the two names and, in a column whose label reads
    as [y], a cell that reads as [x]. *)
Definition holds (df : csv_frame) (r : csv_row) (c i : string) (y : Z)
    (x : R) : Prop :=
  Country_Name r = Some c /\ Indicator_Name r = Some i /\
  exists j label,
    nth_error (header df) j = Some label /\
    label_to_numeric label = Some y /\
    cell_to_numeric text_to_numeric (nth j (cells r) Blank) = Some x.

End LoaderReadings.

(** ** Example inputs *)

(** A reader of year labels: decimal digits only. *)
Definition digit_of (c : ascii) : option Z :=
  let n := nat_of_ascii c in
  if (Nat.leb 48 n && Nat.leb n 57)%bool then Some (Z.of_nat (n - 48)) else None.

Fixpoint parse_digits (acc : Z) (s : string) : option Z :=
  match s with
  | EmptyString => Some acc
  | String c s' =>
      match digit_of c with
      | Some d => parse_digits (10 * acc + d) s'
      | None => None
      end
  end.

Definition parse_year (s : string) : option Z :=
  match s with
  | EmptyString => None
  | _ => parse_digits 0 s
  end.

(** A small indicator file: two countries, one indicator, three years, and
    one row without any value. *)
Definition sample_csv : csv_frame :=
  mkCsv ["1990"; "1991"; "1992"; "Unnamed: 66"]%string
        [mkRow (Some "India") (Some "Population, total")
               [Number 870; Number 888; Number 906; Blank]%R;
         mkRow (Some "China") (Some "Population, total")
               [Number 1135; Number 1150; Number 1165; Blank]%R;
         mkRow (Some "Aruba") (Some "Population, total")
               [Blank; Blank; Blank; Blank]]%string.

(** The sample file once its trailing column is dropped. *)
Definition sample_csv_years : csv_frame :=
  mkCsv ["1990"; "1991"; "1992"]%string
        (map (fun r => mkRow (Country_Name r) (Indicator_Name r)
                             (remove_nth 3 (cells r)))
             (body sample_csv)).

Definition sample_read_csv (filename : string) : result csv_frame :=
  if String.eqb filename "WorldBank.csv" then Ok sample_csv
  else Raise FileNotFoundError.

Definition no_text_number (s : string) : float := None.

(** An entity-major table for the end-to-end scenario: five countries, the
    two indicators, the years 1990..2020, every cell present. *)
Definition scenario_keys : list (string * string) :=
  flat_map (fun c => [(c, "Cereal yield (kg per hectare)"%string);
                      (c, "Population, total"%string)])
           ["Bangladesh"; "Brazil"; "China"; "India"; "United States"]%string.

Definition scenario_years : list Z := map Z.of_nat (seq 1990 31).

Definition scenario_df_years : Pandas.DataFrame (string * string) Z :=
  Pandas.mkDF scenario_keys scenario_years
    (map (fun y => map (fun r => Some (IZR (y * Z.of_nat (S r))))
                       (seq 0 (length scenario_keys)))
         scenario_years).

(** A seeding and a replacement of empty clusters for the examples: the
    first [k] samples as centres (padded when there are fewer), and an empty
    cluster keeps its centre. *)
Definition first_rows_init (rs : unit) (X : list (list R)) (k : nat)
    : list (list R) * unit :=
  (firstn k X ++ repeat [] (k - length (firstn k X)), rs).

Definition keep_centre (X centers : list (list R)) (labels : list Z) (j : Z)
    : list R :=
  nth (Z.to_nat j) centers [].

Definition unit_seeded (seed : Z) : unit := tt.

(** A stand-in for the solver that reports scale 1 and rate [b] on any
    data. *)
Definition constant_fit (b : R) (xdata ydata : list R)
    : result (list R * list (list float)) :=
  Ok ([1%R; b], [[Some 0%R; Some 0%R]; [Some 0%R; Some 0%R]]).

(** A file in which one (country, indicator) pair comes twice. *)
Definition duplicate_csv : csv_frame :=
  mkCsv ["1990"; "Unnamed: 66"]%string
        [mkRow (Some "India") (Some "Population, total") [Number 10; Blank]%R;
         mkRow (Some "India") (Some "Population, total") [Number 20; Blank]%R]%string.

(** A file without the trailing column. *)
Definition short_csv : csv_frame :=
  mkCsv ["1990"; "1991"]%string
        [mkRow (Some "India") (Some "Population, total")
               [Number 870; Number 888]%R]%string.

(** The long table and the two views of the sample file. *)
Definition sample_long : list (melted (option Z) float) :=
  to_numeric parse_year no_text_number (melt sample_csv_years).

Definition sample_df_years : Pandas.DataFrame (string * string) Z :=
  pivot_years sample_long.

Definition sample_df_countries : Pandas.DataFrame (Z * string) string :=
  pivot_countries sample_long.

Definition duplicate_read_csv (filename : string) : result csv_frame :=
  Ok duplicate_csv.

Definition short_read_csv (filename : string) : result csv_frame :=
  Ok short_csv.

(** The scenario table with one cell missing: Bangladesh's cereal yield of
    the year 2000. *)
Definition gap_df_years : Pandas.DataFrame (string * string) Z :=
  Pandas.mkDF scenario_keys scenario_years
    (map (fun y => map (fun r => if (Z.eqb y 2000 && Nat.eqb r 0)%bool
                                 then None
                                 else Some (IZR (y * Z.of_nat (S r))))
                       (seq 0 (length scenario_keys)))
         scenario_years).

(** The table [filter_Cereal_yield_data] makes of the sample file for India,
    the population indicator and the years 1991 to 1992. *)
Definition sample_window : Pandas.DataFrame (string * string) Z :=
  Pandas.loc_columns_slice
    (pivot_years
       (to_numeric parse_year no_text_number
          (melt (mkCsv (header sample_csv_years)
                       (filter (fun r =>
                                  isin (Country_Name r) ["India"%string]
                                  && isin (Indicator_Name r)
                                          ["Population, total"%string])
                               (body sample_csv_years))))))
    1991 1992.

(** A file with a gap: no value for India in 1991. *)
Definition gap_csv : csv_frame :=
  mkCsv ["1990"; "1991"; "1992"; "Unnamed: 66"]%string
        [mkRow (Some "India") (Some "Population, total")
               [Number 870; Blank; Number 906; Blank]%R;
         mkRow (Some "China") (Some "Population, total")
               [Number 1135; Number 1150; Number 1165; Blank]%R]%string.

Definition gap_read_csv (filename : string) : result csv_frame :=
  Ok gap_csv.

(** * Properties *)

(** ** Small runs of the definitions *)

Example sorted_unique_strings :
  sorted_unique ["India"; "China"; "India"; "Aruba"]%string
  = ["Aruba"; "China"; "India"]%string.
Proof. reflexivity. Qed.

Example parse_year_labels :
  parse_year "1991" = Some 1991%Z /\ parse_year "Unnamed: 66" = None.
Proof. split; reflexivity. Qed.

Example subset_years_range :
  length subset_years = 28%nat /\
  hd 0%Z subset_years = 1991%Z /\ last subset_years 0%Z = 2018%Z.
Proof. repeat split; reflexivity. Qed.

Example get_locs_request_order :
  Pandas.get_locs [("A", "x"); ("A", "y"); ("B", "x"); ("B", "y")]%string
                  ["B"; "A"]%string ["y"]%string
  = Ok [3; 1]%nat.
Proof. reflexivity. Qed.

(** A label requested twice counts where it comes first. *)
Example get_locs_repeated_label :
  Pandas.get_locs [("A", "x"); ("A", "y"); ("B", "x"); ("B", "y")]%string
                  ["B"; "A"; "B"]%string ["y"]%string
  = Ok [3; 1]%nat.
Proof. reflexivity. Qed.

Example get_locs_missing_label :
  Pandas.get_locs [("A", "x"); ("B", "y")]%string ["A"; "C"]%string
                  ["x"]%string
  = Raise KeyError.
Proof. reflexivity. Qed.

Example err_df_examples :
  err_df [1; 2; 3; 4]%R [1; 0]%R = 2%Z /\
  err_df [1; 2]%R [1; 0]%R = 0%Z /\
  err_df [1]%R [1; 0]%R = 0%Z.
Proof. repeat split; reflexivity. Qed.

Example file_read_sample :
  exists df_years df_countries,
    file_read sample_read_csv parse_year no_text_number "WorldBank.csv"
    = Ok (df_years, df_countries) /\
    Pandas.index df_years
    = [("China", "Population, total"); ("India", "Population, total")]%string /\
    Pandas.columns df_years = [1990; 1991; 1992]%Z /\
    Pandas.columns df_countries = ["China"; "India"]%string /\
    Pandas.shape df_countries = (3%nat, 2%nat).
Proof.
  do 2 eexists. split; [vm_compute; reflexivity|]. repeat split; reflexivity.
Qed.

Example file_read_missing_file :
  file_read sample_read_csv parse_year no_text_number "nowhere.csv"
  = Raise FileNotFoundError.
Proof. reflexivity. Qed.

Lemma err_residuals_spec (xdata ydata : list R) (a b : R) :
  length xdata = length ydata ->
  err_residuals xdata ydata [a; b] = Ok (spec_residuals xdata ydata a b).
Proof.
  intros Hlen. unfold err_residuals, exp_growth_array, bind, Numpy.broadcast2.
  rewrite length_map, <- Hlen, Nat.eqb_refl. f_equal.
  unfold spec_residuals, exp_growth.
  clear Hlen. revert xdata; induction ydata as [|y ys IH]; intros [|x xs]; simpl; auto.
  now rewrite IH.
Qed.

Lemma err_df_two (ydata : list R) (a b : R) :
  (2 <= length ydata)%nat ->
  err_df ydata [a; b] = (Z.of_nat (length ydata) - 2)%Z.
Proof. unfold err_df; simpl length; lia. Qed.

Lemma err_df_small (ydata : list R) (a b : R) :
  (length ydata <= 2)%nat -> err_df ydata [a; b] = 0%Z.
Proof. unfold err_df; simpl length; lia. Qed.

Lemma sum_squares_nonneg (rs : list R) :
  (0 <= Numpy.sum (map (fun r => r * r) rs))%R.
Proof.
  induction rs as [|r rs IH]; simpl; [lra|].
  pose proof (Rle_0_sqr r) as H; unfold Rsqr in H; lra.
Qed.

Lemma err_stdev_zero_df (rs : list R) : err_stdev rs 0 = None.
Proof.
  unfold err_stdev, fdiv. destruct (Req_dec_T 0 0) as [_|H]; [reflexivity|].
  now destruct H.
Qed.

Lemma err_stdev_pos_df (rs : list R) (df : Z) :
  (0 < df)%Z ->
  err_stdev rs df =
  Some (sqrt (Numpy.sum (map (fun r => r * r)%R rs) / IZR df)).
Proof.
  intros Hdf. unfold err_stdev, fdiv.
  assert (0 < IZR df)%R as Hpos by now apply IZR_lt.
  destruct (Req_dec_T (IZR df) 0) as [E|_]; [lra|]. simpl.
  destruct (Rlt_dec _ 0) as [Hneg|_]; [|reflexivity].
  exfalso. pose proof (sum_squares_nonneg rs) as Hs.
  assert (0 <= Numpy.sum (map (fun r => r * r) rs) / IZR df)%R.
  { apply Rmult_le_pos; [assumption|]. left. now apply Rinv_0_lt_compat. }
  lra.
Qed.

Lemma cauchy_ppf_symmetric (q : R) (df : Z) :
  cauchy_ppf (1 - q) df = fmul (Some (-1)%R) (cauchy_ppf q df).
Proof.
  unfold cauchy_ppf. destruct (Z.leb df 0); [reflexivity|].
  destruct (Rlt_dec 0 (1 - q)), (Rlt_dec (1 - q) 1), (Rlt_dec 0 q), (Rlt_dec q 1);
    simpl; try reflexivity; try lra.
  f_equal. replace (PI * (1 - q - 1 / 2))%R with (- (PI * (q - 1 / 2)))%R by lra.
  rewrite tan_neg. lra.
Qed.

Lemma cauchy_ppf_defined (q : R) (df : Z) :
  (0 < q < 1)%R -> (0 < df)%Z -> cauchy_ppf q df <> None.
Proof.
  intros [H0 H1] Hdf. unfold cauchy_ppf.
  destruct (Z.leb_spec df 0); [lia|].
  destruct (Rlt_dec 0 q); [|lra]. destruct (Rlt_dec q 1); [|lra]. discriminate.
Qed.

Lemma half_widths_finite (t' s : R) (ds : list float) :
  Forall (fun d => exists v, d = Some v /\ (-1 <= v)%R) ds ->
  exists ci,
    map (fun d => fmul (fmul (fmul (Some (-1)%R) (Some t')) (Some s))
                       (fsqrt (fadd (Some 1%R) d))) ds = map Some ci /\
    length ci = length ds.
Proof.
  induction 1 as [|d ds [v [-> Hv]] _ [ci [Hci Hl]]].
  - exists []. split; reflexivity.
  - exists ((-1 * t' * s * sqrt (1 + v))%R :: ci).
    split; [|simpl; now rewrite Hl].
    cbn [map]. rewrite Hci. f_equal.
    unfold fadd, fmul, lift2, fsqrt.
    destruct (Rlt_dec (1 + v) 0); [lra|reflexivity].
Qed.

Section ErrRangesProps.

Variable t_ppf : R -> Z -> float.

(** Student's t is symmetric about zero: the upper quantile is the negated
    lower one. *)
Hypothesis t_ppf_symmetric :
  forall q df, t_ppf (1 - q) df = fmul (Some (-1)%R) (t_ppf q df).

(** The quantile is a finite number for a probability strictly between 0
    and 1 and a positive number of degrees of freedom. *)
Hypothesis t_ppf_defined :
  forall q df, (0 < q < 1)%R -> (0 < df)%Z -> t_ppf q df <> None.

(** C1: for a fitted row (as many abscissae as observations, at least as
    many observations as parameters) with its two parameters and their
    2 x 2 covariance matrix, err_ranges returns two half-widths, one per
    parameter; the half-width of parameter i is critical value * residual
    standard deviation * sqrt(1 + pcov[i][i]), where the residual standard
    deviation is sqrt(sum of squared residuals / (n - 2)) and the critical
    value is the two-sided Student-t value at alpha with n - 2 degrees of
    freedom.  The entries off the diagonal play no part. *)
Theorem err_ranges_formula (xdata ydata : list R) (a b : R)
    (c00 c01 c10 c11 : float) (alpha : R) :
  length xdata = length ydata ->
  (2 <= length ydata)%nat ->
  err_ranges t_ppf xdata ydata [a; b] [[c00; c01]; [c10; c11]] alpha
  = Ok [spec_half_width t_ppf xdata ydata a b alpha c00;
        spec_half_width t_ppf xdata ydata a b alpha c11].
Proof.
  intros Hlen Hn. unfold err_ranges.
  rewrite (err_residuals_spec _ _ a b Hlen). cbn [bind]. f_equal.
  unfold Numpy.diag. cbn [Numpy.diag_from nth_error map].
  unfold spec_half_width, spec_critical_value, spec_stdev, err_stdev.
  rewrite (err_df_two _ a b Hn), <- t_ppf_symmetric.
  rewrite minus_IZR, <- INR_IZR_INZ.
  change (Z.of_nat 2) with 2%Z. change (INR 2) with (IZR 2).
  reflexivity.
Qed.

(** C5: with two parameters, at most two observations make the degrees of
    freedom zero, the division in the residual standard deviation is a
    division by zero and every returned half-width is undefined; with
    more than two observations the divisor is positive, the standard
    deviation is a finite number and so is every half-width (for a valid
    alpha and covariance diagonal entries that keep the last square root
    real). *)
Theorem err_ranges_division_guard (xdata ydata : list R) (a b : R)
    (pcov : list (list float)) (alpha : R) :
  length xdata = length ydata ->
  exists residuals,
    err_residuals xdata ydata [a; b] = Ok residuals /\
    ((length ydata <= 2)%nat ->
       err_df ydata [a; b] = 0%Z /\
       err_stdev residuals (err_df ydata [a; b]) = None /\
       err_ranges t_ppf xdata ydata [a; b] pcov alpha
       = Ok (map (fun _ => None) (Numpy.diag pcov))) /\
    ((2 < length ydata)%nat ->
       (0 < err_df ydata [a; b])%Z /\
       (exists s, err_stdev residuals (err_df ydata [a; b]) = Some s) /\
       ((0 < alpha < 2)%R ->
        Forall (fun d => exists v, d = Some v /\ (-1 <= v)%R)
               (Numpy.diag pcov) ->
        exists ci, err_ranges t_ppf xdata ydata [a; b] pcov alpha
                   = Ok (map Some ci) /\
                   length ci = length (Numpy.diag pcov))).
Proof.
  intros Hlen. exists (spec_residuals xdata ydata a b).
  split; [now apply err_residuals_spec|]. split.
  - intros Hn. rewrite (err_df_small _ a b Hn).
    split; [reflexivity|]. split; [apply err_stdev_zero_df|].
    unfold err_ranges. rewrite (err_residuals_spec _ _ a b Hlen). cbn [bind].
    rewrite (err_df_small _ a b Hn), err_stdev_zero_df. f_equal.
    apply map_ext. intros d. unfold fmul, lift2.
    now destruct (t_ppf (alpha / 2) 0).
  - intros Hn.
    assert (0 < err_df ydata [a; b])%Z as Hdf
      by (rewrite err_df_two by lia; lia).
    split; [assumption|]. split.
    { eexists. now apply err_stdev_pos_df. }
    intros Halpha Hdiag. unfold err_ranges.
    rewrite (err_residuals_spec _ _ a b Hlen). cbn [bind].
    rewrite (err_stdev_pos_df _ Hdf).
    destruct (t_ppf (alpha / 2) (err_df ydata [a; b])) as [t|] eqn:Et.
    2:{ exfalso. apply (t_ppf_defined (q := (alpha / 2)%R) (df := err_df ydata [a; b]));
        [lra | assumption | assumption]. }
    edestruct (half_widths_finite t) as [ci [Hci Hl]]; [exact Hdiag|].
    exists ci. split; [|assumption]. f_equal. exact Hci.
Qed.

End ErrRangesProps.

(** Witness for [err_ranges_formula]: three observations of the constant
    series 1 fitted by a = 1, b = 0, with variances 4 and 9 and covariance
    1/2, Student's t with one degree of freedom. *)
Lemma err_ranges_formula_witness :
  err_ranges cauchy_ppf [0; 1; 2]%R [1; 1; 1]%R [1; 0]%R
    [[Some 4%R; Some (1 / 2)%R]; [Some (1 / 2)%R; Some 9%R]] (5 / 100)
  = Ok [spec_half_width cauchy_ppf [0; 1; 2]%R [1; 1; 1]%R 1 0 (5 / 100)
          (Some 4%R);
        spec_half_width cauchy_ppf [0; 1; 2]%R [1; 1; 1]%R 1 0 (5 / 100)
          (Some 9%R)].
Proof.
  apply (err_ranges_formula cauchy_ppf cauchy_ppf_symmetric); simpl;
    [reflexivity | lia].
Defined.

Lemma err_ranges_division_guard_witness :
  exists residuals,
    err_residuals [0; 1; 2]%R [1; 1; 1]%R [1; 0]%R = Ok residuals /\
    ((length [1; 1; 1]%R <= 2)%nat ->
       err_df [1; 1; 1]%R [1; 0]%R = 0%Z /\
       err_stdev residuals (err_df [1; 1; 1]%R [1; 0]%R) = None /\
       err_ranges cauchy_ppf [0; 1; 2]%R [1; 1; 1]%R [1; 0]%R
         [[Some 0%R; Some 0%R]; [Some 0%R; Some 0%R]] (5 / 100)
       = Ok (map (fun _ => None)
               (Numpy.diag [[Some 0%R; Some 0%R]; [Some 0%R; Some 0%R]]))) /\
    ((2 < length [1; 1; 1]%R)%nat ->
       (0 < err_df [1; 1; 1]%R [1; 0]%R)%Z /\
       (exists s, err_stdev residuals (err_df [1; 1; 1]%R [1; 0]%R) = Some s) /\
       ((0 < 5 / 100 < 2)%R ->
        Forall (fun d => exists v, d = Some v /\ (-1 <= v)%R)
               (Numpy.diag [[Some 0%R; Some 0%R]; [Some 0%R; Some 0%R]]) ->
        exists ci, err_ranges cauchy_ppf [0; 1; 2]%R [1; 1; 1]%R [1; 0]%R
                     [[Some 0%R; Some 0%R]; [Some 0%R; Some 0%R]] (5 / 100)
                   = Ok (map Some ci) /\
                   length ci
                   = length (Numpy.diag
                               [[Some 0%R; Some 0%R]; [Some 0%R; Some 0%R]]))).
Proof.
  apply (err_ranges_division_guard cauchy_ppf cauchy_ppf_defined). reflexivity.
Defined.

(** Two observations: the degrees of freedom are zero and both half-widths
    are undefined. *)
Example err_ranges_two_points :
  err_ranges cauchy_ppf [0; 1]%R [1; 1]%R [1; 0]%R
    [[Some 0%R; Some 0%R]; [Some 0%R; Some 0%R]] (5 / 100)
  = Ok [None; None].
Proof.
  unfold err_ranges.
  rewrite (@err_residuals_spec [0; 1]%R [1; 1]%R 1%R 0%R eq_refl).
  cbn [bind]. rewrite (@err_df_small [1; 1]%R 1%R 0%R) by (simpl; lia).
  rewrite err_stdev_zero_df. reflexivity.
Qed.

(** ** Keys: equality test, duplicates, sorting *)

#[export] Instance OrdLaws_string : OrdLaws string.
Proof.
  intros x y. unfold cmp, Ord_string. split.
  - apply String.compare_eq_iff.
  - intros ->. pose proof (String.compare_antisym y y) as H.
    destruct (String.compare y y); simpl in H; congruence.
Qed.

#[export] Instance OrdLaws_Z : OrdLaws Z.
Proof. intros x y. apply Z.compare_eq_iff. Qed.

#[export] Instance OrdLaws_nat : OrdLaws nat.
Proof. intros x y. apply Nat.compare_eq_iff. Qed.

#[export] Instance OrdLaws_prod {A B : Type} `{OrdLaws A} `{OrdLaws B} :
  OrdLaws (A * B).
Proof.
  intros [a b] [a' b']. unfold cmp, Ord_prod. simpl. split.
  - destruct (cmp a a') eqn:Ea; try discriminate.
    intros Eb. apply cmp_eq in Ea, Eb. congruence.
  - intros E. injection E as -> ->.
    rewrite (proj2 (cmp_eq a' a') eq_refl). now apply cmp_eq.
Qed.

Section KeyFacts.

Context {A : Type} `{OrdLaws A}.

Lemma key_eqb_eq (x y : A) : key_eqb x y = true <-> x = y.
Proof.
  unfold key_eqb. rewrite <- cmp_eq. destruct (cmp x y); intuition congruence.
Qed.

Lemma key_eqb_refl (x : A) : key_eqb x x = true.
Proof. now apply key_eqb_eq. Qed.

Lemma mem_In (x : A) (l : list A) : mem x l = true <-> In x l.
Proof.
  unfold mem. rewrite existsb_exists. split.
  - intros [y [Hy E]]. apply key_eqb_eq in E. now subst.
  - intros Hx. exists x. split; [assumption | apply key_eqb_refl].
Qed.

Lemma unique_In (x : A) (l : list A) : In x (unique l) <-> In x l.
Proof.
  induction l as [|y l IH]; simpl; [reflexivity|].
  destruct (mem y l) eqn:E.
  - rewrite IH. apply mem_In in E. split; [auto|]. intros [->|?]; auto.
  - simpl. rewrite IH. reflexivity.
Qed.

Lemma unique_NoDup (l : list A) : NoDup (unique l).
Proof.
  induction l as [|y l IH]; simpl; [constructor|].
  destruct (mem y l) eqn:E; [assumption|].
  constructor; [|assumption].
  rewrite unique_In, <- mem_In. congruence.
Qed.

Lemma insert_perm (x : A) (l : list A) : Permutation (insert x l) (x :: l).
Proof.
  induction l as [|y l IH]; simpl; [reflexivity|].
  destruct (key_leb y x); [|reflexivity].
  rewrite IH. apply perm_swap.
Qed.

Lemma sort_perm (l : list A) : Permutation (sort l) l.
Proof.
  unfold sort. rewrite (Permutation_rev l) at 2.
  induction (rev l) as [|y r IH]; simpl; [reflexivity|].
  rewrite insert_perm. now constructor.
Qed.

Lemma sorted_unique_In (x : A) (l : list A) :
  In x (sorted_unique l) <-> In x l.
Proof.
  unfold sorted_unique. rewrite <- (unique_In x l). split.
  - apply Permutation_in, sort_perm.
  - apply Permutation_in. symmetry. apply sort_perm.
Qed.

Lemma sorted_unique_NoDup (l : list A) : NoDup (sorted_unique l).
Proof.
  unfold sorted_unique.
  apply (Permutation_NoDup (l := unique l)); [|apply unique_NoDup].
  symmetry. apply sort_perm.
Qed.

Lemma index_of_Some (x : A) (l : list A) (j : nat) :
  index_of x l = Some j -> nth_error l j = Some x.
Proof.
  revert j. induction l as [|y l IH]; simpl; [discriminate|].
  intros j. destruct (key_eqb x y) eqn:E.
  - intros [= <-]. apply key_eqb_eq in E. now subst.
  - destruct (index_of x l) as [n|]; simpl; [|discriminate].
    intros [= <-]. simpl. now apply IH.
Qed.

Lemma index_of_In (x : A) (l : list A) :
  In x l -> exists j, index_of x l = Some j.
Proof.
  induction l as [|y l IH]; simpl; [contradiction|].
  intros Hin. destruct (key_eqb x y) eqn:E; [now exists 0%nat|].
  destruct Hin as [->|Hin]; [rewrite key_eqb_refl in E; discriminate|].
  destruct (IH Hin) as [j ->]. now exists (S j).
Qed.

End KeyFacts.

Section SortByFacts.

Context {A K : Type} `{Ord K}.
Variable key : A -> K.

Lemma insert_by_perm (x : A) (l : list A) :
  Permutation (insert_by key x l) (x :: l).
Proof.
  induction l as [|y l IH]; simpl; [reflexivity|].
  destruct (key_leb (key y) (key x)); [|reflexivity].
  rewrite IH. apply perm_swap.
Qed.

Lemma sort_by_perm (l : list A) : Permutation (sort_by key l) l.
Proof.
  unfold sort_by. rewrite (Permutation_rev l) at 2.
  induction (rev l) as [|y r IH]; simpl; [reflexivity|].
  rewrite insert_by_perm. now constructor.
Qed.

End SortByFacts.

(** ** pandas: frames, pivot_table *)

Module PandasFacts.

Import Pandas.

Lemma combine_seq_In (A : Type) (l : list A) (s j : nat) (x : A) :
  In (j, x) (combine (seq s (length l)) l) <->
  (s <= j)%nat /\ nth_error l (j - s) = Some x.
Proof.
  revert s. induction l as [|y l IH]; intros s; simpl.
  - split; [contradiction|]. intros [_ E]. destruct (j - s)%nat; discriminate.
  - rewrite IH. split.
    + intros [[= <- <-]|[Hle E]].
      * split; [lia|]. now rewrite Nat.sub_diag.
      * split; [lia|]. replace (j - s)%nat with (S (j - S s)) by lia. exact E.
    + intros [Hle E]. destruct (j - s)%nat as [|n] eqn:En.
      * left. injection E as ->. f_equal. lia.
      * right. split; [lia|]. replace (j - S s)%nat with n by lia. exact E.
Qed.

Lemma combine_seq0_In (A : Type) (l : list A) (j : nat) (x : A) :
  In (j, x) (combine (seq 0 (length l)) l) <-> nth_error l j = Some x.
Proof.
  rewrite combine_seq_In, Nat.sub_0_r. intuition lia.
Qed.

Lemma finite_values_In (vs : list float) (x : R) :
  In x (finite_values vs) <-> In (Some x) vs.
Proof.
  unfold finite_values. rewrite in_flat_map. split.
  - intros [[y|] [Hin Hx]]; simpl in Hx; [|contradiction].
    destruct Hx as [->|[]]. assumption.
  - intros Hin. exists (Some x). split; [assumption | now left].
Qed.

Lemma nanmean_finite (vs : list float) :
  is_finite (nanmean vs) = true <-> exists x, In (Some x) vs.
Proof.
  unfold nanmean. destruct (finite_values vs) as [|x xs] eqn:E; simpl.
  - split; [discriminate|]. intros [x Hx].
    apply finite_values_In in Hx. rewrite E in Hx. destruct Hx.
  - split; [|reflexivity]. intros _. exists x.
    apply finite_values_In. rewrite E. now left.
Qed.

Section Frames.

Context {I C : Type}.

Lemma dropna_index (df : DataFrame I C) :
  index (dropna_all_columns df) = index df.
Proof. reflexivity. Qed.

Lemma dropna_columns_length (df : DataFrame I C) :
  (length (columns (dropna_all_columns df)) <= length (columns df))%nat.
Proof.
  unfold dropna_all_columns. cbn [columns]. rewrite length_map.
  etransitivity; [apply filter_length_le|].
  rewrite length_combine. lia.
Qed.

Lemma dropna_columns_In (df : DataFrame I C) (c : C) :
  In c (columns (dropna_all_columns df)) -> In c (columns df).
Proof.
  unfold dropna_all_columns. cbn [columns]. rewrite in_map_iff.
  intros [[c' col] [<- Hin]]. apply filter_In in Hin as [Hin _].
  now apply in_combine_l in Hin.
Qed.

(** After [dropna(how='all', axis=1)] every column holds a value. *)
Lemma dropna_no_empty_column (df : DataFrame I C) :
  Forall (fun col => exists x, In (Some x) col)
         (data (dropna_all_columns df)).
Proof.
  unfold dropna_all_columns. cbn [data]. apply Forall_forall.
  intros col Hin. apply in_map_iff in Hin as [[c col'] [<- Hin]].
  apply filter_In in Hin as [_ Hex]. cbn [snd] in *.
  apply existsb_exists in Hex as [[x|] [Hx Hf]]; [|discriminate].
  now exists x.
Qed.

Lemma dropna_well_formed (df : DataFrame I C) :
  well_formed df -> well_formed (dropna_all_columns df).
Proof.
  intros [_ Hcols]. unfold well_formed, dropna_all_columns.
  cbn [data columns index]. split; [now rewrite !length_map|].
  apply Forall_forall. intros col Hin.
  apply in_map_iff in Hin as [[c col'] [<- Hin]].
  apply filter_In in Hin as [Hin _]. apply in_combine_r in Hin.
  rewrite Forall_forall in Hcols. now apply Hcols.
Qed.

End Frames.

Section PivotFacts.

Context {I C : Type} `{OrdLaws I} `{OrdLaws C}.

Lemma keyed_In (rs : list (@record I C)) (i : I) (c : C) (v : float) :
  In ((i, c), v) (keyed rs) <-> In (Some i, Some c, v) rs.
Proof.
  unfold keyed. rewrite in_flat_map. split.
  - intros [[[[i'|] [c'|]] v'] [Hin Hx]]; simpl in Hx; try contradiction.
    destruct Hx as [[= -> -> ->]|[]]. assumption.
  - intros Hin. exists (Some i, Some c, v). split; [assumption | now left].
Qed.

Lemma group_values_In (k : I * C) (rs : list (@record I C)) (v : float) :
  In v (group_values k rs) <-> In (k, v) (keyed rs).
Proof.
  unfold group_values. rewrite in_map_iff. split.
  - intros [[k' v'] [<- Hin]]. apply filter_In in Hin as [Hin E].
    cbn [fst snd] in *. apply key_eqb_eq in E. now subst.
  - intros Hin. exists (k, v). split; [reflexivity|].
    apply filter_In. split; [assumption | apply key_eqb_refl].
Qed.

Lemma group_keys_In (k : I * C) (rs : list (@record I C)) :
  In k (group_keys rs) <-> exists v, In (k, v) (keyed rs).
Proof.
  unfold group_keys. rewrite sorted_unique_In, in_map_iff. split.
  - intros [[k' v] [<- Hin]]. now exists v.
  - intros [v Hin]. now exists (k, v).
Qed.

(** The groups that survive [dropna]: the keys with at least one value. *)
Lemma surviving_groups_In (rs : list (@record I C)) (k : I * C) :
  In k (map fst (dropna_groups (agg_mean rs))) <->
  exists x, In (k, Some x) (keyed rs).
Proof.
  unfold dropna_groups, agg_mean. rewrite in_map_iff. split.
  - intros [[k' m] [<- Hin]]. apply filter_In in Hin as [Hin Hfin].
    apply in_map_iff in Hin as [k'' [[= <- <-] Hk]]. cbn [fst snd] in *.
    apply nanmean_finite in Hfin as [x Hx]. exists x.
    now apply group_values_In.
  - intros [x Hx]. exists (k, nanmean (group_values k rs)).
    split; [reflexivity|]. apply filter_In. split.
    + apply in_map_iff. exists k. split; [reflexivity|].
      apply group_keys_In. now exists (Some x).
    + apply nanmean_finite. exists x. now apply group_values_In.
Qed.

Lemma pivot_table_index_In (rs : list (@record I C)) (i : I) :
  In i (index (pivot_table rs)) <->
  exists c x, In (Some i, Some c, Some x) rs.
Proof.
  unfold pivot_table. rewrite dropna_index. unfold unstack. cbn [index].
  rewrite sorted_unique_In, in_map_iff. split.
  - intros [[[i' c] m] [<- Hin]].
    assert (In (i', c) (map fst (dropna_groups (agg_mean rs)))) as Hk
      by (apply in_map_iff; now exists ((i', c), m)).
    apply surviving_groups_In in Hk as [x Hx]. exists c, x.
    now apply keyed_In.
  - intros [c [x Hx]]. apply keyed_In in Hx.
    assert (In (i, c) (map fst (dropna_groups (agg_mean rs)))) as Hk
      by (apply surviving_groups_In; now exists x).
    apply in_map_iff in Hk as [[k m] [E Hin]]. cbn [fst] in E. subst k.
    now exists ((i, c), m).
Qed.

Lemma pivot_table_index_NoDup (rs : list (@record I C)) :
  NoDup (index (pivot_table rs)).
Proof.
  unfold pivot_table. rewrite dropna_index. apply sorted_unique_NoDup.
Qed.

Lemma unstack_columns_In (rs : list (@record I C)) (c : C) :
  In c (columns (unstack (dropna_groups (agg_mean rs)))) ->
  exists i x, In (Some i, Some c, Some x) rs.
Proof.
  unfold unstack. cbn [columns]. rewrite sorted_unique_In, in_map_iff.
  intros [[[i c'] m] [<- Hin]].
  assert (In (i, c') (map fst (dropna_groups (agg_mean rs)))) as Hk
    by (apply in_map_iff; now exists ((i, c'), m)).
  apply surviving_groups_In in Hk as [x Hx]. exists i, x.
  now apply keyed_In.
Qed.

Lemma pivot_table_columns_In (rs : list (@record I C)) (c : C) :
  In c (columns (pivot_table rs)) ->
  exists i x, In (Some i, Some c, Some x) rs.
Proof.
  intros Hin. apply unstack_columns_In.
  now apply dropna_columns_In.
Qed.

(** The pivoted table has at most as many columns as there are distinct
    column keys in any list [keys] that holds them all. *)
Lemma pivot_table_columns_length (rs : list (@record I C)) (keys : list C) :
  (forall i c x, In (Some i, Some c, Some x) rs -> In c keys) ->
  (length (columns (pivot_table rs)) <= length keys)%nat.
Proof.
  intros Hkeys. unfold pivot_table.
  etransitivity; [apply dropna_columns_length|].
  apply NoDup_incl_length.
  - unfold unstack. cbn [columns]. apply sorted_unique_NoDup.
  - intros c Hc. apply unstack_columns_In in Hc as [i [x Hx]].
    now apply (Hkeys i c x).
Qed.

Lemma unstack_well_formed (agged : list (I * C * float)) :
  well_formed (unstack agged).
Proof.
  unfold well_formed, unstack. cbn [data columns index].
  split; [now rewrite length_map|].
  apply Forall_forall. intros col Hin.
  apply in_map_iff in Hin as [c [<- _]]. now rewrite length_map.
Qed.

Lemma pivot_table_well_formed (rs : list (@record I C)) :
  well_formed (pivot_table rs).
Proof. apply dropna_well_formed, unstack_well_formed. Qed.

End PivotFacts.

End PandasFacts.

(** ** Loader *)

Lemma melt_In (df : csv_frame) (m : melted string cell) :
  In m (melt df) <->
  exists j label r,
    nth_error (header df) j = Some label /\ In r (body df) /\
    m = mkMelted (Country_Name r) (Indicator_Name r) label
                 (nth j (cells r) Blank).
Proof.
  unfold melt. rewrite in_flat_map. split.
  - intros [[j label] [Hjl Hin]]. apply PandasFacts.combine_seq0_In in Hjl.
    apply in_map_iff in Hin as [r [<- Hr]]. now exists j, label, r.
  - intros [j [label [r [Hj [Hr ->]]]]]. exists (j, label). split.
    + now apply PandasFacts.combine_seq0_In.
    + apply in_map_iff. now exists r.
Qed.

Lemma flat_map_length_le (A B : Type) (f : A -> list B) (l : list A) :
  (forall x, length (f x) <= 1)%nat ->
  (length (flat_map f l) <= length l)%nat.
Proof.
  intros Hf. induction l as [|x l IH]; simpl; [lia|].
  rewrite length_app. specialize (Hf x). lia.
Qed.

Section LoaderProps.

Variable read_csv : string -> result csv_frame.
Variable label_to_numeric : string -> option Z.
Variable text_to_numeric : string -> float.

Let numeric := to_numeric label_to_numeric text_to_numeric.

Lemma to_numeric_melt_In (df : csv_frame) (m : melted (option Z) float) :
  In m (numeric (melt df)) <->
  exists j label r,
    nth_error (header df) j = Some label /\ In r (body df) /\
    m = mkMelted (Country_Name r) (Indicator_Name r)
                 (label_to_numeric label)
                 (cell_to_numeric text_to_numeric (nth j (cells r) Blank)).
Proof.
  unfold numeric, to_numeric. rewrite in_map_iff. split.
  - intros [m0 [<- Hin]]. apply melt_In in Hin as [j [label [r [Hj [Hr ->]]]]].
    now exists j, label, r.
  - intros [j [label [r [Hj [Hr ->]]]]].
    exists (mkMelted (Country_Name r) (Indicator_Name r) label
                     (nth j (cells r) Blank)).
    split; [reflexivity|]. apply melt_In. now exists j, label, r.
Qed.

(** The rows of [pivot_years]: the (country, indicator) pairs of the rows
    that hold a value. *)
Lemma pivot_years_index_In (df : csv_frame) (k : string * string) :
  In k (Pandas.index (pivot_years (numeric (melt df)))) <->
  exists r, In r (body df) /\
            key2 (Country_Name r) (Indicator_Name r) = Some k /\
            row_has_value label_to_numeric text_to_numeric df r.
Proof.
  unfold pivot_years. rewrite PandasFacts.pivot_table_index_In. split.
  - intros [y [x Hin]]. apply in_map_iff in Hin as [m [E Hm]].
    apply to_numeric_melt_In in Hm as [j [label [r [Hj [Hr ->]]]]].
    cbn in E. injection E as Ek Ey Ex.
    exists r. split; [assumption|]. split; [assumption|].
    now exists j, label, y, x.
  - intros [r [Hr [Ek [j [label [y [x [Hj [Ey Ex]]]]]]]]].
    exists y, x. apply in_map_iff.
    exists (mkMelted (Country_Name r) (Indicator_Name r)
                     (label_to_numeric label)
                     (cell_to_numeric text_to_numeric (nth j (cells r) Blank))).
    split; [cbn; now rewrite Ek, Ey, Ex|].
    apply to_numeric_melt_In. now exists j, label, r.
Qed.

Lemma pivot_years_columns_length (df : csv_frame) :
  (length (Pandas.columns (pivot_years (numeric (melt df))))
   <= length (header df))%nat.
Proof.
  unfold pivot_years.
  etransitivity;
    [apply PandasFacts.pivot_table_columns_length
       with (keys := flat_map (fun l => match label_to_numeric l with
                                        | Some y => [y]
                                        | None => []
                                        end) (header df))|].
  - intros k y x Hin. apply in_map_iff in Hin as [m [E Hm]].
    apply to_numeric_melt_In in Hm as [j [label [r [Hj [Hr ->]]]]].
    cbn in E. injection E as _ Ey _.
    apply in_flat_map. exists label. split.
    + eapply nth_error_In; eassumption.
    + rewrite Ey. now left.
  - apply flat_map_length_le. intros l.
    destruct (label_to_numeric l); simpl; lia.
Qed.

(** C7: after loading, neither pivoted view has a column without any value;
    the entity-major view has at most as many columns as the file has year
    columns, and its rows are exactly the (country, indicator) pairs of
    the rows of the file that hold at least one value, each pair once. *)
Theorem file_read_pivots (filename : string) (raw df : csv_frame) :
  read_csv filename = Ok raw ->
  drop_column "Unnamed: 66" raw = Ok df ->
  exists df_years df_countries,
    file_read read_csv label_to_numeric text_to_numeric filename
    = Ok (df_years, df_countries) /\
    Pandas.well_formed df_years /\
    Pandas.well_formed df_countries /\
    Forall (fun col => exists x, In (Some x) col) (Pandas.data df_years) /\
    Forall (fun col => exists x, In (Some x) col) (Pandas.data df_countries) /\
    (length (Pandas.columns df_years) <= length (header df))%nat /\
    NoDup (Pandas.index df_years) /\
    (forall k, In k (Pandas.index df_years) <->
               exists r, In r (body df) /\
                         key2 (Country_Name r) (Indicator_Name r) = Some k /\
                         row_has_value label_to_numeric text_to_numeric df r).
Proof.
  intros Hread Hdrop. unfold file_read. rewrite Hread. cbn [bind].
  rewrite Hdrop. cbn [bind]. do 2 eexists. split; [reflexivity|].
  fold numeric.
  split; [apply PandasFacts.dropna_well_formed; unfold pivot_years;
          exact (PandasFacts.pivot_table_well_formed _)|].
  split; [apply PandasFacts.dropna_well_formed; unfold pivot_countries;
          exact (PandasFacts.pivot_table_well_formed _)|].
  split; [apply PandasFacts.dropna_no_empty_column|].
  split; [apply PandasFacts.dropna_no_empty_column|].
  split.
  { etransitivity; [apply PandasFacts.dropna_columns_length|].
    apply pivot_years_columns_length. }
  rewrite PandasFacts.dropna_index. split.
  - unfold pivot_years. exact (PandasFacts.pivot_table_index_NoDup _).
  - apply pivot_years_index_In.
Qed.

End LoaderProps.

Lemma file_read_pivots_witness :
  exists df_years df_countries,
    file_read sample_read_csv parse_year no_text_number "WorldBank.csv"
    = Ok (df_years, df_countries) /\
    Pandas.well_formed df_years /\
    Pandas.well_formed df_countries /\
    Forall (fun col => exists x, In (Some x) col) (Pandas.data df_years) /\
    Forall (fun col => exists x, In (Some x) col) (Pandas.data df_countries) /\
    (length (Pandas.columns df_years) <= length (header sample_csv_years))%nat /\
    NoDup (Pandas.index df_years) /\
    (forall k, In k (Pandas.index df_years) <->
               exists r,
                 In r (body sample_csv_years) /\
                 key2 (Country_Name r) (Indicator_Name r) = Some k /\
                 row_has_value parse_year no_text_number sample_csv_years r).
Proof.
  apply (file_read_pivots sample_read_csv parse_year no_text_number
           "WorldBank.csv" (raw := sample_csv) (df := sample_csv_years));
    reflexivity.
Defined.

(** ** Label-based selection *)

Module LocFacts.

Import Pandas.

Lemma level_has_In (level : list string) (x : string) :
  level_has level x = true <-> In x level.
Proof.
  unfold level_has. rewrite existsb_exists. split.
  - intros [y [Hy E]]. apply String.eqb_eq in E. now subst.
  - intros Hx. exists x. split; [assumption | apply String.eqb_refl].
Qed.

Lemma forallb_level_has_false (level requested : list string) :
  (exists x, In x requested /\ ~ In x level) ->
  forallb (level_has level) requested = false.
Proof.
  intros [x [Hx Hn]]. apply not_true_is_false. intros Hall.
  rewrite forallb_forall in Hall. apply Hn, level_has_In. now apply Hall.
Qed.

(** A requested label that the index does not hold makes [get_locs] raise,
    as soon as neither list is empty. *)
Lemma get_locs_KeyError (idx : list (string * string))
    (countries indicators : list string) :
  countries <> [] -> indicators <> [] ->
  (exists c, In c countries /\ ~ In c (map fst idx)) \/
  (exists i, In i indicators /\ ~ In i (map snd idx)) ->
  get_locs idx countries indicators = Raise KeyError.
Proof.
  intros Hc Hi Habsent. unfold get_locs.
  destruct countries as [|c0 cs]; [congruence|].
  destruct (forallb (level_has (map fst idx)) (c0 :: cs)) eqn:Ec;
    [|reflexivity]. cbn [negb].
  destruct indicators as [|i0 inds]; [congruence|].
  destruct Habsent as [Habs|Habs].
  - apply forallb_level_has_false in Habs. congruence.
  - apply forallb_level_has_false in Habs. now rewrite Habs.
Qed.

Lemma filter_combine_seq (A : Type) (f : A -> bool) (l : list A) (s : nat) :
  map snd (filter (fun pk => f (snd pk)) (combine (seq s (length l)) l))
  = filter f l.
Proof.
  revert s. induction l as [|x l IH]; intros s; simpl; [reflexivity|].
  destruct (f x); simpl; now rewrite IH.
Qed.

Lemma take_positions (A : Type) (idx : list A) (l : list (nat * A)) :
  Forall (fun pk => nth_error idx (fst pk) = Some (snd pk)) l ->
  take (map fst l) idx = map snd l.
Proof.
  induction 1 as [|[p k] l Hpk _ IH]; [reflexivity|].
  unfold take in *. cbn [map flat_map fst snd] in *. now rewrite Hpk, IH.
Qed.

Lemma positions_valid (A : Type) (idx : list A) :
  Forall (fun pk => nth_error idx (fst pk) = Some (snd pk))
         (combine (seq 0 (length idx)) idx).
Proof.
  apply Forall_forall. intros [p k] Hin.
  now apply PandasFacts.combine_seq0_In in Hin.
Qed.

(** The rows [get_locs] selects: those whose country and indicator are both
    requested, each once. *)
Lemma get_locs_rows (idx : list (string * string))
    (countries indicators : list string) (positions : list nat) :
  get_locs idx countries indicators = Ok positions ->
  Permutation (take positions idx)
              (filter (requested countries indicators) idx).
Proof.
  unfold get_locs.
  destruct countries as [|c0 cs].
  { intros [= <-]. unfold requested. simpl.
    induction idx as [|k idx IH]; [reflexivity | exact IH]. }
  destruct (negb (forallb (level_has (map fst idx)) (c0 :: cs)));
    [discriminate|].
  destruct indicators as [|i0 inds].
  { intros [= <-]. unfold requested. simpl.
    induction idx as [|k idx IH]; [reflexivity|].
    simpl. now rewrite andb_false_r. }
  destruct (negb (forallb (level_has (map snd idx)) (i0 :: inds)));
    [discriminate|].
  set (sel := filter _ (combine _ idx)).
  assert (map snd sel = filter (requested (c0 :: cs) (i0 :: inds)) idx) as Hsel
    by apply (filter_combine_seq (requested (c0 :: cs) (i0 :: inds))).
  destruct sel as [|pk sel'] eqn:Esel; [discriminate|].
  intros [= <-]. rewrite <- Hsel, <- Esel.
  set (key := fun pk : nat * (string * string) =>
                request_rank (c0 :: cs) (i0 :: inds) (snd pk)).
  change (Permutation (take (map fst (sort_by key sel)) idx) (map snd sel)).
  rewrite take_positions.
  - apply Permutation_map, sort_by_perm.
  - apply (Permutation_Forall (x := sel)).
    + symmetry. apply sort_by_perm.
    + subst sel. apply Forall_forall. intros x Hx.
      apply filter_In in Hx as [Hx _].
      pose proof (positions_valid idx) as Hv.
      rewrite Forall_forall in Hv. now apply Hv.
Qed.

Lemma get_columns_length (I C : Type) `{OrdLaws C} (df : DataFrame I C)
    (labels : list C) (cols : list (list float)) :
  get_columns df labels = Ok cols -> length cols = length labels.
Proof.
  revert cols. induction labels as [|l labels IH]; simpl; intros cols.
  - now intros [= <-].
  - destruct (index_of l (columns df)); [|discriminate].
    destruct (get_columns df labels) as [rest|]; [|discriminate].
    cbn [bind]. intros [= <-]. simpl. f_equal. now apply IH.
Qed.

Lemma get_columns_absent (I C : Type) `{OrdLaws C} (df : DataFrame I C)
    (labels : list C) :
  (exists l, In l labels /\ ~ In l (columns df)) ->
  get_columns df labels = Raise KeyError.
Proof.
  intros [l [Hl Hn]]. induction labels as [|l' labels IH]; [destruct Hl|].
  simpl. destruct (index_of l' (columns df)) as [j|] eqn:E; [|reflexivity].
  destruct Hl as [->|Hl].
  - exfalso. apply Hn. apply index_of_Some in E.
    eapply nth_error_In; eassumption.
  - now rewrite (IH Hl).
Qed.

End LocFacts.

(** One row per year of [range(1991, 2019)], one column per selected
    (country, indicator) row of the table. *)
Lemma subset_data_shape (df_years : Pandas.DataFrame (string * string) Z)
    (countries indicators : list string)
    (df : Pandas.DataFrame Z (string * string)) :
  subset_data df_years countries indicators = Ok df ->
  Pandas.index df = subset_years /\
  Permutation (Pandas.columns df)
              (filter (Pandas.requested countries indicators)
                      (Pandas.index df_years)) /\
  Pandas.shape df
  = (28%nat, length (filter (Pandas.requested countries indicators)
                            (Pandas.index df_years))).
Proof.
  unfold subset_data, Pandas.loc.
  destruct (Pandas.get_locs (Pandas.index df_years) countries indicators)
    as [positions|] eqn:Elocs; [|discriminate]. cbn [bind].
  destruct (Pandas.get_columns _ subset_years) as [cols|]; [|discriminate].
  cbn [bind]. intros [= <-].
  apply LocFacts.get_locs_rows in Elocs.
  unfold Pandas.shape, Pandas.transpose. cbn [Pandas.index Pandas.columns].
  split; [reflexivity|]. split; [assumption|].
  f_equal. now apply Permutation_length.
Qed.

Lemma subset_data_KeyError (df_years : Pandas.DataFrame (string * string) Z)
    (countries indicators : list string) :
  countries <> [] -> indicators <> [] ->
  (exists c, In c countries /\ ~ In c (map fst (Pandas.index df_years))) \/
  (exists i, In i indicators /\ ~ In i (map snd (Pandas.index df_years))) ->
  subset_data df_years countries indicators = Raise KeyError.
Proof.
  intros Hc Hi Habsent. unfold subset_data, Pandas.loc.
  now rewrite (LocFacts.get_locs_KeyError _ Hc Hi Habsent).
Qed.

(** ** Subsetting and filtering by keys *)

Lemma isin_In (name : option string) (names : list string) :
  isin name names = true <-> exists s, name = Some s /\ In s names.
Proof.
  destruct name as [s|]; simpl.
  - rewrite (LocFacts.level_has_In names s : existsb _ _ = true <-> _).
    split; [intros Hs; now exists s | now intros [s' [[= <-] Hs]]].
  - split; [discriminate | now intros [s [E _]]].
Qed.

Lemma filter_Cereal_yield_data_rows
    (read_csv : string -> result csv_frame)
    (label_to_numeric : string -> option Z) (text_to_numeric : string -> float)
    (filename : string) (raw df : csv_frame)
    (countries indicators : list string) (start_year end_year : Z) :
  read_csv filename = Ok raw ->
  drop_column "Unnamed: 66" raw = Ok df ->
  exists t,
    filter_Cereal_yield_data read_csv label_to_numeric text_to_numeric
      filename countries indicators start_year end_year = Ok t /\
    forall k, In k (Pandas.index t) <->
              In (fst k) countries /\ In (snd k) indicators /\
              exists r, In r (body df) /\
                        key2 (Country_Name r) (Indicator_Name r) = Some k /\
                        row_has_value label_to_numeric text_to_numeric df r.
Proof.
  intros Hread Hdrop. unfold filter_Cereal_yield_data.
  rewrite Hread. cbn [bind]. rewrite Hdrop. cbn [bind].
  eexists. split; [reflexivity|]. intros k.
  unfold Pandas.loc_columns_slice. cbn [Pandas.index].
  rewrite pivot_years_index_In. cbn [body]. split.
  - intros [r [Hr [Ek Hv]]]. apply filter_In in Hr as [Hr Hsel].
    apply andb_true_iff in Hsel as [Hc Hi].
    apply isin_In in Hc as [c [Ec Hc]]. apply isin_In in Hi as [i [Ei Hi]].
    rewrite Ec, Ei in Ek. injection Ek as <-. cbn [fst snd].
    split; [assumption|]. split; [assumption|].
    exists r. split; [assumption|]. split; [now rewrite Ec, Ei | exact Hv].
  - intros [Hc [Hi [r [Hr [Ek Hv]]]]]. exists r.
    split; [|split; [assumption | exact Hv]].
    apply filter_In. split; [assumption|].
    destruct (Country_Name r) as [c|], (Indicator_Name r) as [i|];
      try discriminate. injection Ek as <-. cbn [fst snd] in *.
    apply andb_true_iff. split; apply isin_In; eauto.
Qed.

(** C6, as amended: [subset_data] raises KeyError as soon as a requested
    country or indicator is not in the table's row index (neither list being
    empty), whereas [filter_Cereal_yield_data] does not fail on absent keys:
    it returns the rows of the file whose country and indicator are both
    requested (and that hold a value). *)
Theorem subsetting_absent_keys :
  (forall (df_years : Pandas.DataFrame (string * string) Z)
          (countries indicators : list string),
     countries <> [] -> indicators <> [] ->
     (exists c, In c countries /\ ~ In c (map fst (Pandas.index df_years))) \/
     (exists i, In i indicators /\ ~ In i (map snd (Pandas.index df_years))) ->
     subset_data df_years countries indicators = Raise KeyError) /\
  (forall (read_csv : string -> result csv_frame)
          (label_to_numeric : string -> option Z)
          (text_to_numeric : string -> float)
          (filename : string) (raw df : csv_frame)
          (countries indicators : list string) (start_year end_year : Z),
     read_csv filename = Ok raw ->
     drop_column "Unnamed: 66" raw = Ok df ->
     exists t,
       filter_Cereal_yield_data read_csv label_to_numeric text_to_numeric
         filename countries indicators start_year end_year = Ok t /\
       forall k, In k (Pandas.index t) <->
                 In (fst k) countries /\ In (snd k) indicators /\
                 exists r, In r (body df) /\
                           key2 (Country_Name r) (Indicator_Name r) = Some k /\
                           row_has_value label_to_numeric text_to_numeric df r).
Proof.
  split.
  - apply subset_data_KeyError.
  - apply filter_Cereal_yield_data_rows.
Qed.

(** C6, counterexample: the file has no country "Atlantis", yet filtering for
    India and Atlantis does not fail; it returns the row of India alone. *)
Lemma filter_returns_partial_match :
  ~ In (Some "Atlantis"%string) (map Country_Name (body sample_csv)) /\
  exists t,
    filter_Cereal_yield_data sample_read_csv parse_year no_text_number
      "WorldBank.csv" ["India"; "Atlantis"]%string
      ["Population, total"]%string 1991 2019 = Ok t /\
    Pandas.index t = [("India", "Population, total")]%string /\
    Pandas.columns t = [1991; 1992]%Z.
Proof.
  split.
  - simpl. intros [H|[H|[H|[]]]]; discriminate.
  - eexists. split; [vm_compute; reflexivity|]. split; reflexivity.
Qed.

Lemma subsetting_absent_keys_witness :
  subset_data scenario_df_years ["India"; "Atlantis"]%string
    ["Population, total"]%string = Raise KeyError /\
  exists t,
    filter_Cereal_yield_data sample_read_csv parse_year no_text_number
      "WorldBank.csv" ["India"; "Atlantis"]%string
      ["Population, total"]%string 1991 2019 = Ok t /\
    forall k, In k (Pandas.index t) <->
              In (fst k) ["India"; "Atlantis"]%string /\
              In (snd k) ["Population, total"]%string /\
              exists r, In r (body sample_csv_years) /\
                        key2 (Country_Name r) (Indicator_Name r) = Some k /\
                        row_has_value parse_year no_text_number
                                      sample_csv_years r.
Proof.
  destruct subsetting_absent_keys as [Hsubset Hfilter]. split.
  - apply Hsubset; [discriminate | discriminate |].
    left. exists "Atlantis"%string. split; [simpl; auto|].
    simpl. intuition discriminate.
  - apply (Hfilter sample_read_csv parse_year no_text_number
             "WorldBank.csv"%string sample_csv sample_csv_years); reflexivity.
Defined.

Lemma forallb_is_finite (rows : list (list float)) :
  forallb (forallb is_finite) rows = true ->
  Forall (Forall (fun v => v <> None)) rows.
Proof.
  intros Hall. rewrite forallb_forall in Hall. apply Forall_forall.
  intros r Hr. specialize (Hall r Hr). rewrite forallb_forall in Hall.
  apply Forall_forall. intros v Hv. specialize (Hall v Hv).
  destruct v; [discriminate | discriminate].
Qed.

(** The subset of the scenario table. *)
Lemma scenario_subset :
  exists df,
    subset_data scenario_df_years main_countries main_indicators = Ok df /\
    Pandas.shape df = (28%nat, 8%nat) /\
    Pandas.index df = map Z.of_nat (seq 1991 28) /\
    Forall (Forall (fun v => v <> None)) (Pandas.data df).
Proof.
  eexists. split; [vm_compute; reflexivity|].
  split; [reflexivity|]. split; [reflexivity|].
  apply forallb_is_finite. vm_compute. reflexivity.
Qed.

(** C3: on the scenario table, which holds every year from 1990 to 2020 for
    the four countries and two indicators, [subset_data] returns 8 columns
    and 28 rows, the years 1991..2018: the year 2019 of the table is not
    among them. *)
Theorem subset_data_scenario_shape :
  In 2019%Z (Pandas.columns scenario_df_years) /\
  exists df,
    subset_data scenario_df_years main_countries main_indicators = Ok df /\
    Pandas.shape df = (28%nat, 8%nat) /\
    Pandas.index df = map Z.of_nat (seq 1991 28) /\
    ~ In 2019%Z (Pandas.index df).
Proof.
  split.
  - vm_compute. do 29 right. now left.
  - destruct scenario_subset as [df [Hsub [Hshape [Hidx _]]]].
    exists df. split; [assumption|]. split; [assumption|].
    split; [assumption|]. rewrite Hidx. vm_compute. intuition discriminate.
Qed.

(** ** Normalisation *)

Lemma fit_transform_Ok (n : nat) (X : list (list float)) :
  n <> 0%nat -> X <> [] ->
  Sklearn.fit_transform n X = Ok (map Sklearn.scale_column X).
Proof.
  intros Hn HX. unfold Sklearn.fit_transform.
  destruct n; [congruence|]. destruct X; [congruence | reflexivity].
Qed.

Lemma scale_column_length (col : list float) :
  length (Sklearn.scale_column col) = length col.
Proof. unfold Sklearn.scale_column. apply length_map. Qed.

Lemma RangeIndex_length (n : nat) : length (RangeIndex n) = n.
Proof. unfold RangeIndex. now rewrite length_map, length_seq. Qed.




(** ** Correlation matrix *)

Module CorrFacts.

Import Pandas.









End CorrFacts.




(** ** KMeans *)

Module KMeansFacts.

Import Sklearn.

Lemma argmin_from_range (vs : list R) (i best : Z) (v : R) :
  (0 <= best < i)%Z ->
  (0 <= argmin_from i best v vs < i + Z.of_nat (length vs))%Z.
Proof.
  revert i best v. induction vs as [|w vs IH]; intros i best v Hb; simpl.
  - lia.
  - destruct (Rlt_dec w v).
    + specialize (IH (i + 1)%Z i w). lia.
    + specialize (IH (i + 1)%Z best v). lia.
Qed.

Lemma argmin_range (vs : list R) :
  vs <> [] -> (0 <= argmin vs < Z.of_nat (length vs))%Z.
Proof.
  destruct vs as [|v vs]; [congruence|]. intros _. unfold argmin.
  pose proof (argmin_from_range vs (i := 1) (best := 0) v). simpl length. lia.
Qed.

Lemma e_step_labelling (X centers : list (list R)) :
  centers <> [] -> labelling X (length centers) (e_step X centers).
Proof.
  intros Hc. unfold labelling, e_step. split; [apply length_map|].
  apply Forall_map, Forall_forall. intros x _.
  rewrite <- (length_map (sqdist x) centers). apply argmin_range.
  destruct centers; [congruence | discriminate].
Qed.

Section Fit.

Variable RandomState : Type.
Variable seeded : Z -> RandomState.
Variable init_centroids :
  RandomState -> list (list R) -> nat -> list (list R) * RandomState.
Variable relocate_empty :
  list (list R) -> list (list R) -> list Z -> Z -> list R.

(** The seeding returns as many centres as clusters were asked for. *)
Hypothesis init_centroids_length :
  forall rs X k, length (fst (init_centroids rs X k)) = k.

Lemma m_step_length (X centers : list (list R)) (labels : list Z) (k : nat) :
  length (m_step relocate_empty X centers labels k) = k.
Proof. unfold m_step. now rewrite length_map, length_seq. Qed.

Lemma lloyd_loop_invariant (fuel : nat) (X : list (list R)) (k : nat)
    (tolerance : R) (centers : list (list R)) (labels_old : list Z) :
  k <> 0%nat -> length centers = k ->
  let '(labels, centers', strict) :=
    lloyd_loop relocate_empty fuel X k tolerance centers labels_old in
  length centers' = k /\ (strict = true -> labelling X k labels).
Proof.
  intros Hk. revert centers labels_old.
  induction fuel as [|fuel IH]; intros centers labels_old Hc; simpl.
  - split; [assumption | discriminate].
  - destruct (labels_eqb (e_step X centers) labels_old).
    + split; [apply m_step_length|]. intros _. rewrite <- Hc.
      apply e_step_labelling. destruct centers; [simpl in Hc; congruence | discriminate].
    + destruct (Rle_dec _ tolerance).
      * split; [apply m_step_length | discriminate].
      * apply IH. apply m_step_length.
Qed.

Lemma kmeans_single_labelling (X : list (list R)) (k iterations : nat)
    (tolerance : R) (centers_init : list (list R)) :
  k <> 0%nat -> length centers_init = k ->
  labelling X k (labels_ (kmeans_single relocate_empty X k iterations
                                        tolerance centers_init)).
Proof.
  intros Hk Hc. unfold kmeans_single.
  pose proof (@lloyd_loop_invariant iterations X k tolerance centers_init
                (map (fun _ => (-1)%Z) X) Hk Hc) as Hinv.
  destruct (lloyd_loop relocate_empty iterations X k tolerance centers_init
              (map (fun _ => (-1)%Z) X)) as [[labels centers] strict].
  destruct Hinv as [Hlen Hstrict]. cbn [labels_].
  destruct strict; [now apply Hstrict|].
  rewrite <- Hlen. apply e_step_labelling.
  destruct centers; [simpl in Hlen; congruence | discriminate].
Qed.

Lemma restarts_labelling (n : nat) (rs : RandomState) (X : list (list R))
    (km : KMeans) (tolerance : R) (best : option Fitted) :
  n_clusters km <> 0%nat ->
  (n <> 0%nat \/ best <> None) ->
  (forall b, best = Some b -> labelling X (n_clusters km) (labels_ b)) ->
  exists b,
    fst (restarts init_centroids relocate_empty n rs X km tolerance best)
    = Some b /\
    labelling X (n_clusters km) (labels_ b).
Proof.
  intros Hk. revert rs best. induction n as [|n IH]; intros rs best Hn Hbest.
  - simpl. destruct best as [b|]; [|destruct Hn; congruence].
    exists b. split; [reflexivity | now apply Hbest].
  - simpl. pose proof (init_centroids_length rs X (n_clusters km)) as Hinit.
    destruct (init_centroids rs X (n_clusters km)) as [centers_init rs'].
    cbn [fst] in Hinit.
    pose proof (@kmeans_single_labelling X (n_clusters km) (max_iter km)
                  tolerance centers_init Hk Hinit) as Hrun.
    apply IH.
    + right. destruct best as [b|]; [|discriminate].
      destruct (Rlt_dec _ _); [|discriminate].
      destruct (is_same_clustering _ _); discriminate.
    + intros b' Hb'. destruct best as [b|].
      * destruct (Rlt_dec _ _).
        -- destruct (is_same_clustering _ _); injection Hb' as <-;
             [now apply Hbest | assumption].
        -- injection Hb' as <-. now apply Hbest.
      * injection Hb' as <-. assumption.
Qed.

Lemma fit_labelling (global : RandomState) (km : KMeans)
    (rows : list (list float)) (X : list (list R)) :
  Numpy.all_finite_rows rows = Some X ->
  n_clusters km <> 0%nat -> n_init km <> 0%nat -> max_iter km <> 0%nat ->
  (n_clusters km <= length X)%nat ->
  n_features X <> 0%nat ->
  exists f,
    fst (fit seeded init_centroids relocate_empty global km rows) = Ok f /\
    labelling X (n_clusters km) (labels_ f).
Proof.
  intros HX Hk Hn Hm Hlen Hfeat. unfold fit. rewrite HX.
  assert (length X <> 0%nat) as HX0 by lia.
  apply Nat.eqb_neq in Hk as Ek. apply Nat.eqb_neq in Hn as En.
  apply Nat.eqb_neq in Hm as Em. apply Nat.eqb_neq in HX0 as E0.
  apply Nat.eqb_neq in Hfeat as Ef.
  assert (Nat.ltb (length X) (n_clusters km) = false) as El
    by (apply Nat.ltb_ge; lia).
  rewrite Ek, En, Em, E0, Ef, El. cbn [orb].
  set (Xc := map _ X).
  destruct (@restarts_labelling (n_init km)
              (check_random_state seeded global (random_state km)) Xc km
              (tolerance_of Xc (tol km)) None Hk)
    as [b [Hb Hlab]]; [now left | discriminate |].
  destruct (restarts _ _ _ _ _ _ _ _) as [best rs']. cbn [fst] in Hb.
  subst best. cbn [fst]. eexists. split; [reflexivity|]. cbn [labels_].
  destruct Hlab as [Hl Hr]. split; [|assumption].
  rewrite Hl. unfold Xc. apply length_map.
Qed.

(** With an integer [random_state], neither the outcome of [fit] nor numpy's
    global generator depends on the state the global generator is in. *)
Lemma fit_seeded (global global' : RandomState) (km : KMeans)
    (rows : list (list float)) (seed : Z) :
  random_state km = Some seed ->
  fst (fit seeded init_centroids relocate_empty global km rows)
  = fst (fit seeded init_centroids relocate_empty global' km rows) /\
  snd (fit seeded init_centroids relocate_empty global km rows) = global.
Proof.
  intros Hseed. unfold fit. rewrite Hseed.
  destruct (Numpy.all_finite_rows rows) as [X|]; [|now split].
  destruct (_ || _)%bool; [now split|].
  cbn [check_random_state].
  destruct (restarts _ _ _ _ _ _ _ _) as [[b|] rs']; now split.
Qed.

End Fit.

Lemma all_finite_Some (xs : list float) :
  Forall (fun v => v <> None) xs ->
  exists ys, Numpy.all_finite xs = Some ys /\ length ys = length xs.
Proof.
  induction 1 as [|[x|] xs Hx _ [ys [E Hl]]]; simpl.
  - now exists [].
  - rewrite E. exists (x :: ys). simpl. now rewrite Hl.
  - congruence.
Qed.

Lemma all_finite_rows_Some (rows : list (list float)) :
  Forall (Forall (fun v => v <> None)) rows ->
  exists X, Numpy.all_finite_rows rows = Some X /\ length X = length rows.
Proof.
  induction 1 as [|r rows Hr _ [X [E Hl]]]; simpl.
  - now exists [].
  - destruct (all_finite_Some Hr) as [r' [Er _]]. rewrite Er, E.
    exists (r' :: X). simpl. now rewrite Hl.
Qed.

End KMeansFacts.

Lemma all_finite_length (xs : list float) (ys : list R) :
  Numpy.all_finite xs = Some ys -> length ys = length xs.
Proof.
  revert ys. induction xs as [|[x|] xs IH]; simpl; intros ys.
  - now intros [= <-].
  - destruct (Numpy.all_finite xs) as [ys'|]; [|discriminate].
    intros [= <-]. simpl. f_equal. now apply IH.
  - discriminate.
Qed.

Lemma all_finite_rows_length (rows : list (list float)) (X : list (list R)) :
  Numpy.all_finite_rows rows = Some X -> length X = length rows.
Proof.
  revert X. induction rows as [|r rows IH]; simpl; intros X.
  - now intros [= <-].
  - destruct (Numpy.all_finite r); [|discriminate].
    destruct (Numpy.all_finite_rows rows) as [X'|]; [|discriminate].
    intros [= <-]. simpl. f_equal. now apply IH.
Qed.

(** The rows of a frame that has a row and a column have a feature. *)
Lemma rows_features (I C : Type) (df : Pandas.DataFrame I C)
    (X : list (list R)) :
  Numpy.all_finite_rows (Pandas.rows df) = Some X ->
  Pandas.index df <> [] -> Pandas.data df <> [] ->
  Sklearn.n_features X <> 0%nat.
Proof.
  unfold Pandas.rows, Sklearn.n_features. intros HX Hi Hd.
  destruct (Pandas.index df) as [|i idx]; [now destruct Hi|].
  cbn [length seq map Numpy.all_finite_rows] in HX.
  destruct (Numpy.all_finite _) as [x|] eqn:Ex; [|discriminate].
  destruct (Numpy.all_finite_rows _); [|discriminate].
  injection HX as <-. cbn [hd].
  rewrite (all_finite_length _ Ex), length_map.
  destruct (Pandas.data df); [now destruct Hd | discriminate].
Qed.

Section ClusteringProps.

Variable RandomState : Type.
Variable seeded : Z -> RandomState.
Variable init_centroids :
  RandomState -> list (list R) -> nat -> list (list R) * RandomState.
Variable relocate_empty :
  list (list R) -> list (list R) -> list Z -> Z -> list R.

(** C8: [perform_kmeans_clustering] seeds a generator of its own from the
    constant 42, so the labels (or the error) it returns on an input do not
    depend on the state of numpy's global generator, which it leaves as it
    found it: any two runs on the same input and cluster count, one after
    the other or not, return the same labels. *)
Theorem perform_kmeans_clustering_deterministic (I C : Type)
    (global global' : RandomState) (df : Pandas.DataFrame I C)
    (num_clusters : nat) :
  fst (perform_kmeans_clustering seeded init_centroids relocate_empty
         global df num_clusters)
  = fst (perform_kmeans_clustering seeded init_centroids relocate_empty
           global' df num_clusters) /\
  snd (perform_kmeans_clustering seeded init_centroids relocate_empty
         global df num_clusters) = global.
Proof.
  unfold perform_kmeans_clustering, Sklearn.fit_predict.
  set (km := Sklearn.mkKMeans _ _ _ _ _).
  destruct (KMeansFacts.fit_seeded seeded init_centroids relocate_empty
              global global' km (Pandas.rows df) (seed := 42%Z) eq_refl)
    as [Hfst Hsnd].
  destruct (KMeansFacts.fit_seeded seeded init_centroids relocate_empty
              global' global km (Pandas.rows df) (seed := 42%Z) eq_refl)
    as [_ Hsnd'].
  destruct (Sklearn.fit _ _ _ global km _) as [r g].
  destruct (Sklearn.fit _ _ _ global' km _) as [r' g'].
  cbn [fst snd] in *. subst. now split.
Qed.

End ClusteringProps.

(** ** The end-to-end scenario *)

Lemma subset_data_well_formed
    (df_years : Pandas.DataFrame (string * string) Z)
    (countries indicators : list string)
    (df : Pandas.DataFrame Z (string * string)) :
  subset_data df_years countries indicators = Ok df ->
  Pandas.well_formed df.
Proof.
  unfold subset_data, Pandas.loc.
  destruct (Pandas.get_locs (Pandas.index df_years) countries indicators)
    as [positions|]; [|discriminate]. cbn [bind].
  destruct (Pandas.get_columns _ subset_years) as [cols|] eqn:Ecols;
    [|discriminate].
  cbn [bind]. intros [= <-].
  apply LocFacts.get_columns_length in Ecols; [|exact _].
  unfold Pandas.well_formed, Pandas.transpose, Pandas.rows.
  cbn [Pandas.index Pandas.columns Pandas.data].
  split; [now rewrite length_map, length_seq|].
  apply Forall_map, Forall_forall. intros i _. now rewrite length_map.
Qed.

Lemma get_locs_selects (idx : list (string * string))
    (countries indicators : list string) (positions : list nat) :
  countries <> [] -> indicators <> [] ->
  Pandas.get_locs idx countries indicators = Ok positions ->
  filter (Pandas.requested countries indicators) idx <> [].
Proof.
  intros Hc Hi. unfold Pandas.get_locs.
  destruct countries as [|c0 cs]; [congruence|].
  destruct (negb _); [discriminate|].
  destruct indicators as [|i0 inds]; [congruence|].
  destruct (negb _); [discriminate|].
  rewrite <- (LocFacts.filter_combine_seq
                (Pandas.requested (c0 :: cs) (i0 :: inds)) idx 0).
  destruct (filter _ (combine _ idx)); [discriminate|]. discriminate.
Qed.

Lemma subset_data_columns_nonempty
    (df_years : Pandas.DataFrame (string * string) Z)
    (countries indicators : list string)
    (df : Pandas.DataFrame Z (string * string)) :
  countries <> [] -> indicators <> [] ->
  subset_data df_years countries indicators = Ok df ->
  Pandas.columns df <> [].
Proof.
  intros Hc Hi Hsub.
  destruct (subset_data_shape _ _ _ Hsub) as [_ [Hperm _]].
  unfold subset_data, Pandas.loc in Hsub.
  destruct (Pandas.get_locs (Pandas.index df_years) countries indicators)
    as [positions|] eqn:Elocs; [|discriminate].
  pose proof (get_locs_selects _ Hc Hi Elocs) as Hsel.
  intros E. rewrite E in Hperm. apply Permutation_nil in Hperm. congruence.
Qed.

Lemma finite_values_all (col : list float) :
  Forall (fun v => v <> None) col ->
  map Some (Pandas.finite_values col) = col.
Proof.
  induction 1 as [|[x|] col Hx _ IH]; simpl; [reflexivity | | congruence].
  now rewrite IH.
Qed.

Lemma scale_column_finite (col : list float) :
  col <> [] -> Forall (fun v => v <> None) col ->
  Forall (fun v => v <> None) (Sklearn.scale_column col).
Proof.
  intros Hne Hfin. unfold Sklearn.scale_column, Sklearn.scale_,
    Sklearn.nanvar, Pandas.nanmean.
  destruct (Pandas.finite_values col) as [|x xs] eqn:E.
  { pose proof (finite_values_all Hfin) as Hvals. rewrite E in Hvals.
    simpl in Hvals. now destruct Hne. }
  set (vs := x :: xs) in *. set (m := Pandas.mean vs).
  set (v := (Numpy.sum (map (fun x0 => (x0 - m) * (x0 - m))%R vs)
             / INR (length vs))%R).
  assert (0 <= v)%R as Hv.
  { unfold v. apply Rmult_le_pos.
    - pose proof (sum_squares_nonneg (map (fun x0 => x0 - m)%R vs)) as Hs.
      now rewrite map_map in Hs.
    - left. apply Rinv_0_lt_compat. apply lt_0_INR. simpl. lia. }
  apply Forall_map. revert Hfin. apply Forall_impl. intros [y|] Hy;
    [|congruence].
  unfold fsub, lift2, fdiv.
  destruct (Req_dec_T v 0) as [Ev|Ev].
  - destruct (Req_dec_T 1 0) as [E1|_]; [lra | discriminate].
  - assert (0 < sqrt v)%R as Hs by (apply sqrt_lt_R0; lra).
    destruct (Req_dec_T (sqrt v) 0) as [E0|_]; [lra | discriminate].
Qed.

Lemma rows_finite (I C : Type) (df : Pandas.DataFrame I C) :
  Forall (fun col => length col = length (Pandas.index df)) (Pandas.data df) ->
  Forall (Forall (fun v => v <> None)) (Pandas.data df) ->
  Forall (Forall (fun v => v <> None)) (Pandas.rows df).
Proof.
  intros Hlen Hfin. unfold Pandas.rows. apply Forall_map, Forall_forall.
  intros i Hi. apply in_seq in Hi. apply Forall_map, Forall_forall.
  intros col Hcol. rewrite Forall_forall in Hlen, Hfin.
  specialize (Hlen col Hcol). specialize (Hfin col Hcol).
  rewrite Forall_forall in Hfin. apply Hfin. apply nth_In.
  unfold float in *. lia.
Qed.

Lemma rows_length (I C : Type) (df : Pandas.DataFrame I C) :
  length (Pandas.rows df) = length (Pandas.index df).
Proof. unfold Pandas.rows. now rewrite length_map, length_seq. Qed.

Section MainProps.

Variable RandomState : Type.
Variable seeded : Z -> RandomState.
Variable init_centroids :
  RandomState -> list (list R) -> nat -> list (list R) * RandomState.
Variable relocate_empty :
  list (list R) -> list (list R) -> list Z -> Z -> list R.

Hypothesis init_centroids_length :
  forall rs X k, length (fst (init_centroids rs X k)) = k.

(** On a subset without missing cells the clustering of the main block
    succeeds and labels the rows of the subset, that is its years. *)
Lemma main_clustering_labelling (global : RandomState)
    (df_years : Pandas.DataFrame (string * string) Z)
    (df : Pandas.DataFrame Z (string * string)) :
  subset_data df_years main_countries main_indicators = Ok df ->
  Forall (Forall (fun v => v <> None)) (Pandas.data df) ->
  exists labels centers,
    main_clustering seeded init_centroids relocate_empty global df_years
    = Ok (labels, centers) /\
    length labels = fst (Pandas.shape df) /\
    Forall (fun l => (0 <= l < 3)%Z) labels.
Proof.
  intros Hsub Hfin. unfold main_clustering. rewrite Hsub. cbn [bind].
  pose proof (subset_data_well_formed _ _ _ Hsub) as [Hdata Hcols].
  destruct (subset_data_shape _ _ _ Hsub) as [Hidx [_ Hshape]].
  assert (Pandas.columns df <> []) as Hc
    by (apply (@subset_data_columns_nonempty df_years main_countries
                 main_indicators df);
        [discriminate | discriminate | assumption]).
  assert (length (Pandas.index df) = 28%nat) as Hn
    by (unfold Pandas.shape in Hshape; congruence).
  assert (Pandas.data df <> []) as HX.
  { intros E. rewrite E in Hdata. destruct (Pandas.columns df);
      [congruence | discriminate]. }
  unfold normalize_data. rewrite fit_transform_Ok by (assumption || lia).
  cbn [bind].
  set (dfn := Pandas.mkDF _ _ _).
  assert (Forall (Forall (fun v => v <> None)) (Pandas.rows dfn)) as Hrows.
  { apply rows_finite; unfold dfn; cbn [Pandas.data Pandas.index].
    - rewrite RangeIndex_length. apply Forall_map. revert Hcols.
      apply Forall_impl. intros col Hcol. now rewrite scale_column_length.
    - apply Forall_map. rewrite Forall_forall in Hfin, Hcols.
      apply Forall_forall. intros col Hcol. apply scale_column_finite.
      + specialize (Hcols col Hcol). destruct col; [simpl in Hcols; lia|].
        discriminate.
      + now apply Hfin. }
  destruct (KMeansFacts.all_finite_rows_Some Hrows) as [X [EX HlenX]].
  assert (length X = 28%nat) as HX28.
  { rewrite HlenX, rows_length. unfold dfn. cbn [Pandas.index].
    now rewrite RangeIndex_length. }
  set (km := Sklearn.mkKMeans _ _ _ _ _).
  destruct (@KMeansFacts.fit_labelling RandomState seeded init_centroids
              relocate_empty init_centroids_length global km
              (Pandas.rows dfn) X EX) as [f [Hf [Hl Hr]]];
    [discriminate | discriminate | discriminate
     | unfold km; cbn [Sklearn.n_clusters]; lia
     | apply (rows_features dfn EX); unfold dfn;
       cbn [Pandas.index Pandas.data];
       [intros E; apply (f_equal (@length Z)) in E;
        rewrite RangeIndex_length in E; simpl in E; lia
       | intros E; apply map_eq_nil in E; contradiction] |].
  rewrite Hf. cbn [bind]. do 2 eexists. split; [reflexivity|].
  split; [|exact Hr].
  rewrite Hl, HX28. unfold Pandas.shape. cbn [fst]. now rewrite Hn.
Qed.

(** C4, as amended: in the end-to-end scenario (a subset without missing
    cells) the clustering into 3 groups yields one label per row of the
    normalised subset, that is one per year and not one per country, and
    every label lies in {0, 1, 2}. *)
Theorem main_clustering_labels (global : RandomState)
    (df_years : Pandas.DataFrame (string * string) Z)
    (df : Pandas.DataFrame Z (string * string)) :
  subset_data df_years main_countries main_indicators = Ok df ->
  Forall (Forall (fun v => v <> None)) (Pandas.data df) ->
  exists labels centers,
    main_clustering seeded init_centroids relocate_empty global df_years
    = Ok (labels, centers) /\
    length labels = length (Pandas.index df) /\
    Pandas.index df = subset_years /\
    Forall (fun l => (0 <= l < 3)%Z) labels.
Proof.
  intros Hsub Hfin.
  destruct (@main_clustering_labelling global df_years df Hsub Hfin)
    as [labels [centers [Hmain [Hlen Hrange]]]].
  exists labels, centers. split; [assumption|]. split; [exact Hlen|].
  split; [|assumption]. now destruct (subset_data_shape _ _ _ Hsub).
Qed.

End MainProps.

Lemma first_rows_init_length (rs : unit) (X : list (list R)) (k : nat) :
  length (fst (first_rows_init rs X k)) = k.
Proof.
  unfold first_rows_init. cbn [fst]. rewrite length_app, repeat_length.
  pose proof (firstn_le_length k X). lia.
Qed.

(** C4, counterexample: on the scenario table, with four countries and two
    indicators, the label array has 28 entries, one per year of the subset,
    not 4. *)
Lemma main_labels_one_per_year :
  exists labels centers,
    main_clustering unit_seeded first_rows_init keep_centre tt
                    scenario_df_years = Ok (labels, centers) /\
    length labels = 28%nat /\
    length labels <> 4%nat.
Proof.
  destruct scenario_subset as [df [Hsub [Hshape [_ Hfin]]]].
  destruct (@main_clustering_labelling unit unit_seeded first_rows_init
              keep_centre first_rows_init_length tt scenario_df_years df
              Hsub Hfin) as [labels [centers [Hmain [Hlen _]]]].
  exists labels, centers. split; [assumption|].
  rewrite Hshape in Hlen. cbn [fst] in Hlen. rewrite Hlen.
  split; [reflexivity | discriminate].
Qed.

Lemma main_clustering_labels_witness :
  exists df labels centers,
    subset_data scenario_df_years main_countries main_indicators = Ok df /\
    main_clustering unit_seeded first_rows_init keep_centre tt
                    scenario_df_years = Ok (labels, centers) /\
    length labels = length (Pandas.index df) /\
    Pandas.index df = subset_years /\
    Forall (fun l => (0 <= l < 3)%Z) labels.
Proof.
  destruct scenario_subset as [df [Hsub [_ [_ Hfin]]]].
  destruct (@main_clustering_labels unit unit_seeded first_rows_init
              keep_centre first_rows_init_length tt scenario_df_years df
              Hsub Hfin) as [labels [centers H]].
  exists df, labels, centers. split; [assumption | exact H].
Defined.

(** ** predict_future *)

Section PredictFutureProps.

Variable read_csv : string -> result csv_frame.
Variable label_to_numeric : string -> option Z.
Variable text_to_numeric : string -> float.
Variable t_ppf : R -> Z -> float.

(** Whatever the solver returns, the figure is the plot of the rows of the
    filtered table. *)
Lemma predict_future_figure
    (curve_fit : list R -> list R -> result (list R * list (list float)))
    (filename : string) (countries indicators : list string)
    (start_year end_year : Z) (fig : Figure) :
  predict_future read_csv label_to_numeric text_to_numeric t_ppf curve_fit
    filename countries indicators start_year end_year = Ok fig ->
  exists data,
    filter_Cereal_yield_data read_csv label_to_numeric text_to_numeric
      filename countries indicators start_year end_year = Ok data /\
    fig = mkFigure
            (map (fun kr => mkLine
                              (Numpy.arange (length (Pandas.columns data)))
                              (snd kr) (fst (fst kr)))
                 (combine (Pandas.index data) (Pandas.rows data)))
            "Year" "Indicator Value" (join ", " indicators).
Proof.
  unfold predict_future.
  destruct (filter_Cereal_yield_data _ _ _ _ _ _ _ _) as [data|];
    [|discriminate]. cbn [bind].
  destruct (fit_rows _ _ _ _) as [rates|]; [|discriminate]. cbn [bind].
  intros [= <-]. now exists data.
Qed.

Lemma predict_future_ignores_fit
    (curve_fit curve_fit' : list R -> list R
                            -> result (list R * list (list float)))
    (filename : string) (countries indicators : list string)
    (start_year end_year : Z) (fig fig' : Figure) :
  predict_future read_csv label_to_numeric text_to_numeric t_ppf curve_fit
    filename countries indicators start_year end_year = Ok fig ->
  predict_future read_csv label_to_numeric text_to_numeric t_ppf curve_fit'
    filename countries indicators start_year end_year = Ok fig' ->
  fig = fig'.
Proof.
  intros H H'. apply predict_future_figure in H as [data [Hd ->]].
  apply predict_future_figure in H' as [data' [Hd' ->]].
  rewrite Hd in Hd'. now injection Hd' as <-.
Qed.

End PredictFutureProps.

(** C2: on the sample file one solver reports the rate 1/10 and another the
    rate 2/10 for every country; the fitting loop computes these rates, yet
    [predict_future] shows one and the same figure for both, made of the raw
    rows of the filtered table, and returns nothing else. *)
Theorem predict_future_drops_growth_rate :
  exists data fig,
    filter_Cereal_yield_data sample_read_csv parse_year no_text_number
      "WorldBank.csv" ["India"; "China"]%string ["Population, total"]%string
      1990 1992 = Ok data /\
    fit_rows cauchy_ppf (constant_fit (1 / 10)) (Numpy.arange 3)
             (Pandas.rows data) = Ok [1 / 10; 1 / 10]%R /\
    fit_rows cauchy_ppf (constant_fit (2 / 10)) (Numpy.arange 3)
             (Pandas.rows data) = Ok [2 / 10; 2 / 10]%R /\
    predict_future sample_read_csv parse_year no_text_number cauchy_ppf
      (constant_fit (1 / 10)) "WorldBank.csv" ["India"; "China"]%string
      ["Population, total"]%string 1990 1992 = Ok fig /\
    predict_future sample_read_csv parse_year no_text_number cauchy_ppf
      (constant_fit (2 / 10)) "WorldBank.csv" ["India"; "China"]%string
      ["Population, total"]%string 1990 1992 = Ok fig /\
    map line_label (lines fig) = ["China"; "India"]%string /\
    map line_y (lines fig) = Pandas.rows data.
Proof.
  do 2 eexists.
  split; [vm_compute; reflexivity|].
  split; [vm_compute; reflexivity|].
  split; [vm_compute; reflexivity|].
  split; [vm_compute; reflexivity|].
  split; [vm_compute; reflexivity|].
  split; vm_compute; reflexivity.
Qed.

(** * Further properties *)

(** ** The cells of a pivoted table *)

Module PivotCellFacts.

Import Pandas.

Lemma combine_map_self (A B : Type) (g : A -> B) (l : list A) :
  combine l (map g l) = map (fun c => (c, g c)) l.
Proof. induction l as [|x l IH]; simpl; [reflexivity | now rewrite IH]. Qed.

Lemma filter_graph (A B : Type) (g : A -> B) (f : A * B -> bool) (l : list A) :
  filter f (map (fun c => (c, g c)) l)
  = map (fun c => (c, g c)) (filter (fun c => f (c, g c)) l).
Proof.
  induction l as [|x l IH]; simpl; [reflexivity|].
  destruct (f (x, g x)); simpl; now rewrite IH.
Qed.

Lemma nth_map_nth_error (A B : Type) (h : A -> B) (l : list A) (p : nat)
    (x : A) (d : B) :
  nth_error l p = Some x -> nth p (map h l) d = h x.
Proof.
  revert p. induction l as [|y l IH]; intros [|p]; simpl; try discriminate.
  - now intros [= ->].
  - apply IH.
Qed.

Section Cells.

Context {I C : Type} `{OrdLaws I} `{OrdLaws C}.

(** The cells of the column of [unstack] for the column key [c]. *)
Let column_of (agged : list (I * C * float)) (c : C) : list float :=
  map (fun i => lookup (i, c) agged)
      (sorted_unique (map (fun kv => fst (fst kv)) agged)).

Lemma agg_mean_In (rs : list (@record I C)) (kv : I * C * float) :
  In kv (agg_mean rs) -> snd kv = nanmean (group_values (fst kv) rs).
Proof.
  unfold agg_mean. rewrite in_map_iff. now intros [k [<- _]].
Qed.

(** Looking a group up gives the mean of its values, NaN when it has none. *)
Lemma lookup_group_mean (rs : list (@record I C)) (k : I * C) :
  lookup k (dropna_groups (agg_mean rs)) = nanmean (group_values k rs).
Proof.
  unfold lookup.
  destruct (find _ (dropna_groups (agg_mean rs))) as [kv|] eqn:Efind.
  - apply find_some in Efind as [Hin Ek]. apply key_eqb_eq in Ek.
    apply filter_In in Hin as [Hin _]. apply agg_mean_In in Hin.
    now rewrite Hin, Ek.
  - destruct (nanmean (group_values k rs)) as [m|] eqn:Em; [|reflexivity].
    exfalso.
    assert (In k (map fst (dropna_groups (agg_mean rs)))) as Hk.
    { apply PandasFacts.surviving_groups_In.
      assert (is_finite (nanmean (group_values k rs)) = true) as Hfin
        by now rewrite Em.
      apply PandasFacts.nanmean_finite in Hfin as [x Hx]. exists x.
      now apply PandasFacts.group_values_In. }
    apply in_map_iff in Hk as [kv [Ek Hin]].
    pose proof (find_none _ _ Efind kv Hin) as Hno. cbv beta in Hno.
    rewrite Ek, key_eqb_refl in Hno. discriminate.
Qed.

Lemma pivot_table_unfold (rs : list (@record I C)) :
  let agged := dropna_groups (agg_mean rs) in
  let cols := filter (fun c => existsb is_finite (column_of agged c))
                     (sorted_unique (map (fun kv => snd (fst kv)) agged)) in
  pivot_table rs
  = mkDF (sorted_unique (map (fun kv => fst (fst kv)) agged)) cols
         (map (column_of agged) cols).
Proof.
  cbv zeta. unfold pivot_table, dropna_all_columns, unstack.
  cbn [index columns data]. fold (column_of (dropna_groups (agg_mean rs))).
  rewrite combine_map_self, filter_graph, !map_map. cbn [fst snd].
  now rewrite map_id.
Qed.

(** The columns of the pivoted table: the column keys of the records that
    have both keys and a value. *)
Lemma pivot_table_columns_iff (rs : list (@record I C)) (c : C) :
  In c (columns (pivot_table rs)) <->
  exists i x, In (Some i, Some c, Some x) rs.
Proof.
  split; [apply PandasFacts.pivot_table_columns_In|].
  intros [i [x Hx]]. rewrite pivot_table_unfold. cbn [columns].
  apply PandasFacts.keyed_In in Hx.
  assert (In (i, c) (map fst (dropna_groups (agg_mean rs)))) as Hk
    by (apply PandasFacts.surviving_groups_In; now exists x).
  apply in_map_iff in Hk as [[k m] [Ek Hin]]. cbn [fst] in Ek. subst k.
  apply filter_In. split.
  - apply sorted_unique_In, in_map_iff. now exists ((i, c), m).
  - apply existsb_exists. exists (lookup (i, c) (dropna_groups (agg_mean rs))).
    split.
    + unfold column_of. apply in_map_iff. exists i. split; [reflexivity|].
      apply sorted_unique_In, in_map_iff. now exists ((i, c), m).
    + rewrite lookup_group_mean. apply PandasFacts.nanmean_finite.
      exists x. now apply PandasFacts.group_values_In.
Qed.

Lemma pivot_table_columns_NoDup (rs : list (@record I C)) :
  NoDup (columns (pivot_table rs)).
Proof.
  rewrite pivot_table_unfold. cbn [columns].
  apply NoDup_filter, sorted_unique_NoDup.
Qed.

(** A cell of the pivoted table is the mean of the values of its group. *)
Lemma pivot_table_cell (rs : list (@record I C)) (p j : nat) (i : I) (c : C) :
  nth_error (index (pivot_table rs)) p = Some i ->
  nth_error (columns (pivot_table rs)) j = Some c ->
  iat (pivot_table rs) p j = nanmean (group_values (i, c) rs).
Proof.
  rewrite pivot_table_unfold. cbn [index columns]. unfold iat. cbn [data].
  intros Hp Hj.
  rewrite (nth_map_nth_error (column_of (dropna_groups (agg_mean rs))) _ _ [] Hj).
  unfold column_of.
  rewrite (nth_map_nth_error
             (fun i0 => lookup (i0, c) (dropna_groups (agg_mean rs))) _ _ None Hp).
  apply lookup_group_mean.
Qed.

End Cells.

End PivotCellFacts.

(** ** The two views of the loaded file *)

Lemma combine_fst_snd (A B : Type) (l : list (A * B)) :
  combine (map fst l) (map snd l) = l.
Proof.
  induction l as [|[a b] l IH]; simpl; [reflexivity | now rewrite IH].
Qed.

Lemma filter_filter_same (A : Type) (f : A -> bool) (l : list A) :
  filter f (filter f l) = filter f l.
Proof.
  induction l as [|x l IH]; simpl; [reflexivity|].
  destruct (f x) eqn:E; simpl; [now rewrite E, IH | exact IH].
Qed.

(** Dropping the columns without value twice is dropping them once. *)
Lemma dropna_all_columns_idempotent (I C : Type) (df : Pandas.DataFrame I C) :
  Pandas.dropna_all_columns (Pandas.dropna_all_columns df)
  = Pandas.dropna_all_columns df.
Proof.
  unfold Pandas.dropna_all_columns.
  cbn [Pandas.index Pandas.columns Pandas.data].
  now rewrite combine_fst_snd, filter_filter_same.
Qed.

Lemma dropna_pivot_table (I C : Type) `{Ord I} `{Ord C}
    (rs : list (@Pandas.record I C)) :
  Pandas.dropna_all_columns (Pandas.pivot_table rs) = Pandas.pivot_table rs.
Proof. unfold Pandas.pivot_table. apply dropna_all_columns_idempotent. Qed.

Lemma years_key_eqb (c c' i i' : string) (y y' : Z) :
  key_eqb (c', i', y') (c, i, y)
  = (String.eqb c' c && String.eqb i' i && Z.eqb y' y)%bool.
Proof.
  apply eq_true_iff_eq.
  rewrite !andb_true_iff, !String.eqb_eq, Z.eqb_eq.
  pose proof (@key_eqb_eq (string * string * Z) _ _ (c', i', y') (c, i, y))
    as Hk.
  rewrite Hk. split.
  - now intros [= -> -> ->].
  - now intros [[-> ->] ->].
Qed.

Lemma countries_key_eqb (c c' i i' : string) (y y' : Z) :
  key_eqb (y', i', c') (y, i, c)
  = (String.eqb c' c && String.eqb i' i && Z.eqb y' y)%bool.
Proof.
  apply eq_true_iff_eq.
  rewrite !andb_true_iff, !String.eqb_eq, Z.eqb_eq.
  pose proof (@key_eqb_eq (Z * string * string) _ _ (y', i', c') (y, i, c))
    as Hk.
  rewrite Hk. split.
  - now intros [= -> -> ->].
  - now intros [[-> ->] ->].
Qed.

(** The group of (country, indicator) and year in the entity-major pivot and
    the group of (year, indicator) and country in the country-major pivot
    hold the same values: the observations of the long table. *)
Lemma group_values_years (long : list (melted (option Z) float))
    (c i : string) (y : Z) :
  Pandas.group_values ((c, i), y)
    (map (fun r => (key2 (Country r) (Indicator r), Year r, Value r)) long)
  = observations long c i y.
Proof.
  unfold Pandas.group_values, observations, Pandas.keyed.
  induction long as [|m long IH]; [reflexivity|].
  cbn [map flat_map]. rewrite filter_app, map_app, IH. clear IH.
  destruct m as [[c'|] [i'|] [y'|] v]; cbn [Country Indicator Year Value key2
    name_is year_is filter map app fst snd andb]; try reflexivity.
  - rewrite years_key_eqb. now destruct (_ && _ && _)%bool.
  - now rewrite andb_false_r.
  - now destruct (String.eqb c' c).
  - now destruct (String.eqb c' c).
Qed.

Lemma group_values_countries (long : list (melted (option Z) float))
    (c i : string) (y : Z) :
  Pandas.group_values ((y, i), c)
    (map (fun r => (key2 (Year r) (Indicator r), Country r, Value r)) long)
  = observations long c i y.
Proof.
  unfold Pandas.group_values, observations, Pandas.keyed.
  induction long as [|m long IH]; [reflexivity|].
  cbn [map flat_map]. rewrite filter_app, map_app, IH. clear IH.
  destruct m as [[c'|] [i'|] [y'|] v]; cbn [Country Indicator Year Value key2
    name_is year_is filter map app fst snd andb]; try reflexivity.
  - rewrite countries_key_eqb. now destruct (_ && _ && _)%bool.
  - now rewrite andb_false_r.
  - now destruct (String.eqb c' c).
  - now destruct (String.eqb c' c).
Qed.

Section LoaderViews.

Variable read_csv : string -> result csv_frame.
Variable label_to_numeric : string -> option Z.
Variable text_to_numeric : string -> float.

Let numeric := to_numeric label_to_numeric text_to_numeric.
Let holding := holds label_to_numeric text_to_numeric.

Lemma year_records_In (df : csv_frame) (c i : string) (y : Z) (x : R) :
  In (Some (c, i), Some y, Some x)
     (map (fun r => (key2 (Country r) (Indicator r), Year r, Value r))
          (numeric (melt df))) <->
  exists r, In r (body df) /\ holding df r c i y x.
Proof.
  unfold holding, holds. rewrite in_map_iff. split.
  - intros [m [E Hm]].
    apply to_numeric_melt_In in Hm as [j [label [r [Hj [Hr ->]]]]].
    cbn in E. injection E as Ek Ey Ex. exists r. split; [assumption|].
    destruct (Country_Name r) as [c'|], (Indicator_Name r) as [i'|];
      try discriminate. injection Ek as -> ->.
    split; [reflexivity|]. split; [reflexivity|]. now exists j, label.
  - intros [r [Hr [Ec [Ei [j [label [Hj [Ey Ex]]]]]]]].
    exists (mkMelted (Country_Name r) (Indicator_Name r)
                     (label_to_numeric label)
                     (cell_to_numeric text_to_numeric (nth j (cells r) Blank))).
    split; [cbn; now rewrite Ec, Ei, Ey, Ex|].
    apply to_numeric_melt_In. now exists j, label, r.
Qed.

Lemma country_records_In (df : csv_frame) (c i : string) (y : Z) (x : R) :
  In (Some (y, i), Some c, Some x)
     (map (fun r => (key2 (Year r) (Indicator r), Country r, Value r))
          (numeric (melt df))) <->
  exists r, In r (body df) /\ holding df r c i y x.
Proof.
  unfold holding, holds. rewrite in_map_iff. split.
  - intros [m [E Hm]].
    apply to_numeric_melt_In in Hm as [j [label [r [Hj [Hr ->]]]]].
    cbn in E. injection E as Ek Ec Ex. exists r. split; [assumption|].
    destruct (label_to_numeric label) as [y'|] eqn:Ey,
             (Indicator_Name r) as [i'|]; try discriminate.
    injection Ek as -> ->.
    split; [assumption|]. split; [reflexivity|]. now exists j, label.
  - intros [r [Hr [Ec [Ei [j [label [Hj [Ey Ex]]]]]]]].
    exists (mkMelted (Country_Name r) (Indicator_Name r)
                     (label_to_numeric label)
                     (cell_to_numeric text_to_numeric (nth j (cells r) Blank))).
    split; [cbn; now rewrite Ec, Ei, Ey, Ex|].
    apply to_numeric_melt_In. now exists j, label, r.
Qed.

(** X1: the two [dropna(how='all', axis=1)] lines of [file_read] never
    remove anything: [pivot_table] has already dropped the columns without
    value, so the function returns the two pivoted tables as they are. *)
Theorem file_read_dropna_redundant (filename : string) (raw df : csv_frame) :
  read_csv filename = Ok raw ->
  drop_column "Unnamed: 66" raw = Ok df ->
  file_read read_csv label_to_numeric text_to_numeric filename
  = Ok (pivot_years (numeric (melt df)), pivot_countries (numeric (melt df))).
Proof.
  intros Hread Hdrop. unfold file_read. rewrite Hread. cbn [bind].
  rewrite Hdrop. cbn [bind]. fold numeric. unfold pivot_years, pivot_countries.
  now rewrite !dropna_pivot_table.
Qed.

Lemma file_read_views (filename : string) (raw df : csv_frame)
    (df_years : Pandas.DataFrame (string * string) Z)
    (df_countries : Pandas.DataFrame (Z * string) string) :
  read_csv filename = Ok raw ->
  drop_column "Unnamed: 66" raw = Ok df ->
  file_read read_csv label_to_numeric text_to_numeric filename
  = Ok (df_years, df_countries) ->
  df_years = pivot_years (numeric (melt df)) /\
  df_countries = pivot_countries (numeric (melt df)).
Proof.
  intros Hread Hdrop Hfile. unfold file_read in Hfile.
  rewrite Hread in Hfile. cbn [bind] in Hfile.
  rewrite Hdrop in Hfile. cbn [bind] in Hfile. fold numeric in Hfile.
  unfold pivot_years, pivot_countries in *.
  rewrite !dropna_pivot_table in Hfile. now injection Hfile as <- <-.
Qed.

(** X2: the columns of the entity-major view are, each once, exactly the
    years for which some row of the file that bears both names holds a
    value. *)
Theorem file_read_year_columns (filename : string) (raw df : csv_frame)
    (df_years : Pandas.DataFrame (string * string) Z)
    (df_countries : Pandas.DataFrame (Z * string) string) :
  read_csv filename = Ok raw ->
  drop_column "Unnamed: 66" raw = Ok df ->
  file_read read_csv label_to_numeric text_to_numeric filename
  = Ok (df_years, df_countries) ->
  NoDup (Pandas.columns df_years) /\
  forall y, In y (Pandas.columns df_years) <->
            exists r c i x, In r (body df) /\ holding df r c i y x.
Proof.
  intros Hread Hdrop Hfile.
  destruct (file_read_views Hread Hdrop Hfile) as [-> _].
  unfold pivot_years. split.
  - exact (PivotCellFacts.pivot_table_columns_NoDup _).
  - intros y. rewrite PivotCellFacts.pivot_table_columns_iff. split.
    + intros [[c i] [x Hx]]. apply year_records_In in Hx as [r Hr].
      now exists r, c, i, x.
    + intros [r [c [i [x Hr]]]]. exists (c, i), x.
      apply year_records_In. now exists r.
Qed.

(** X3: the country-major view has one row per (year, indicator) pair and
    one column per country for which a row of the file holds a value, and
    no other. *)
Theorem file_read_country_view (filename : string) (raw df : csv_frame)
    (df_years : Pandas.DataFrame (string * string) Z)
    (df_countries : Pandas.DataFrame (Z * string) string) :
  read_csv filename = Ok raw ->
  drop_column "Unnamed: 66" raw = Ok df ->
  file_read read_csv label_to_numeric text_to_numeric filename
  = Ok (df_years, df_countries) ->
  NoDup (Pandas.index df_countries) /\
  NoDup (Pandas.columns df_countries) /\
  (forall y i, In (y, i) (Pandas.index df_countries) <->
               exists r c x, In r (body df) /\ holding df r c i y x) /\
  (forall c, In c (Pandas.columns df_countries) <->
             exists r i y x, In r (body df) /\ holding df r c i y x).
Proof.
  intros Hread Hdrop Hfile.
  destruct (file_read_views Hread Hdrop Hfile) as [_ ->].
  unfold pivot_countries.
  split; [exact (PandasFacts.pivot_table_index_NoDup _)|].
  split; [exact (PivotCellFacts.pivot_table_columns_NoDup _)|]. split.
  - intros y i. rewrite PandasFacts.pivot_table_index_In. split.
    + intros [c [x Hx]]. apply country_records_In in Hx as [r Hr].
      now exists r, c, x.
    + intros [r [c [x Hr]]]. exists c, x.
      apply country_records_In. now exists r.
  - intros c. rewrite PivotCellFacts.pivot_table_columns_iff. split.
    + intros [[y i] [x Hx]]. apply country_records_In in Hx as [r Hr].
      now exists r, i, y, x.
    + intros [r [i [y [x Hr]]]]. exists (y, i), x.
      apply country_records_In. now exists r.
Qed.

(** X4: a cell of the entity-major view is the mean of the values the long
    table holds for its country, indicator and year (rows of the file that
    repeat a pair are averaged), NaN when it holds none. *)
Theorem file_read_cell_mean (filename : string) (raw df : csv_frame)
    (df_years : Pandas.DataFrame (string * string) Z)
    (df_countries : Pandas.DataFrame (Z * string) string)
    (p j : nat) (c i : string) (y : Z) :
  read_csv filename = Ok raw ->
  drop_column "Unnamed: 66" raw = Ok df ->
  file_read read_csv label_to_numeric text_to_numeric filename
  = Ok (df_years, df_countries) ->
  nth_error (Pandas.index df_years) p = Some (c, i) ->
  nth_error (Pandas.columns df_years) j = Some y ->
  Pandas.iat df_years p j
  = Pandas.nanmean (observations (numeric (melt df)) c i y).
Proof.
  intros Hread Hdrop Hfile.
  destruct (file_read_views Hread Hdrop Hfile) as [-> _].
  unfold pivot_years. intros Hp Hj.
  rewrite (PivotCellFacts.pivot_table_cell _ _ _ Hp Hj).
  now rewrite group_values_years.
Qed.

(** X5: the two views hold the same numbers: the cell of (country,
    indicator) and year in the entity-major view is the cell of (year,
    indicator) and country in the country-major view. *)
Theorem file_read_views_agree (filename : string) (raw df : csv_frame)
    (df_years : Pandas.DataFrame (string * string) Z)
    (df_countries : Pandas.DataFrame (Z * string) string)
    (p j p' j' : nat) (c i : string) (y : Z) :
  read_csv filename = Ok raw ->
  drop_column "Unnamed: 66" raw = Ok df ->
  file_read read_csv label_to_numeric text_to_numeric filename
  = Ok (df_years, df_countries) ->
  nth_error (Pandas.index df_years) p = Some (c, i) ->
  nth_error (Pandas.columns df_years) j = Some y ->
  nth_error (Pandas.index df_countries) p' = Some (y, i) ->
  nth_error (Pandas.columns df_countries) j' = Some c ->
  Pandas.iat df_years p j = Pandas.iat df_countries p' j'.
Proof.
  intros Hread Hdrop Hfile.
  destruct (file_read_views Hread Hdrop Hfile) as [-> ->].
  unfold pivot_years, pivot_countries. intros Hp Hj Hp' Hj'.
  rewrite (PivotCellFacts.pivot_table_cell _ _ _ Hp Hj).
  rewrite (PivotCellFacts.pivot_table_cell _ _ _ Hp' Hj').
  now rewrite group_values_years, group_values_countries.
Qed.

End LoaderViews.

Lemma sample_file_read :
  file_read sample_read_csv parse_year no_text_number "WorldBank.csv"
  = Ok (sample_df_years, sample_df_countries).
Proof. vm_compute. reflexivity. Qed.

Lemma file_read_dropna_redundant_witness :
  file_read sample_read_csv parse_year no_text_number "WorldBank.csv"
  = Ok (pivot_years (to_numeric parse_year no_text_number
                                (melt sample_csv_years)),
        pivot_countries (to_numeric parse_year no_text_number
                                    (melt sample_csv_years))).
Proof.
  apply (file_read_dropna_redundant sample_read_csv parse_year no_text_number
           "WorldBank.csv" (raw := sample_csv)); reflexivity.
Defined.

Lemma file_read_year_columns_witness :
  NoDup (Pandas.columns sample_df_years) /\
  forall y, In y (Pandas.columns sample_df_years) <->
            exists r c i x,
              In r (body sample_csv_years) /\
              holds parse_year no_text_number sample_csv_years r c i y x.
Proof.
  apply (file_read_year_columns sample_read_csv parse_year no_text_number
           "WorldBank.csv" (raw := sample_csv)
           (df_countries := sample_df_countries));
    [reflexivity | reflexivity | exact sample_file_read].
Defined.

Lemma file_read_country_view_witness :
  NoDup (Pandas.index sample_df_countries) /\
  NoDup (Pandas.columns sample_df_countries) /\
  (forall y i, In (y, i) (Pandas.index sample_df_countries) <->
               exists r c x,
                 In r (body sample_csv_years) /\
                 holds parse_year no_text_number sample_csv_years r c i y x) /\
  (forall c, In c (Pandas.columns sample_df_countries) <->
             exists r i y x,
               In r (body sample_csv_years) /\
               holds parse_year no_text_number sample_csv_years r c i y x).
Proof.
  apply (file_read_country_view sample_read_csv parse_year no_text_number
           "WorldBank.csv" (raw := sample_csv) (df_years := sample_df_years));
    [reflexivity | reflexivity | exact sample_file_read].
Defined.

Lemma file_read_cell_mean_witness :
  Pandas.iat sample_df_years 1 2
  = Pandas.nanmean (observations sample_long "India" "Population, total" 1992).
Proof.
  apply (file_read_cell_mean sample_read_csv parse_year no_text_number
           "WorldBank.csv" (raw := sample_csv) (df := sample_csv_years)
           (df_countries := sample_df_countries));
    [reflexivity | reflexivity | exact sample_file_read
     | reflexivity | reflexivity].
Defined.

Lemma file_read_views_agree_witness :
  Pandas.iat sample_df_years 1 2 = Pandas.iat sample_df_countries 2 1.
Proof.
  apply (@file_read_views_agree sample_read_csv parse_year no_text_number
           "WorldBank.csv" sample_csv sample_csv_years sample_df_years
           sample_df_countries 1 2 2 1 "India" "Population, total" 1992);
    [reflexivity | reflexivity | exact sample_file_read
     | reflexivity | reflexivity | reflexivity | reflexivity].
Defined.

(** Two rows for the same pair: the cell is the mean of the two values. *)
Example file_read_duplicate_rows :
  exists df_years df_countries,
    file_read duplicate_read_csv parse_year no_text_number "WorldBank.csv"
    = Ok (df_years, df_countries) /\
    Pandas.shape df_years = (1%nat, 1%nat) /\
    Pandas.iat df_years 0 0 = Some 15%R.
Proof.
  do 2 eexists. split; [vm_compute; reflexivity|]. split; [reflexivity|].
  vm_compute. f_equal. lra.
Qed.

Example file_read_short_file :
  file_read short_read_csv parse_year no_text_number "WorldBank.csv"
  = Raise KeyError.
Proof. reflexivity. Qed.

(** ** Failures of the loader *)

Lemma index_of_absent (A : Type) `{OrdLaws A} (x : A) (l : list A) :
  ~ In x l -> index_of x l = None.
Proof.
  intros Hn. destruct (index_of x l) as [j|] eqn:E; [|reflexivity].
  exfalso. apply Hn. apply index_of_Some in E.
  eapply nth_error_In; eassumption.
Qed.

Lemma drop_column_outcome (name : string) (df : csv_frame) :
  (In name (header df) -> exists df', drop_column name df = Ok df') /\
  (~ In name (header df) -> drop_column name df = Raise KeyError).
Proof.
  unfold drop_column. split.
  - intros Hin. destruct (index_of_In _ _ Hin) as [j ->]. eauto.
  - intros Hn. now rewrite (index_of_absent _ _ Hn).
Qed.

Section LoaderFailures.

Variable read_csv : string -> result csv_frame.
Variable label_to_numeric : string -> option Z.
Variable text_to_numeric : string -> float.

(** X6: two ways [file_read] fails: an error of reading the file is passed
    on unchanged, and a file without the column 'Unnamed: 66' gives
    KeyError, raised by the drop before anything is reshaped. *)
Theorem file_read_failures (filename : string) :
  (forall e, read_csv filename = Raise e ->
             file_read read_csv label_to_numeric text_to_numeric filename
             = Raise e) /\
  (forall raw, read_csv filename = Ok raw ->
               ~ In "Unnamed: 66"%string (header raw) ->
               file_read read_csv label_to_numeric text_to_numeric filename
               = Raise KeyError).
Proof.
  unfold file_read. split.
  - intros e ->. reflexivity.
  - intros raw -> Hn. cbn [bind].
    now rewrite (proj2 (drop_column_outcome "Unnamed: 66" raw) Hn).
Qed.

(** X7: [filter_Cereal_yield_data] fails in the same two ways, whatever the
    requested countries, indicators and years. *)
Theorem filter_Cereal_yield_data_failures (filename : string)
    (countries indicators : list string) (start_year end_year : Z) :
  (forall e, read_csv filename = Raise e ->
             filter_Cereal_yield_data read_csv label_to_numeric
               text_to_numeric filename countries indicators start_year
               end_year = Raise e) /\
  (forall raw, read_csv filename = Ok raw ->
               ~ In "Unnamed: 66"%string (header raw) ->
               filter_Cereal_yield_data read_csv label_to_numeric
                 text_to_numeric filename countries indicators start_year
                 end_year = Raise KeyError).
Proof.
  unfold filter_Cereal_yield_data. split.
  - intros e ->. reflexivity.
  - intros raw -> Hn. cbn [bind].
    now rewrite (proj2 (drop_column_outcome "Unnamed: 66" raw) Hn).
Qed.

End LoaderFailures.

Lemma file_read_failures_witness :
  file_read sample_read_csv parse_year no_text_number "Other.csv"
  = Raise FileNotFoundError /\
  file_read short_read_csv parse_year no_text_number "WorldBank.csv"
  = Raise KeyError.
Proof.
  split.
  - apply (file_read_failures sample_read_csv parse_year no_text_number
             "Other.csv"). reflexivity.
  - apply (file_read_failures short_read_csv parse_year no_text_number
             "WorldBank.csv") with (raw := short_csv); [reflexivity|].
    simpl. intuition discriminate.
Defined.

Lemma filter_Cereal_yield_data_failures_witness :
  filter_Cereal_yield_data sample_read_csv parse_year no_text_number
    "Other.csv" ["India"]%string ["Population, total"]%string 1991 2019
  = Raise FileNotFoundError /\
  filter_Cereal_yield_data short_read_csv parse_year no_text_number
    "WorldBank.csv" ["India"]%string ["Population, total"]%string 1991 2019
  = Raise KeyError.
Proof.
  split.
  - apply (filter_Cereal_yield_data_failures sample_read_csv parse_year
             no_text_number "Other.csv" ["India"]%string
             ["Population, total"]%string 1991 2019). reflexivity.
  - apply (filter_Cereal_yield_data_failures short_read_csv parse_year
             no_text_number "WorldBank.csv" ["India"]%string
             ["Population, total"]%string 1991 2019) with (raw := short_csv);
      [reflexivity|].
    simpl. intuition discriminate.
Defined.

(** ** subset_data: missing years, cells *)

Lemma get_locs_raises_KeyError (idx : list (string * string))
    (countries indicators : list string) (e : exn) :
  Pandas.get_locs idx countries indicators = Raise e -> e = KeyError.
Proof.
  unfold Pandas.get_locs.
  destruct countries; [discriminate|].
  destruct (negb _); [now intros [= <-]|].
  destruct indicators; [discriminate|].
  destruct (negb _); [now intros [= <-]|].
  destruct (filter _ _); [now intros [= <-] | discriminate].
Qed.

(** X8: when one of the years 1991..2018 is not a column of the table,
    [subset_data] raises KeyError whatever countries and indicators are
    requested. *)
Theorem subset_data_missing_year
    (df_years : Pandas.DataFrame (string * string) Z)
    (countries indicators : list string) :
  (exists y, In y subset_years /\ ~ In y (Pandas.columns df_years)) ->
  subset_data df_years countries indicators = Raise KeyError.
Proof.
  intros Hy. unfold subset_data, Pandas.loc.
  destruct (Pandas.get_locs (Pandas.index df_years) countries indicators)
    as [positions|e] eqn:Elocs; cbn [bind].
  - rewrite (@LocFacts.get_columns_absent _ _ _ _
               (Pandas.take_rows positions df_years) subset_years Hy).
    reflexivity.
  - now rewrite (get_locs_raises_KeyError _ _ _ Elocs).
Qed.

Lemma subset_data_missing_year_witness :
  subset_data sample_df_years ["India"]%string ["Population, total"]%string
  = Raise KeyError.
Proof.
  apply subset_data_missing_year. exists 1993%Z. split.
  - unfold subset_years. apply in_map_iff. exists 1993%nat.
    split; [reflexivity|]. apply in_seq. simpl. lia.
  - vm_compute. intuition discriminate.
Defined.

Module SubsetFacts.

Import Pandas.

Lemma get_locs_valid (idx : list (string * string))
    (countries indicators : list string) (positions : list nat) :
  get_locs idx countries indicators = Ok positions ->
  Forall (fun p => p < length idx)%nat positions.
Proof.
  unfold get_locs.
  destruct countries as [|c0 cs]; [now intros [= <-]|].
  destruct (negb _); [discriminate|].
  destruct indicators as [|i0 inds]; [now intros [= <-]|].
  destruct (negb _); [discriminate|].
  set (sel := filter _ (combine _ idx)).
  destruct sel as [|pk sel'] eqn:Esel; [discriminate|].
  intros [= <-]. rewrite <- Esel. apply Forall_map.
  apply (Permutation_Forall (x := sel)); [symmetry; apply sort_by_perm|].
  subst sel. apply Forall_forall. intros [p k] Hin.
  apply filter_In in Hin as [Hin _].
  apply PandasFacts.combine_seq0_In in Hin. cbn [fst].
  apply nth_error_Some. congruence.
Qed.

Lemma take_nth_error (A : Type) (l : list A) (positions : list nat) (q : nat) :
  Forall (fun p => p < length l)%nat positions ->
  nth_error (take positions l) q
  = match nth_error positions q with
    | Some p => nth_error l p
    | None => None
    end.
Proof.
  intros Hvalid. revert q. induction Hvalid as [|p ps Hp _ IH]; intros q.
  - now destruct q.
  - unfold take in *. cbn [flat_map].
    destruct (nth_error l p) as [x|] eqn:Ex.
    + destruct q as [|q]; simpl; [now rewrite Ex | apply IH].
    + apply nth_error_None in Ex. lia.
Qed.

Lemma nth_map_take (positions : list nat) (D : list (list float)) (j : nat) :
  nth j (map (take positions) D) [] = take positions (nth j D []).
Proof.
  revert j. induction D as [|col D IH]; intros [|j]; simpl; auto.
  - unfold take. induction positions as [|p ps IHp]; [reflexivity|].
    simpl. now destruct p.
  - unfold take. induction positions as [|p ps IHp]; [reflexivity|].
    simpl. now destruct p.
Qed.

Lemma get_columns_nth (I C : Type) `{OrdLaws C} (df : DataFrame I C)
    (labels : list C) (cols : list (list float)) (p : nat) (y : C) :
  get_columns df labels = Ok cols ->
  nth_error labels p = Some y ->
  exists j, nth_error (columns df) j = Some y /\
            nth p cols [] = nth j (data df) [].
Proof.
  revert cols p. induction labels as [|l labels IH]; intros cols p; simpl.
  - now destruct p.
  - destruct (index_of l (columns df)) as [j|] eqn:Ej; [|discriminate].
    destruct (get_columns df labels) as [rest|]; [|discriminate].
    cbn [bind]. intros [= <-]. destruct p as [|p]; simpl.
    + intros [= <-]. exists j. split; [|reflexivity].
      now apply index_of_Some.
    + intros Hp. now apply IH.
Qed.

Lemma get_columns_Ok (I C : Type) `{OrdLaws C} (df : DataFrame I C)
    (labels : list C) :
  (forall y, In y labels -> In y (columns df)) ->
  exists cols, get_columns df labels = Ok cols.
Proof.
  induction labels as [|l labels IH]; intros Hall; simpl; [eauto|].
  destruct (index_of_In l (columns df)) as [j ->]; [apply Hall; now left|].
  destruct IH as [rest ->]; [intros y Hy; apply Hall; now right|].
  cbn [bind]. eauto.
Qed.

Lemma get_locs_Ok (idx : list (string * string))
    (countries indicators : list string) :
  (forall c, In c countries -> In c (map fst idx)) ->
  (forall i, In i indicators -> In i (map snd idx)) ->
  (exists k, In k idx /\ requested countries indicators k = true) ->
  exists positions, get_locs idx countries indicators = Ok positions.
Proof.
  intros Hc Hi [k [Hk Hreq]]. unfold get_locs.
  unfold requested in Hreq. apply andb_true_iff in Hreq as [Hkc Hki].
  destruct countries as [|c0 cs]; [discriminate|].
  assert (forallb (level_has (map fst idx)) (c0 :: cs) = true) as ->.
  { apply forallb_forall. intros c Hin. now apply LocFacts.level_has_In, Hc. }
  cbn [negb]. destruct indicators as [|i0 inds]; [discriminate|].
  assert (forallb (level_has (map snd idx)) (i0 :: inds) = true) as ->.
  { apply forallb_forall. intros i Hin. now apply LocFacts.level_has_In, Hi. }
  cbn [negb].
  pose proof (LocFacts.filter_combine_seq
                (requested (c0 :: cs) (i0 :: inds)) idx 0) as Hsel.
  destruct (filter _ (combine _ idx)) as [|pk sel]; [|eauto].
  exfalso. simpl in Hsel.
  assert (In k (filter (requested (c0 :: cs) (i0 :: inds)) idx)) as Hin.
  { apply filter_In. split; [assumption|]. unfold requested.
    now rewrite Hkc, Hki. }
  now rewrite <- Hsel in Hin.
Qed.

End SubsetFacts.

(** X9: [subset_data] returns a table as soon as every requested country
    and indicator occurs in the row index, some row bears a requested
    country together with a requested indicator, and every year 1991..2018
    is a column. *)
Theorem subset_data_succeeds
    (df_years : Pandas.DataFrame (string * string) Z)
    (countries indicators : list string) :
  (forall c, In c countries -> In c (map fst (Pandas.index df_years))) ->
  (forall i, In i indicators -> In i (map snd (Pandas.index df_years))) ->
  (exists k, In k (Pandas.index df_years) /\
             Pandas.requested countries indicators k = true) ->
  (forall y, In y subset_years -> In y (Pandas.columns df_years)) ->
  exists df, subset_data df_years countries indicators = Ok df.
Proof.
  intros Hc Hi Hk Hy. unfold subset_data, Pandas.loc.
  destruct (SubsetFacts.get_locs_Ok _ _ _ Hc Hi Hk) as [positions ->].
  cbn [bind].
  destruct (@SubsetFacts.get_columns_Ok _ _ _ _
              (Pandas.take_rows positions df_years) subset_years Hy)
    as [cols ->].
  cbn [bind]. eauto.
Qed.

(** X10: the subset holds the cells of the table: the cell of the subset in
    the row of year [y] and the column of the pair [k] is the cell of the
    table in a row labelled [k] and a column labelled [y]. *)
Theorem subset_data_cell
    (df_years : Pandas.DataFrame (string * string) Z)
    (countries indicators : list string)
    (df : Pandas.DataFrame Z (string * string))
    (p q : nat) (y : Z) (k : string * string) :
  Pandas.well_formed df_years ->
  subset_data df_years countries indicators = Ok df ->
  nth_error (Pandas.index df) p = Some y ->
  nth_error (Pandas.columns df) q = Some k ->
  exists p' j',
    nth_error (Pandas.index df_years) p' = Some k /\
    nth_error (Pandas.columns df_years) j' = Some y /\
    Pandas.iat df p q = Pandas.iat df_years p' j'.
Proof.
  intros [Hdata Hcols]. unfold subset_data, Pandas.loc.
  destruct (Pandas.get_locs (Pandas.index df_years) countries indicators)
    as [positions|] eqn:Elocs; [|discriminate]. cbn [bind].
  destruct (Pandas.get_columns _ subset_years) as [cols|] eqn:Ecols;
    [|discriminate].
  cbn [bind]. intros [= <-].
  unfold Pandas.transpose, Pandas.iat, Pandas.rows.
  cbn [Pandas.index Pandas.columns Pandas.data].
  intros Hp Hq.
  pose proof (SubsetFacts.get_locs_valid _ _ _ Elocs) as Hvalid.
  rewrite (SubsetFacts.take_nth_error _ q Hvalid) in Hq.
  destruct (nth_error positions q) as [p'|] eqn:Ep'; [|discriminate].
  destruct (SubsetFacts.get_columns_nth _ _ p Ecols Hp) as [j' [Hj' Hcol]].
  cbn [Pandas.columns Pandas.data Pandas.take_rows] in Hj', Hcol.
  exists p', j'. split; [assumption|]. split; [assumption|].
  assert (q < length (Pandas.take positions (Pandas.index df_years)))%nat
    as Hqlen.
  { apply nth_error_Some. rewrite (SubsetFacts.take_nth_error _ q Hvalid), Ep'.
    congruence. }
  rewrite (nth_indep _ [] (map (fun col => nth 0 col None) cols))
    by now rewrite length_map, length_seq.
  rewrite (map_nth (fun i => map (fun col => nth i col None) cols)).
  rewrite seq_nth by assumption. cbn [plus].
  assert (p < length cols)%nat as Hplen.
  { apply LocFacts.get_columns_length in Ecols; [|exact _].
    rewrite Ecols. apply nth_error_Some. congruence. }
  destruct (nth_error cols p) as [colp|] eqn:Ecp;
    [|apply nth_error_None in Ecp; lia].
  rewrite PivotCellFacts.nth_map_nth_error with (x := colp) by exact Ecp.
  rewrite (nth_error_nth _ _ [] Ecp) in Hcol.
  rewrite Hcol, SubsetFacts.nth_map_take.
  assert (j' < length (Pandas.data df_years))%nat as Hj'len.
  { rewrite Hdata. apply nth_error_Some. congruence. }
  assert (length (nth j' (Pandas.data df_years) [])
          = length (Pandas.index df_years)) as Hlen.
  { rewrite Forall_forall in Hcols. apply Hcols. now apply nth_In. }
  assert (Forall (fun p0 => p0 < length (nth j' (Pandas.data df_years) []))%nat
                 positions) as Hvalid'
    by (unfold float in *; now rewrite Hlen).
  apply nth_error_nth.
  etransitivity; [exact (SubsetFacts.take_nth_error _ q Hvalid')|].
  rewrite Ep'. apply nth_error_nth'.
  rewrite Forall_forall in Hvalid'. apply Hvalid'.
  eapply nth_error_In; eassumption.
Qed.

Lemma scenario_df_years_well_formed : Pandas.well_formed scenario_df_years.
Proof. split; [reflexivity|]. repeat constructor. Qed.

Lemma scenario_subset_labels :
  exists df,
    subset_data scenario_df_years main_countries main_indicators = Ok df /\
    nth_error (Pandas.index df) 0 = Some 1991%Z /\
    nth_error (Pandas.columns df) 0
    = Some ("India", "Cereal yield (kg per hectare)")%string.
Proof.
  eexists. split; [vm_compute; reflexivity|]. split; reflexivity.
Qed.

Lemma subset_data_succeeds_witness :
  exists df,
    subset_data scenario_df_years main_countries main_indicators = Ok df.
Proof.
  apply subset_data_succeeds.
  - intros c Hc. simpl in Hc.
    destruct Hc as [<-|[<-|[<-|[<-|[]]]]]; simpl; auto 20.
  - intros i Hi. simpl in Hi. destruct Hi as [<-|[<-|[]]]; simpl; auto 20.
  - exists ("India", "Population, total")%string. split; [simpl; auto 20|].
    reflexivity.
  - intros y Hy. unfold subset_years in Hy.
    apply in_map_iff in Hy as [n [<- Hn]]. apply in_seq in Hn.
    unfold scenario_df_years, scenario_years. cbn [Pandas.columns].
    apply in_map, in_seq. simpl in Hn. lia.
Defined.

Lemma subset_data_cell_witness :
  exists df p' j',
    subset_data scenario_df_years main_countries main_indicators = Ok df /\
    nth_error (Pandas.index scenario_df_years) p'
    = Some ("India", "Cereal yield (kg per hectare)")%string /\
    nth_error (Pandas.columns scenario_df_years) j' = Some 1991%Z /\
    Pandas.iat df 0 0 = Pandas.iat scenario_df_years p' j'.
Proof.
  destruct scenario_subset_labels as [df [Hsub [Hidx Hcol]]].
  destruct (@subset_data_cell scenario_df_years main_countries
              main_indicators df 0 0 1991%Z
              ("India", "Cereal yield (kg per hectare)")%string
              scenario_df_years_well_formed Hsub Hidx Hcol)
    as [p' [j' H]].
  exists df, p', j'. split; [assumption | exact H].
Defined.

(** ** KMeans: the number of centres *)

Module KMeansCentres.

Import Sklearn.

Section Centres.

Variable RandomState : Type.
Variable seeded : Z -> RandomState.
Variable init_centroids :
  RandomState -> list (list R) -> nat -> list (list R) * RandomState.
Variable relocate_empty :
  list (list R) -> list (list R) -> list Z -> Z -> list R.

Hypothesis init_centroids_length :
  forall rs X k, length (fst (init_centroids rs X k)) = k.

Lemma lloyd_loop_centers (fuel : nat) (X : list (list R)) (k : nat)
    (tolerance : R) (centers : list (list R)) (labels_old : list Z) :
  length centers = k ->
  length (snd (fst (lloyd_loop relocate_empty fuel X k tolerance centers
                               labels_old))) = k.
Proof.
  revert centers labels_old.
  induction fuel as [|fuel IH]; intros centers labels_old Hc; simpl;
    [assumption|].
  destruct (labels_eqb _ _); [apply KMeansFacts.m_step_length|].
  destruct (Rle_dec _ _); [apply KMeansFacts.m_step_length|].
  apply IH, KMeansFacts.m_step_length.
Qed.

Lemma kmeans_single_centers (X : list (list R)) (k iterations : nat)
    (tolerance : R) (centers_init : list (list R)) :
  length centers_init = k ->
  length (cluster_centers_ (kmeans_single relocate_empty X k iterations
                                          tolerance centers_init)) = k.
Proof.
  intros Hc. unfold kmeans_single.
  pose proof (@lloyd_loop_centers iterations X k tolerance centers_init
                (map (fun _ => (-1)%Z) X) Hc) as Hl.
  destruct (lloyd_loop _ _ _ _ _ _ _) as [[labels centers] strict].
  exact Hl.
Qed.

Lemma restarts_centers (n : nat) (rs : RandomState) (X : list (list R))
    (km : KMeans) (tolerance : R) (best : option Fitted) :
  (forall b, best = Some b -> length (cluster_centers_ b) = n_clusters km) ->
  forall b,
    fst (restarts init_centroids relocate_empty n rs X km tolerance best)
    = Some b ->
    length (cluster_centers_ b) = n_clusters km.
Proof.
  revert rs best. induction n as [|n IH]; intros rs best Hbest; simpl.
  - exact Hbest.
  - pose proof (init_centroids_length rs X (n_clusters km)) as Hinit.
    destruct (init_centroids rs X (n_clusters km)) as [centers_init rs'].
    cbn [fst] in Hinit.
    pose proof (@kmeans_single_centers X (n_clusters km) (max_iter km)
                  tolerance centers_init Hinit) as Hrun.
    apply IH. intros b' Hb'. destruct best as [b|].
    + destruct (Rlt_dec _ _).
      * destruct (is_same_clustering _ _); injection Hb' as <-;
          [now apply Hbest | assumption].
      * injection Hb' as <-. now apply Hbest.
    + injection Hb' as <-. assumption.
Qed.

End Centres.

End KMeansCentres.

(** ** perform_kmeans_clustering and the main block: outcomes *)

Lemma all_finite_None (xs : list float) :
  In None xs -> Numpy.all_finite xs = None.
Proof.
  induction xs as [|[x|] xs IH]; simpl.
  - contradiction.
  - intros [H|H]; [discriminate|]. now rewrite (IH H).
  - reflexivity.
Qed.

Lemma all_finite_rows_None (rows : list (list float)) :
  (exists r, In r rows /\ In None r) ->
  Numpy.all_finite_rows rows = None.
Proof.
  intros [r [Hr Hnone]]. induction rows as [|r' rows IH]; [destruct Hr|].
  simpl. destruct Hr as [->|Hr].
  - now rewrite (all_finite_None _ Hnone).
  - rewrite (IH Hr). now destruct (Numpy.all_finite r').
Qed.

Lemma rows_missing (I C : Type) (df : Pandas.DataFrame I C) :
  Forall (fun col => length col = length (Pandas.index df)) (Pandas.data df) ->
  (exists col, In col (Pandas.data df) /\ In None col) ->
  exists r, In r (Pandas.rows df) /\ In None r.
Proof.
  intros Hlen [col [Hcol Hnone]].
  apply In_nth with (d := None) in Hnone as [i [Hi Hnth]].
  rewrite Forall_forall in Hlen. specialize (Hlen col Hcol).
  exists (map (fun c => nth i c None) (Pandas.data df)). split.
  - unfold Pandas.rows. apply in_map_iff. exists i. split; [reflexivity|].
    apply in_seq. unfold float in *. lia.
  - apply in_map_iff. exists col. split; assumption.
Qed.

Section ClusteringOutcomes.

Variable RandomState : Type.
Variable seeded : Z -> RandomState.
Variable init_centroids :
  RandomState -> list (list R) -> nat -> list (list R) * RandomState.
Variable relocate_empty :
  list (list R) -> list (list R) -> list Z -> Z -> list R.

Hypothesis init_centroids_length :
  forall rs X k, length (fst (init_centroids rs X k)) = k.

(** X13: on a frame with at least one column, without missing cells, and
    for a cluster count between 1 and the number of rows,
    [perform_kmeans_clustering] returns one label per row, each between 0
    and the cluster count minus 1. *)
Theorem perform_kmeans_clustering_labels (I C : Type) (global : RandomState)
    (df : Pandas.DataFrame I C) (num_clusters : nat) :
  Pandas.data df <> [] ->
  Forall (fun col => length col = length (Pandas.index df)) (Pandas.data df) ->
  Forall (Forall (fun v => v <> None)) (Pandas.data df) ->
  (1 <= num_clusters <= length (Pandas.index df))%nat ->
  exists labels,
    fst (perform_kmeans_clustering seeded init_centroids relocate_empty
           global df num_clusters) = Ok labels /\
    length labels = length (Pandas.index df) /\
    Forall (fun l => (0 <= l < Z.of_nat num_clusters)%Z) labels.
Proof.
  intros Hcol Hlen Hfin Hk.
  unfold perform_kmeans_clustering, Sklearn.fit_predict.
  destruct (KMeansFacts.all_finite_rows_Some (rows_finite df Hlen Hfin))
    as [X [EX HlenX]].
  rewrite rows_length in HlenX.
  set (km := Sklearn.mkKMeans _ _ _ _ _).
  destruct (@KMeansFacts.fit_labelling RandomState seeded init_centroids
              relocate_empty init_centroids_length global km
              (Pandas.rows df) X EX) as [f [Hf [Hl Hr]]];
    try (unfold km; cbn [Sklearn.n_clusters Sklearn.n_init Sklearn.max_iter];
         unfold Sklearn.default_max_iter; lia).
  { apply (rows_features df EX); [|exact Hcol].
    intros E. rewrite E in Hk. simpl in Hk. lia. }
  destruct (Sklearn.fit _ _ _ global km _) as [r g]. cbn [fst] in *.
  subst r. cbn [bind]. exists (Sklearn.labels_ f).
  split; [reflexivity|]. split; [congruence | exact Hr].
Qed.

(** X15: whenever the main block gets its clustering, it has three centres. *)
Theorem main_clustering_centers (global : RandomState)
    (df_years : Pandas.DataFrame (string * string) Z)
    (labels : list Z) (centers : list (list R)) :
  main_clustering seeded init_centroids relocate_empty global df_years
  = Ok (labels, centers) ->
  length centers = 3%nat.
Proof.
  unfold main_clustering.
  destruct (subset_data _ _ _) as [df|]; [|discriminate]. cbn [bind].
  destruct (normalize_data df) as [dfn|]; [|discriminate]. cbn [bind].
  unfold Sklearn.fit.
  destruct (Numpy.all_finite_rows _) as [X|]; [|discriminate].
  destruct (_ || _)%bool; [discriminate|].
  cbn [Sklearn.n_init Sklearn.n_clusters Sklearn.max_iter Sklearn.tol
       Sklearn.random_state].
  set (km := Sklearn.mkKMeans _ _ _ _ _).
  set (Xc := map _ X).
  pose proof (@KMeansCentres.restarts_centers RandomState init_centroids
                relocate_empty init_centroids_length Sklearn.default_n_init
                (Sklearn.check_random_state seeded global (Some 42%Z)) Xc km
                (Sklearn.tolerance_of Xc Sklearn.default_tol) None) as Hc.
  destruct (Sklearn.restarts _ _ _ _ _ _ _ _) as [[b|] rs']; cbn [fst bind];
    [|discriminate].
  intros [= <- <-]. rewrite length_map.
  apply Hc; [discriminate | reflexivity].
Qed.

End ClusteringOutcomes.

Lemma scale_column_keeps_missing (col : list float) :
  In None col -> In None (Sklearn.scale_column col).
Proof.
  intros Hin. unfold Sklearn.scale_column. apply in_map_iff.
  exists None. split; [reflexivity | assumption].
Qed.

Lemma missing_reflect (data : list (list float)) :
  existsb (existsb (fun v => negb (is_finite v))) data = true ->
  exists col, In col data /\ In None col.
Proof.
  intros Hex. apply existsb_exists in Hex as [col [Hcol Hex]].
  apply existsb_exists in Hex as [[x|] [Hv Hf]]; [discriminate|].
  now exists col.
Qed.

Section ClusteringFailures.

Variable RandomState : Type.
Variable seeded : Z -> RandomState.
Variable init_centroids :
  RandomState -> list (list R) -> nat -> list (list R) * RandomState.
Variable relocate_empty :
  list (list R) -> list (list R) -> list Z -> Z -> list R.

Lemma fit_missing (global : RandomState) (km : Sklearn.KMeans)
    (rows : list (list float)) :
  (exists r, In r rows /\ In None r) ->
  fst (Sklearn.fit seeded init_centroids relocate_empty global km rows)
  = Raise ValueError.
Proof.
  intros Hmiss. unfold Sklearn.fit.
  now rewrite (all_finite_rows_None _ Hmiss).
Qed.

(** X14: [perform_kmeans_clustering] raises ValueError when the cluster
    count is 0, when it exceeds the number of rows (so on every frame
    without rows), and when a cell is missing. *)
Theorem perform_kmeans_clustering_errors (I C : Type) (global : RandomState)
    (df : Pandas.DataFrame I C) (num_clusters : nat) :
  num_clusters = 0%nat \/
  (length (Pandas.index df) < num_clusters)%nat \/
  (Forall (fun col => length col = length (Pandas.index df)) (Pandas.data df)
   /\ exists col, In col (Pandas.data df) /\ In None col) ->
  fst (perform_kmeans_clustering seeded init_centroids relocate_empty
         global df num_clusters) = Raise ValueError.
Proof.
  intros Hbad. unfold perform_kmeans_clustering, Sklearn.fit_predict.
  set (km := Sklearn.mkKMeans _ _ _ _ _).
  assert (fst (Sklearn.fit seeded init_centroids relocate_empty global km
                 (Pandas.rows df)) = Raise ValueError) as Hfit.
  { unfold Sklearn.fit.
    destruct (Numpy.all_finite_rows (Pandas.rows df)) as [X|] eqn:EX;
      [|reflexivity].
    pose proof (all_finite_rows_length _ EX) as HlenX.
    rewrite rows_length in HlenX.
    destruct Hbad as [Hk|[Hk|[Hlen Hmiss]]].
    - unfold km at 1. cbn [Sklearn.n_clusters]. rewrite Hk. reflexivity.
    - assert (Nat.ltb (length X) (Sklearn.n_clusters km) = true) as ->
        by (apply Nat.ltb_lt; unfold km; cbn [Sklearn.n_clusters]; lia).
      now rewrite !orb_true_r.
    - rewrite (all_finite_rows_None _ (rows_missing df Hlen Hmiss)) in EX.
      discriminate. }
  destruct (Sklearn.fit _ _ _ global km _) as [r g]. cbn [fst] in *.
  now subst r.
Qed.

(** X16: a single missing cell in the subset makes the clustering of the
    main block fail with ValueError: the scaler lets the gap through and
    KMeans refuses it. *)
Theorem main_clustering_missing_value (global : RandomState)
    (df_years : Pandas.DataFrame (string * string) Z)
    (df : Pandas.DataFrame Z (string * string)) :
  subset_data df_years main_countries main_indicators = Ok df ->
  (exists col, In col (Pandas.data df) /\ In None col) ->
  main_clustering seeded init_centroids relocate_empty global df_years
  = Raise ValueError.
Proof.
  intros Hsub [col [Hcol Hnone]]. unfold main_clustering.
  rewrite Hsub. cbn [bind].
  pose proof (subset_data_well_formed _ _ _ Hsub) as [Hdata Hcols].
  destruct (subset_data_shape _ _ _ Hsub) as [_ [_ Hshape]].
  assert (length (Pandas.index df) = 28%nat) as Hn
    by (unfold Pandas.shape in Hshape; congruence).
  unfold normalize_data. rewrite fit_transform_Ok;
    [|lia | destruct (Pandas.data df); [destruct Hcol | discriminate]].
  cbn [bind]. set (dfn := Pandas.mkDF _ _ _).
  rewrite (@fit_missing global _ (Pandas.rows dfn)); [reflexivity|].
  apply rows_missing; unfold dfn; cbn [Pandas.data Pandas.index].
  - rewrite RangeIndex_length. apply Forall_map. revert Hcols.
    apply Forall_impl. intros c Hc. now rewrite scale_column_length.
  - exists (Sklearn.scale_column col). split.
    + now apply in_map.
    + now apply scale_column_keeps_missing.
Qed.

End ClusteringFailures.

Lemma perform_kmeans_clustering_labels_witness :
  exists labels,
    fst (perform_kmeans_clustering unit_seeded first_rows_init keep_centre tt
           (Pandas.mkDF [1991; 1992; 1993]%Z ["India"]%string
                        [[Some 1%R; Some 3%R; Some 8%R]]) 2) = Ok labels /\
    length labels = 3%nat /\
    Forall (fun l => (0 <= l < 2)%Z) labels.
Proof.
  apply (@perform_kmeans_clustering_labels unit unit_seeded first_rows_init
           keep_centre first_rows_init_length Z string tt
           (Pandas.mkDF [1991; 1992; 1993]%Z ["India"]%string
                        [[Some 1%R; Some 3%R; Some 8%R]]) 2).
  - discriminate.
  - repeat constructor.
  - repeat constructor; discriminate.
  - simpl. lia.
Defined.

Lemma perform_kmeans_clustering_errors_witness :
  fst (perform_kmeans_clustering unit_seeded first_rows_init keep_centre tt
         (Pandas.mkDF [1991; 1992]%Z ["India"]%string [[Some 1%R; None]]) 2)
  = Raise ValueError.
Proof.
  apply perform_kmeans_clustering_errors. right. right. split.
  - repeat constructor.
  - exists [Some 1%R; None]. simpl. auto.
Defined.

Lemma main_clustering_centers_witness :
  exists labels centers,
    main_clustering unit_seeded first_rows_init keep_centre tt
                    scenario_df_years = Ok (labels, centers) /\
    length centers = 3%nat.
Proof.
  destruct scenario_subset as [df [Hsub [_ [_ Hfin]]]].
  destruct (@main_clustering_labelling unit unit_seeded first_rows_init
              keep_centre first_rows_init_length tt scenario_df_years df
              Hsub Hfin) as [labels [centers [Hmain _]]].
  exists labels, centers. split; [assumption|].
  exact (@main_clustering_centers unit unit_seeded first_rows_init keep_centre
           first_rows_init_length tt scenario_df_years labels centers Hmain).
Defined.

Lemma gap_subset :
  exists df,
    subset_data gap_df_years main_countries main_indicators = Ok df /\
    exists col, In col (Pandas.data df) /\ In None col.
Proof.
  eexists. split; [vm_compute; reflexivity|].
  apply missing_reflect. vm_compute. reflexivity.
Qed.

Lemma main_clustering_missing_value_witness :
  main_clustering unit_seeded first_rows_init keep_centre tt gap_df_years
  = Raise ValueError.
Proof.
  destruct gap_subset as [df [Hsub Hmiss]].
  exact (@main_clustering_missing_value unit unit_seeded first_rows_init
           keep_centre tt gap_df_years df Hsub Hmiss).
Defined.

(** ** The growth model and its error ranges *)



Lemma broadcast2_mismatch (f : R -> R -> R) (xs ys : list R) :
  length xs <> length ys -> length xs <> 1%nat -> length ys <> 1%nat ->
  Numpy.broadcast2 f xs ys = Raise ValueError.
Proof.
  intros Hne Hx Hy. unfold Numpy.broadcast2.
  destruct (Nat.eqb_spec (length xs) (length ys)) as [E|_]; [contradiction|].
  destruct xs as [|x [|x' xs]]; [| now destruct Hx |];
    destruct ys as [|y [|y' ys]]; try reflexivity; now destruct Hy.
Qed.

(** The diagonal of a matrix of [c] columns, from row [i] on. *)
Lemma diag_from_length (A : Type) (c : nat) (m : list (list A)) (i : nat) :
  Forall (fun row => length row = c) m ->
  length (Numpy.diag_from i m) = Nat.min (length m) (c - i).
Proof.
  intros Hrect. revert i. induction Hrect as [|r m Hr _ IH]; intros i;
    [reflexivity|].
  cbn [Numpy.diag_from length].
  destruct (nth_error r i) as [x|] eqn:E.
  - assert (i < c)%nat
      by (rewrite <- Hr; apply nth_error_Some; congruence).
    cbn [length]. rewrite (IH (S i)). lia.
  - apply nth_error_None in E. cbn [length]. lia.
Qed.

Lemma map2_exact (g : R -> R) (xs : list R) :
  Numpy.map2 Rminus (map g xs) (map g xs) = map (fun _ => 0%R) xs.
Proof.
  induction xs as [|x xs IH]; simpl; [reflexivity|]. rewrite IH. f_equal. lra.
Qed.

Lemma sum_squares_of_zeros (A : Type) (xs : list A) :
  Numpy.sum (map (fun r => r * r)%R (map (fun _ => 0%R) xs)) = 0%R.
Proof. induction xs as [|x xs IH]; simpl; [reflexivity|]. rewrite IH. lra. Qed.

Section ErrRangesOutcomes.

Variable t_ppf : R -> Z -> float.

(** X18: the ways [err_ranges] ends.  It raises TypeError unless [popt] has
    exactly the two parameters of [exp_growth]; with two parameters it
    raises ValueError when the abscissae and the observations have
    different lengths, neither of them 1; with as many abscissae as
    observations and a covariance matrix of [r] rows and [c] columns it
    returns min(r, c) half-widths, one per diagonal entry, whatever
    [alpha]. *)
Theorem err_ranges_outcome (xdata ydata popt : list R)
    (pcov : list (list float)) (alpha : R) (c : nat) :
  (length popt <> 2%nat ->
   err_ranges t_ppf xdata ydata popt pcov alpha = Raise TypeError) /\
  (length popt = 2%nat -> length ydata <> length xdata ->
   length ydata <> 1%nat -> length xdata <> 1%nat ->
   err_ranges t_ppf xdata ydata popt pcov alpha = Raise ValueError) /\
  (length popt = 2%nat -> length ydata = length xdata ->
   Forall (fun row => length row = c) pcov ->
   exists ci,
     err_ranges t_ppf xdata ydata popt pcov alpha = Ok ci /\
     length ci = Nat.min (length pcov) c).
Proof.
  unfold err_ranges, err_residuals, exp_growth_array. split; [|split].
  - intros Hp. destruct popt as [|a [|b [|c' popt]]]; try reflexivity.
    now destruct Hp.
  - intros Hp Hne Hy Hx.
    destruct popt as [|a [|b [|c' popt]]]; try discriminate. cbn [bind].
    rewrite broadcast2_mismatch; [reflexivity | | assumption |];
      now rewrite length_map.
  - intros Hp Hlen Hrect.
    destruct popt as [|a [|b [|c' popt]]]; try discriminate. cbn [bind].
    unfold Numpy.broadcast2. rewrite length_map, Hlen, Nat.eqb_refl.
    cbn [bind]. eexists. split; [reflexivity|].
    rewrite length_map. unfold Numpy.diag.
    rewrite (diag_from_length 0 Hrect). now rewrite Nat.sub_0_r.
Qed.

(** X19: on data that the model reproduces exactly, beyond two
    observations, every half-width is 0: the residuals vanish, so does
    their standard deviation, whatever the (finite) critical value and the
    covariance. *)
Theorem err_ranges_exact_fit (xdata : list R) (a b : R)
    (pcov : list (list float)) (alpha t : R) :
  (2 < length xdata)%nat ->
  t_ppf (alpha / 2) (Z.of_nat (length xdata) - 2) = Some t ->
  Forall (fun d => exists v, d = Some v /\ (-1 <= v)%R) (Numpy.diag pcov) ->
  err_ranges t_ppf xdata (map (fun x => exp_growth x a b) xdata) [a; b]
             pcov alpha
  = Ok (map (fun _ => Some 0%R) (Numpy.diag pcov)).
Proof.
  intros Hn Ht Hdiag. unfold err_ranges, err_residuals, exp_growth_array.
  cbn [bind]. unfold Numpy.broadcast2. rewrite Nat.eqb_refl. cbn [bind].
  rewrite map2_exact.
  assert (err_df (map (fun x => exp_growth x a b) xdata) [a; b]
          = (Z.of_nat (length xdata) - 2)%Z) as Hdf.
  { unfold err_df. rewrite length_map. simpl length. lia. }
  rewrite Hdf, Ht.
  rewrite err_stdev_pos_df by lia. rewrite sum_squares_of_zeros.
  f_equal. induction Hdiag as [|d ds [v [-> Hv]] _ IH]; [reflexivity|].
  cbn [map]. rewrite IH. f_equal.
  unfold fadd, fmul, lift2, fsqrt.
  destruct (Rlt_dec (1 + v) 0); [lra|]. f_equal.
  unfold Rdiv. rewrite Rmult_0_l, sqrt_0. ring.
Qed.

(** X20: the half-widths have the sign of the critical value.  When the
    lower quantile at alpha / 2 is not positive (alpha up to 1 for Student's
    t) every finite half-width is non-negative; [alpha] is not checked, and
    a positive quantile (alpha beyond 1) gives half-widths that are not
    positive. *)
Theorem err_ranges_sign (xdata ydata popt : list R)
    (pcov : list (list float)) (alpha t : R) (ci : list float) :
  t_ppf (alpha / 2) (err_df ydata popt) = Some t ->
  err_ranges t_ppf xdata ydata popt pcov alpha = Ok ci ->
  ((t <= 0)%R -> Forall (fun c => forall v, c = Some v -> (0 <= v)%R) ci) /\
  ((0 <= t)%R -> Forall (fun c => forall v, c = Some v -> (v <= 0)%R) ci).
Proof.
  intros Ht. unfold err_ranges. rewrite Ht.
  destruct (err_residuals xdata ydata popt) as [rs|]; [|discriminate].
  cbn [bind]. intros [= <-].
  assert (forall s, err_stdev rs (err_df ydata popt) = Some s -> (0 <= s)%R)
    as Hs.
  { unfold err_stdev, fdiv, fsqrt. intros s.
    destruct (Req_dec_T _ 0); [discriminate|].
    destruct (Rlt_dec _ 0); [discriminate|]. intros [= <-]. apply sqrt_pos. }
  split; intros Hsign; apply Forall_forall; intros c Hc v Ev;
    apply in_map_iff in Hc as [d [Ec _]]; subst c;
    destruct (err_stdev rs (err_df ydata popt)) as [s|]; try discriminate;
    specialize (Hs s eq_refl);
    unfold fadd, fmul, lift2, fsqrt in Ev;
    destruct d as [d|]; try discriminate;
    destruct (Rlt_dec (1 + d) 0); try discriminate;
    injection Ev as <-; pose proof (sqrt_pos (1 + d)) as Hq.
  - assert (0 <= (-1 * t) * s)%R by (apply Rmult_le_pos; lra).
    now apply Rmult_le_pos.
  - assert (0 <= t * s)%R by (apply Rmult_le_pos; lra).
    assert (0 <= t * s * sqrt (1 + d))%R by now apply Rmult_le_pos.
    lra.
Qed.

End ErrRangesOutcomes.

Lemma err_ranges_outcome_witness :
  err_ranges cauchy_ppf [0; 1; 2]%R [1; 1; 1]%R [1]%R
    [[Some 4%R; Some 0%R]; [Some 0%R; Some 9%R]] (5 / 100)
  = Raise TypeError /\
  err_ranges cauchy_ppf [0; 1; 2]%R [1; 1]%R [1; 0]%R
    [[Some 4%R; Some 0%R]; [Some 0%R; Some 9%R]] (5 / 100)
  = Raise ValueError /\
  exists ci,
    err_ranges cauchy_ppf [0; 1; 2]%R [1; 1; 1]%R [1; 0]%R
      [[Some 4%R; Some 0%R]; [Some 0%R; Some 9%R]] (5 / 100) = Ok ci /\
    length ci
    = Nat.min (length [[Some 4%R; Some 0%R]; [Some 0%R; Some 9%R]]) 2.
Proof.
  split; [|split].
  - apply (err_ranges_outcome cauchy_ppf [0; 1; 2]%R [1; 1; 1]%R [1]%R
             [[Some 4%R; Some 0%R]; [Some 0%R; Some 9%R]] (5 / 100) 2).
    simpl. lia.
  - apply (err_ranges_outcome cauchy_ppf [0; 1; 2]%R [1; 1]%R [1; 0]%R
             [[Some 4%R; Some 0%R]; [Some 0%R; Some 9%R]] (5 / 100) 2);
      simpl; lia.
  - apply (err_ranges_outcome cauchy_ppf [0; 1; 2]%R [1; 1; 1]%R [1; 0]%R
             [[Some 4%R; Some 0%R]; [Some 0%R; Some 9%R]] (5 / 100) 2);
      [reflexivity | reflexivity | repeat constructor].
Defined.

Lemma cauchy_ppf_value (q : R) :
  (0 < q < 1)%R -> cauchy_ppf q 1 = Some (tan (PI * (q - 1 / 2))).
Proof.
  intros [H0 H1]. unfold cauchy_ppf. change (Z.leb 1 0) with false. cbv iota.
  destruct (Rlt_dec 0 q); [|contradiction].
  destruct (Rlt_dec q 1); [reflexivity | contradiction].
Qed.

Lemma err_ranges_exact_fit_witness :
  err_ranges cauchy_ppf [0; 1; 2]%R
    (map (fun x => exp_growth x 3 1) [0; 1; 2]%R) [3; 1]%R
    [[Some 4%R; Some 0%R]; [Some 0%R; Some 9%R]] (5 / 100)
  = Ok (map (fun _ => Some 0%R)
            (Numpy.diag [[Some 4%R; Some 0%R]; [Some 0%R; Some 9%R]])).
Proof.
  apply (@err_ranges_exact_fit cauchy_ppf [0; 1; 2]%R 3 1
           [[Some 4%R; Some 0%R]; [Some 0%R; Some 9%R]] (5 / 100)
           (tan (PI * (5 / 100 / 2 - 1 / 2)))).
  - simpl. lia.
  - apply cauchy_ppf_value. lra.
  - repeat constructor; eexists; (split; [reflexivity | lra]).
Defined.

Lemma err_ranges_sign_witness :
  exists ci,
    err_ranges cauchy_ppf [0; 1; 2]%R [1; 2; 4]%R [1; 0]%R
      [[Some 4%R; Some 0%R]; [Some 0%R; Some 9%R]] (5 / 100) = Ok ci /\
    Forall (fun c => forall v, c = Some v -> (0 <= v)%R) ci.
Proof.
  eexists. split; [reflexivity|].
  refine (proj1 (@err_ranges_sign cauchy_ppf [0; 1; 2]%R [1; 2; 4]%R [1; 0]%R
                   [[Some 4%R; Some 0%R]; [Some 0%R; Some 9%R]] (5 / 100)
                   (tan (PI * (5 / 100 / 2 - 1 / 2))) _ _ eq_refl) _).
  - apply cauchy_ppf_value. lra.
  - left. apply tan_lt_0; pose proof PI_RGT_0; lra.
Defined.

(** ** The year window of filter_Cereal_yield_data *)

Module SliceFacts.

Import Pandas.

Lemma map_fst_filter_combine (A B : Type) (f : A -> bool) (l1 : list A)
    (l2 : list B) :
  length l1 = length l2 ->
  map fst (filter (fun p => f (fst p)) (combine l1 l2)) = filter f l1.
Proof.
  revert l2. induction l1 as [|x l1 IH]; intros [|c l2]; simpl;
    try discriminate; [reflexivity|].
  intros [= H]. destruct (f x); simpl; now rewrite IH.
Qed.

Lemma filter_combine_nth (A B : Type) (f : A -> bool) (d : B) (l1 : list A)
    (l2 : list B) (j j' : nat) (y : A) :
  length l1 = length l2 -> NoDup l1 ->
  nth_error (map fst (filter (fun p => f (fst p)) (combine l1 l2))) j = Some y ->
  nth_error l1 j' = Some y ->
  nth j (map snd (filter (fun p => f (fst p)) (combine l1 l2))) d
  = nth j' l2 d.
Proof.
  revert l2 j j'. induction l1 as [|x l1 IH]; intros [|c l2] j j';
    try discriminate.
  - intros _ _ _ Hj'. now destruct j'.
  - intros [= Hlen] Hnd Hj Hj'. apply NoDup_cons_iff in Hnd as [Hx Hnd].
    assert (In y l1 -> j' <> 0%nat) as Hpos.
    { intros Hin ->. cbn in Hj'. injection Hj' as ->. contradiction. }
    cbn [combine filter fst] in *.
    assert (forall k, nth_error
              (map fst (filter (fun p => f (fst p)) (combine l1 l2))) k
            = Some y -> In y l1) as Hin.
    { intros k Hk. apply nth_error_In in Hk.
      rewrite (map_fst_filter_combine f l1 l2 Hlen) in Hk.
      now apply filter_In in Hk. }
    destruct (f x) eqn:Efx.
    + cbn [map fst snd] in *. destruct j as [|j].
      * cbn in Hj. injection Hj as ->. destruct j' as [|j']; [reflexivity|].
        cbn in Hj'. apply nth_error_In in Hj'. contradiction.
      * cbn in Hj. specialize (Hpos (Hin _ Hj)).
        destruct j' as [|j']; [now destruct Hpos|]. cbn in Hj'. cbn [nth].
        now apply IH.
    + specialize (Hpos (Hin _ Hj)).
      destruct j' as [|j']; [now destruct Hpos|]. cbn in Hj'. cbn [nth].
      now apply IH.
Qed.

Section Slice.

Variable I : Type.
Variable df : DataFrame I Z.
Variables start stop : Z.

Hypothesis Hwf : well_formed df.

Lemma slice_columns :
  columns (loc_columns_slice df start stop)
  = filter (fun y => Z.leb start y && Z.leb y stop) (columns df).
Proof.
  destruct Hwf as [Hd _]. unfold loc_columns_slice. cbn [columns].
  exact (map_fst_filter_combine (fun y => Z.leb start y && Z.leb y stop)
           (columns df) (data df) (eq_sym Hd)).
Qed.

Lemma slice_columns_In (y : Z) :
  In y (columns (loc_columns_slice df start stop)) <->
  In y (columns df) /\ (start <= y <= stop)%Z.
Proof.
  rewrite slice_columns, filter_In, andb_true_iff, !Z.leb_le. tauto.
Qed.

Lemma slice_well_formed : well_formed (loc_columns_slice df start stop).
Proof.
  destruct Hwf as [_ Hc]. unfold well_formed, loc_columns_slice.
  cbn [data columns index]. split; [now rewrite !length_map|].
  apply Forall_forall. intros col Hcol.
  apply in_map_iff in Hcol as [[y c] [<- Hin]].
  apply filter_In in Hin as [Hin _]. apply in_combine_r in Hin.
  rewrite Forall_forall in Hc. now apply Hc.
Qed.

Lemma slice_cell (p j j' : nat) (y : Z) :
  NoDup (columns df) ->
  nth_error (columns (loc_columns_slice df start stop)) j = Some y ->
  nth_error (columns df) j' = Some y ->
  iat (loc_columns_slice df start stop) p j = iat df p j'.
Proof.
  destruct Hwf as [Hd _]. intros Hnd Hj Hj'. unfold iat. f_equal.
  unfold loc_columns_slice in *. cbn [columns data] in *.
  exact (@filter_combine_nth Z (list float)
           (fun y => Z.leb start y && Z.leb y stop) [] (columns df) (data df)
           j j' y (eq_sym Hd) Hnd Hj Hj').
Qed.

End Slice.

End SliceFacts.

Section LoaderWindow.

Variable read_csv : string -> result csv_frame.
Variable label_to_numeric : string -> option Z.
Variable text_to_numeric : string -> float.

Let numeric := to_numeric label_to_numeric text_to_numeric.
Let holding := holds label_to_numeric text_to_numeric.

(** The rows of the file that [filter_Cereal_yield_data] keeps. *)
Let selected (countries indicators : list string) (df : csv_frame)
    : csv_frame :=
  mkCsv (header df)
        (filter (fun r => isin (Country_Name r) countries
                          && isin (Indicator_Name r) indicators)
                (body df)).

Lemma filter_Cereal_yield_data_unfold (filename : string) (raw df : csv_frame)
    (countries indicators : list string) (start_year end_year : Z) :
  read_csv filename = Ok raw ->
  drop_column "Unnamed: 66" raw = Ok df ->
  filter_Cereal_yield_data read_csv label_to_numeric text_to_numeric filename
    countries indicators start_year end_year
  = Ok (Pandas.loc_columns_slice
          (pivot_years (numeric (melt (selected countries indicators df))))
          start_year end_year).
Proof.
  intros Hread Hdrop. unfold filter_Cereal_yield_data.
  rewrite Hread. cbn [bind]. rewrite Hdrop. reflexivity.
Qed.

Lemma selected_holding (countries indicators : list string) (df : csv_frame)
    (c i : string) (y : Z) (x : R) :
  (exists r, In r (body (selected countries indicators df)) /\
             holding (selected countries indicators df) r c i y x) <->
  In c countries /\ In i indicators /\
  exists r, In r (body df) /\ holding df r c i y x.
Proof.
  unfold holding, holds, selected. cbn [header body]. split.
  - intros [r [Hr [Ec [Ei Hx]]]]. apply filter_In in Hr as [Hr Hsel].
    apply andb_true_iff in Hsel as [Hc Hi].
    apply isin_In in Hc as [c' [Ec' Hc]]. apply isin_In in Hi as [i' [Ei' Hi]].
    rewrite Ec in Ec'. rewrite Ei in Ei'.
    injection Ec' as <-. injection Ei' as <-.
    split; [assumption|]. split; [assumption|]. now exists r.
  - intros [Hc [Hi [r [Hr [Ec [Ei Hx]]]]]]. exists r. split; [|now repeat split].
    apply filter_In. split; [assumption|]. rewrite Ec, Ei.
    apply andb_true_iff. split; apply isin_In; eauto.
Qed.

(** Dropping the rows of other countries and indicators leaves the
    observations of a requested pair as they are. *)
Lemma observations_selected (countries indicators : list string)
    (df : csv_frame) (c i : string) (y : Z) :
  In c countries -> In i indicators ->
  observations (numeric (melt (selected countries indicators df))) c i y
  = observations (numeric (melt df)) c i y.
Proof.
  intros Hc Hi. unfold observations, numeric, to_numeric, melt, selected.
  cbn [header body].
  induction (combine (seq 0 (length (header df))) (header df)) as [|jl cols IH];
    [reflexivity|].
  cbn [flat_map]. rewrite !map_app, !filter_app, !map_app, IH. f_equal.
  clear IH. induction (body df) as [|r rs IH]; [reflexivity|].
  cbn [filter]. 
  destruct (isin (Country_Name r) countries
            && isin (Indicator_Name r) indicators)%bool eqn:Esel.
  - cbn [map filter Country Indicator Year Value].
    destruct (_ && _ && _)%bool; cbn [map]; now rewrite IH.
  - cbn [map filter Country Indicator Year Value]. rewrite IH.
    replace (name_is (Country_Name r) c && name_is (Indicator_Name r) i)%bool
      with false; [reflexivity|].
    symmetry. apply not_true_is_false. intros Hn.
    apply andb_true_iff in Hn as [Hnc Hni].
    destruct (Country_Name r) as [c'|]; [|discriminate].
    destruct (Indicator_Name r) as [i'|]; [|discriminate].
    cbn in Hnc, Hni. apply String.eqb_eq in Hnc, Hni. subst c' i'.
    assert (isin (Some c) countries && isin (Some i) indicators = true)%bool
      as Ht by (apply andb_true_iff; split; apply isin_In; eauto).
    congruence.
Qed.

(** X21: the table [filter_Cereal_yield_data] returns is rectangular, and
    its columns are, each once, exactly the years from [start_year] to
    [end_year], both included, for which a row of the file with a requested
    country and a requested indicator holds a value. *)
Theorem filter_Cereal_yield_data_window (filename : string)
    (raw df : csv_frame) (countries indicators : list string)
    (start_year end_year : Z) (data : Pandas.DataFrame (string * string) Z) :
  read_csv filename = Ok raw ->
  drop_column "Unnamed: 66" raw = Ok df ->
  filter_Cereal_yield_data read_csv label_to_numeric text_to_numeric filename
    countries indicators start_year end_year = Ok data ->
  Pandas.well_formed data /\
  NoDup (Pandas.columns data) /\
  forall y, In y (Pandas.columns data) <->
            (start_year <= y <= end_year)%Z /\
            exists r c i x, In r (body df) /\ In c countries /\
                            In i indicators /\ holding df r c i y x.
Proof.
  intros Hread Hdrop Hdata.
  rewrite (filter_Cereal_yield_data_unfold countries indicators start_year
             end_year Hread Hdrop) in Hdata.
  injection Hdata as <-.
  set (long := numeric (melt (selected countries indicators df))).
  assert (Pandas.well_formed (pivot_years long)) as Hwf
    by (unfold pivot_years; exact (PandasFacts.pivot_table_well_formed _)).
  split; [now apply SliceFacts.slice_well_formed|]. split.
  - rewrite (SliceFacts.slice_columns start_year end_year Hwf).
    apply NoDup_filter. unfold pivot_years.
    exact (PivotCellFacts.pivot_table_columns_NoDup _).
  - intros y. rewrite (SliceFacts.slice_columns_In start_year end_year Hwf).
    unfold pivot_years. rewrite PivotCellFacts.pivot_table_columns_iff. split.
    + intros [[[c i] [x Hx]] Hy]. split; [assumption|].
      apply year_records_In in Hx. apply selected_holding in Hx.
      destruct Hx as [Hc [Hi [r [Hr Hx]]]]. now exists r, c, i, x.
    + intros [Hy [r [c [i [x [Hr [Hc [Hi Hx]]]]]]]]. split; [|assumption].
      exists (c, i), x. apply year_records_In. apply selected_holding.
      split; [assumption|]. split; [assumption|]. now exists r.
Qed.

(** X22: what [filter_Cereal_yield_data] returns is a part of the
    entity-major view of [file_read] on the same file: each of its rows and
    of its years is a row and a year of that view, and the two tables hold
    the same number there. *)
Theorem filter_Cereal_yield_data_subtable (filename : string)
    (raw df : csv_frame) (countries indicators : list string)
    (start_year end_year : Z) (data : Pandas.DataFrame (string * string) Z)
    (df_years : Pandas.DataFrame (string * string) Z)
    (df_countries : Pandas.DataFrame (Z * string) string)
    (p j : nat) (c i : string) (y : Z) :
  read_csv filename = Ok raw ->
  drop_column "Unnamed: 66" raw = Ok df ->
  file_read read_csv label_to_numeric text_to_numeric filename
  = Ok (df_years, df_countries) ->
  filter_Cereal_yield_data read_csv label_to_numeric text_to_numeric filename
    countries indicators start_year end_year = Ok data ->
  nth_error (Pandas.index data) p = Some (c, i) ->
  nth_error (Pandas.columns data) j = Some y ->
  exists p' j',
    nth_error (Pandas.index df_years) p' = Some (c, i) /\
    nth_error (Pandas.columns df_years) j' = Some y /\
    Pandas.iat data p j = Pandas.iat df_years p' j'.
Proof.
  intros Hread Hdrop Hfile Hdata Hp Hj.
  destruct (@file_read_views read_csv label_to_numeric text_to_numeric
              filename raw df df_years df_countries Hread Hdrop Hfile)
    as [-> _].
  rewrite (filter_Cereal_yield_data_unfold countries indicators start_year
             end_year Hread Hdrop) in Hdata.
  injection Hdata as <-.
  fold numeric.
  set (long' := numeric (melt (selected countries indicators df))) in *.
  set (long := numeric (melt df)).
  assert (Pandas.well_formed (pivot_years long')) as Hwf
    by (unfold pivot_years; exact (PandasFacts.pivot_table_well_formed _)).
  assert (NoDup (Pandas.columns (pivot_years long'))) as Hnd
    by (unfold pivot_years; exact (PivotCellFacts.pivot_table_columns_NoDup _)).
  (* the year, in the table before the window is cut *)
  pose proof (proj1 (@SliceFacts.slice_columns_In _ (pivot_years long')
                       start_year end_year Hwf y) (nth_error_In _ _ Hj))
    as [Hy _].
  destruct (In_nth_error _ _ Hy) as [j0 Hj0].
  (* the row is a selected row of the file *)
  change (Pandas.index (Pandas.loc_columns_slice (pivot_years long')
                          start_year end_year))
    with (Pandas.index (pivot_years long')) in Hp.
  pose proof (proj1 (@pivot_years_index_In label_to_numeric text_to_numeric
                       (selected countries indicators df) (c, i))
                    (nth_error_In _ _ Hp))
    as [r [Hr [Ek [jv [label [yv [xv [Hjv [Eyv Exv]]]]]]]]].
  cbn [selected header body] in Hr, Hjv.
  apply filter_In in Hr as [Hr Hsel].
  apply andb_true_iff in Hsel as [Hc Hi].
  apply isin_In in Hc as [c' [Ec Hc]]. apply isin_In in Hi as [i' [Ei Hi]].
  rewrite Ec, Ei in Ek. injection Ek as -> ->.
  (* both are in the view of file_read *)
  assert (In (c, i) (Pandas.index (pivot_years long))) as Hk'.
  { apply (proj2 (@pivot_years_index_In label_to_numeric text_to_numeric
                      df (c, i))).
    exists r. split; [exact Hr|].
    split; [rewrite Ec, Ei; reflexivity|].
    exists jv, label, yv, xv. split; [exact Hjv|]. split; [exact Eyv|].
    exact Exv. }
  destruct (In_nth_error _ _ Hk') as [p' Hp'].
  assert (In y (Pandas.columns (pivot_years long))) as Hy'.
  { unfold pivot_years in Hy |- *.
    apply PivotCellFacts.pivot_table_columns_iff in Hy as [[c0 i0] [x Hx]].
    apply year_records_In in Hx. apply selected_holding in Hx.
    destruct Hx as [_ [_ Hx]].
    apply PivotCellFacts.pivot_table_columns_iff. exists (c0, i0), x.
    apply year_records_In. exact Hx. }
  destruct (In_nth_error _ _ Hy') as [j' Hj'].
  exists p', j'. split; [exact Hp'|]. split; [exact Hj'|].
  rewrite (@SliceFacts.slice_cell _ (pivot_years long') start_year end_year
             Hwf p j j0 y Hnd Hj Hj0).
  unfold pivot_years in *.
  rewrite (PivotCellFacts.pivot_table_cell _ _ _ Hp Hj0).
  rewrite (PivotCellFacts.pivot_table_cell _ _ _ Hp' Hj').
  rewrite !group_values_years. f_equal.
  apply observations_selected; assumption.
Qed.

End LoaderWindow.

Lemma sample_filter :
  filter_Cereal_yield_data sample_read_csv parse_year no_text_number
    "WorldBank.csv" ["India"]%string ["Population, total"]%string 1991 1992
  = Ok sample_window.
Proof. vm_compute. reflexivity. Qed.

Lemma filter_Cereal_yield_data_window_witness :
  Pandas.well_formed sample_window /\
  NoDup (Pandas.columns sample_window) /\
  forall y, In y (Pandas.columns sample_window) <->
            (1991 <= y <= 1992)%Z /\
            exists r c i x,
              In r (body sample_csv_years) /\ In c ["India"]%string /\
              In i ["Population, total"]%string /\
              holds parse_year no_text_number sample_csv_years r c i y x.
Proof.
  apply (@filter_Cereal_yield_data_window sample_read_csv parse_year
           no_text_number "WorldBank.csv" sample_csv sample_csv_years
           ["India"]%string ["Population, total"]%string 1991 1992
           sample_window);
    [reflexivity | reflexivity | exact sample_filter].
Defined.

Lemma filter_Cereal_yield_data_subtable_witness :
  exists p' j',
    nth_error (Pandas.index sample_df_years) p'
    = Some ("India", "Population, total")%string /\
    nth_error (Pandas.columns sample_df_years) j' = Some 1992%Z /\
    Pandas.iat sample_window 0 1 = Pandas.iat sample_df_years p' j'.
Proof.
  apply (@filter_Cereal_yield_data_subtable sample_read_csv parse_year
           no_text_number "WorldBank.csv" sample_csv sample_csv_years
           ["India"]%string ["Population, total"]%string 1991 1992
           sample_window sample_df_years sample_df_countries 0 1
           "India" "Population, total" 1992);
    [reflexivity | reflexivity | exact sample_file_read | exact sample_filter
     | reflexivity | reflexivity].
Defined.

(** ** The ways predict_future ends *)

Lemma rows_row_length (I C : Type) (df : Pandas.DataFrame I C) :
  Pandas.well_formed df ->
  Forall (fun row => length row = length (Pandas.columns df)) (Pandas.rows df).
Proof.
  intros [Hd _]. unfold Pandas.rows. apply Forall_map, Forall_forall.
  intros i _. now rewrite length_map.
Qed.

Lemma arange_length (n : nat) : length (Numpy.arange n) = n.
Proof. unfold Numpy.arange. now rewrite length_map, length_seq. Qed.

Section PredictFutureOutcomes.

Variable read_csv : string -> result csv_frame.
Variable label_to_numeric : string -> option Z.
Variable text_to_numeric : string -> float.
Variable t_ppf : R -> Z -> float.
Variable curve_fit : list R -> list R -> result (list R * list (list float)).

Lemma filter_Cereal_yield_data_well_formed (filename : string)
    (countries indicators : list string) (start_year end_year : Z)
    (data : Pandas.DataFrame (string * string) Z) :
  filter_Cereal_yield_data read_csv label_to_numeric text_to_numeric filename
    countries indicators start_year end_year = Ok data ->
  Pandas.well_formed data.
Proof.
  unfold filter_Cereal_yield_data.
  destruct (read_csv filename) as [raw|]; [|discriminate]. cbn [bind].
  destruct (drop_column "Unnamed: 66" raw) as [df|]; [|discriminate].
  cbn [bind]. intros [= <-]. apply SliceFacts.slice_well_formed.
  unfold pivot_years. exact (PandasFacts.pivot_table_well_formed _).
Qed.

(** A row with a missing value stops the fitting loop, at that row if not
    before. *)
Lemma fit_rows_missing (xdata : list R) (rows : list (list float)) :
  (exists row, In row rows /\ In None row) ->
  exists e, fit_rows t_ppf curve_fit xdata rows = Raise e.
Proof.
  intros [row [Hrow Hnone]].
  induction rows as [|r rows IH]; [destruct Hrow|]. cbn [fit_rows].
  destruct Hrow as [->|Hrow].
  - unfold fit_row. rewrite (all_finite_None _ Hnone). now exists ValueError.
  - destruct (fit_row t_ppf curve_fit xdata r) as [b|e];
      [|now exists e]. cbn [bind].
    destruct (IH Hrow) as [e ->]. now exists e.
Qed.

(** The loop runs to its end when every row is complete and the solver
    returns two parameters on every row. *)
Lemma fit_rows_complete (xdata : list R) (rows : list (list float)) :
  (forall ydata, length ydata = length xdata ->
                 exists a b pcov, curve_fit xdata ydata = Ok ([a; b], pcov)) ->
  Forall (fun row => length row = length xdata) rows ->
  Forall (Forall (fun v => v <> None)) rows ->
  exists rates, fit_rows t_ppf curve_fit xdata rows = Ok rates /\
                length rates = length rows.
Proof.
  intros Hfit Hlen Hfin. induction rows as [|r rows IH].
  - now exists [].
  - apply Forall_cons_iff in Hlen as [Hr Hlen].
    apply Forall_cons_iff in Hfin as [Hf Hfin].
    destruct (IH Hlen Hfin) as [rates [Hrates Hl]].
    destruct (KMeansFacts.all_finite_Some Hf) as [ydata [Ey Hy]].
    destruct (Hfit ydata) as [a [b [pcov Hcf]]]; [congruence|].
    exists (b :: rates). split; [|simpl; now rewrite Hl].
    cbn [fit_rows]. unfold fit_row. rewrite Ey, Hcf. cbn [bind].
    unfold err_ranges.
    rewrite (@err_residuals_spec xdata ydata a b) by congruence.
    cbn [bind nth_error]. now rewrite Hrates.
Qed.

(** X23: [predict_future] needs complete rows.  As soon as a row of the
    filtered table lacks a value for one year of the window, the function
    raises an exception and no figure is shown: the solver refuses the NaN
    (ValueError), if an earlier row has not failed before. *)
Theorem predict_future_missing_value (filename : string)
    (countries indicators : list string) (start_year end_year : Z)
    (data : Pandas.DataFrame (string * string) Z) :
  filter_Cereal_yield_data read_csv label_to_numeric text_to_numeric filename
    countries indicators start_year end_year = Ok data ->
  (exists row, In row (Pandas.rows data) /\ In None row) ->
  (exists e,
     predict_future read_csv label_to_numeric text_to_numeric t_ppf curve_fit
       filename countries indicators start_year end_year = Raise e) /\
  (In None (hd [] (Pandas.rows data)) ->
   predict_future read_csv label_to_numeric text_to_numeric t_ppf curve_fit
     filename countries indicators start_year end_year = Raise ValueError).
Proof.
  intros Hdata Hmiss. unfold predict_future. rewrite Hdata. cbn [bind]. split.
  - destruct (@fit_rows_missing
                (Numpy.arange (length (Pandas.columns data)))
                (Pandas.rows data) Hmiss) as [e ->].
    now exists e.
  - destruct (Pandas.rows data) as [|r rows]; [intros []|]. cbn [hd].
    intros Hnone. cbn [fit_rows]. unfold fit_row.
    now rewrite (all_finite_None _ Hnone).
Qed.

(** X24: on a filtered table without missing value, and with a solver that
    returns two parameters on every row, [predict_future] runs to its end
    (the error ranges it computes never fail) and shows one line per row of
    the table, labelled with the row's country, with one ordinate per year
    of the window. *)
Theorem predict_future_succeeds (filename : string)
    (countries indicators : list string) (start_year end_year : Z)
    (data : Pandas.DataFrame (string * string) Z) :
  filter_Cereal_yield_data read_csv label_to_numeric text_to_numeric filename
    countries indicators start_year end_year = Ok data ->
  Forall (Forall (fun v => v <> None)) (Pandas.rows data) ->
  (forall ydata,
     length ydata = length (Pandas.columns data) ->
     exists a b pcov,
       curve_fit (Numpy.arange (length (Pandas.columns data))) ydata
       = Ok ([a; b], pcov)) ->
  exists fig,
    predict_future read_csv label_to_numeric text_to_numeric t_ppf curve_fit
      filename countries indicators start_year end_year = Ok fig /\
    map line_label (lines fig) = map fst (Pandas.index data) /\
    map line_y (lines fig) = Pandas.rows data /\
    Forall (fun l => length (line_x l) = length (Pandas.columns data) /\
                     length (line_y l) = length (Pandas.columns data))
           (lines fig).
Proof.
  intros Hdata Hfin Hfit.
  pose proof (filter_Cereal_yield_data_well_formed _ _ _ _ _ Hdata) as Hwf.
  pose proof (rows_row_length Hwf) as Hrows.
  set (xdata := Numpy.arange (length (Pandas.columns data))) in *.
  assert (length xdata = length (Pandas.columns data)) as Hx
    by apply arange_length.
  destruct (@fit_rows_complete xdata (Pandas.rows data)) as [rates [Hrates _]].
  - intros ydata Hy. apply Hfit. congruence.
  - eapply Forall_impl; [|exact Hrows]. cbv beta. intros row Hrow. congruence.
  - exact Hfin.
  - unfold predict_future. rewrite Hdata. cbn [bind]. fold xdata.
    rewrite Hrates. cbn [bind]. eexists. split; [reflexivity|].
    cbn [lines].
    assert (length (Pandas.index data) = length (Pandas.rows data)) as Hl
      by (symmetry; apply rows_length).
    rewrite !map_map. cbn [line_label line_y line_x]. split; [|split].
    + rewrite <- (map_map fst fst). f_equal.
      clear - Hl. revert Hl. generalize (Pandas.rows data) as rs.
      induction (Pandas.index data) as [|k ks IH]; intros [|r rs];
        try discriminate; [reflexivity|].
      intros [= Hl]. simpl. now rewrite IH.
    + clear - Hl. revert Hl. generalize (Pandas.rows data) as rs.
      induction (Pandas.index data) as [|k ks IH]; intros [|r rs];
        try discriminate; [reflexivity|].
      intros [= Hl]. simpl. now rewrite IH.
    + apply Forall_map, Forall_forall. intros [k r] Hkr.
      cbn [line_x line_y snd]. split; [exact Hx|].
      apply in_combine_r in Hkr. rewrite Forall_forall in Hrows.
      now apply Hrows.
Qed.

End PredictFutureOutcomes.

Lemma gap_filter :
  exists data,
    filter_Cereal_yield_data gap_read_csv parse_year no_text_number
      "WorldBank.csv" ["India"; "China"]%string ["Population, total"]%string
      1990 1992 = Ok data /\
    exists row, In row (Pandas.rows data) /\ In None row.
Proof.
  eexists. split; [vm_compute; reflexivity|].
  apply missing_reflect. vm_compute. reflexivity.
Qed.

Lemma predict_future_missing_value_witness :
  exists e,
    predict_future gap_read_csv parse_year no_text_number cauchy_ppf
      (constant_fit (1 / 10)) "WorldBank.csv" ["India"; "China"]%string
      ["Population, total"]%string 1990 1992 = Raise e.
Proof.
  destruct gap_filter as [data [Hdata Hmiss]].
  exact (proj1 (@predict_future_missing_value gap_read_csv parse_year
                  no_text_number cauchy_ppf (constant_fit (1 / 10))
                  "WorldBank.csv" ["India"; "China"]%string
                  ["Population, total"]%string 1990 1992 data Hdata Hmiss)).
Defined.

Lemma sample_filter_complete :
  exists data,
    filter_Cereal_yield_data sample_read_csv parse_year no_text_number
      "WorldBank.csv" ["India"; "China"]%string ["Population, total"]%string
      1990 1992 = Ok data /\
    Forall (Forall (fun v => v <> None)) (Pandas.rows data) /\
    Pandas.index data
    = [("China", "Population, total"); ("India", "Population, total")]%string.
Proof.
  eexists. split; [vm_compute; reflexivity|]. split.
  - apply forallb_is_finite. vm_compute. reflexivity.
  - vm_compute. reflexivity.
Qed.

Lemma predict_future_succeeds_witness :
  exists (data : Pandas.DataFrame (string * string) Z) fig,
    predict_future sample_read_csv parse_year no_text_number cauchy_ppf
      (constant_fit (1 / 10)) "WorldBank.csv" ["India"; "China"]%string
      ["Population, total"]%string 1990 1992 = Ok fig /\
    map line_label (lines fig) = map fst (Pandas.index data) /\
    map line_y (lines fig) = Pandas.rows data /\
    Forall (fun l => length (line_x l) = length (Pandas.columns data) /\
                     length (line_y l) = length (Pandas.columns data))
           (lines fig).
Proof.
  destruct sample_filter_complete as [data [Hdata [Hfin _]]].
  exists data.
  apply (@predict_future_succeeds sample_read_csv parse_year no_text_number
           cauchy_ppf (constant_fit (1 / 10)) "WorldBank.csv"
           ["India"; "China"]%string ["Population, total"]%string 1990 1992
           data Hdata Hfin).
  intros ydata _. now exists 1%R, (1 / 10)%R,
    [[Some 0%R; Some 0%R]; [Some 0%R; Some 0%R]].
Defined.

(** ** The summary of the clusters *)

Module SummaryFacts.

Lemma no_negative (k : nat) (xs : list Z) :
  Forall (fun l => (0 <= l < Z.of_nat k)%Z) xs ->
  existsb (fun x => Z.ltb x 0) xs = false.
Proof.
  induction 1 as [|x xs Hx _ IH]; [reflexivity|]. cbn [existsb].
  rewrite IH, orb_false_r. apply Z.ltb_ge. lia.
Qed.

Lemma max_upper (xs : list Z) (x : Z) :
  In x xs -> (x <= fold_right Z.max 0 xs)%Z.
Proof.
  induction xs as [|y xs IH]; [intros []|]. cbn [fold_right].
  intros [->|Hin]; [lia|]. specialize (IH Hin). lia.
Qed.

Lemma max_below (k : nat) (xs : list Z) :
  xs <> [] -> Forall (fun l => (0 <= l < Z.of_nat k)%Z) xs ->
  (0 <= fold_right Z.max 0 xs < Z.of_nat k)%Z.
Proof.
  intros Hne Hall. induction Hall as [|x xs Hx Hall IH]; [now destruct Hne|].
  cbn [fold_right]. destruct xs as [|y xs]; [cbn; lia|].
  assert (y :: xs <> []) as Hne' by discriminate. specialize (IH Hne'). lia.
Qed.

(** The largest label is one of the labels. *)
Lemma max_attained (xs : list Z) :
  xs <> [] -> Forall (fun l => (0 <= l)%Z) xs -> In (fold_right Z.max 0%Z xs) xs.
Proof.
  intros Hne Hall. induction Hall as [|x xs Hx Hall IH]; [now destruct Hne|].
  cbn [fold_right]. destruct xs as [|y xs].
  - left. cbn. lia.
  - assert (y :: xs <> []) as Hne' by discriminate. specialize (IH Hne').
    destruct (Z.max_spec x (fold_right Z.max 0%Z (y :: xs))) as [[_ ->]|[_ ->]];
      [now right | now left].
Qed.

Lemma count_of_cons (v x : Z) (xs : list Z) :
  count_of v (x :: xs)
  = ((if Z.eqb v x then 1 else 0) + count_of v xs)%nat.
Proof. unfold count_of. cbn [filter]. now destruct (Z.eqb v x). Qed.

Lemma count_of_pos (v : Z) (xs : list Z) :
  In v xs -> count_of v xs <> 0%nat.
Proof.
  induction xs as [|x xs IH]; [intros []|]. rewrite count_of_cons.
  intros [->|Hin]; [rewrite Z.eqb_refl; lia|].
  specialize (IH Hin). lia.
Qed.

Lemma sum_add (f g : nat -> nat) (l : list nat) :
  fold_right Nat.add 0%nat (map (fun v => (f v + g v)%nat) l)
  = (fold_right Nat.add 0%nat (map f l)
     + fold_right Nat.add 0%nat (map g l))%nat.
Proof. induction l as [|v l IH]; simpl; [reflexivity|]. rewrite IH. lia. Qed.

(** A value falls into one bin, when the bins reach it. *)
Lemma one_bin (x : Z) (s n : nat) :
  (0 <= x)%Z ->
  fold_right Nat.add 0%nat
    (map (fun v => if Z.eqb (Z.of_nat v) x then 1%nat else 0%nat) (seq s n))
  = if (Nat.leb s (Z.to_nat x) && Nat.ltb (Z.to_nat x) (s + n))%bool
    then 1%nat else 0%nat.
Proof.
  intros Hx. revert s. induction n as [|n IH]; intros s.
  - cbn [seq map fold_right]. rewrite Nat.add_0_r.
    destruct (Nat.leb_spec s (Z.to_nat x)), (Nat.ltb_spec (Z.to_nat x) s);
      simpl; try reflexivity; lia.
  - cbn [seq map fold_right]. rewrite IH.
    destruct (Z.eqb_spec (Z.of_nat s) x) as [E|E];
      destruct (Nat.leb_spec (S s) (Z.to_nat x)),
               (Nat.ltb_spec (Z.to_nat x) (S s + n)),
               (Nat.leb_spec s (Z.to_nat x)),
               (Nat.ltb_spec (Z.to_nat x) (s + S n));
      simpl; try reflexivity; lia.
Qed.

Lemma bins_sum (n : nat) (xs : list Z) :
  Forall (fun l => (0 <= l < Z.of_nat n)%Z) xs ->
  fold_right Nat.add 0%nat
    (map (fun v => count_of (Z.of_nat v) xs) (seq 0 n))
  = length xs.
Proof.
  induction 1 as [|x xs Hx _ IH].
  - induction (seq 0 n) as [|v l IHl]; simpl; [reflexivity | exact IHl].
  - rewrite (map_ext _ (fun v => ((if Z.eqb (Z.of_nat v) x then 1 else 0)
                                  + count_of (Z.of_nat v) xs)%nat))
      by (intros v; apply count_of_cons).
    rewrite sum_add, IH, one_bin by lia. cbn [length].
    destruct (Nat.leb_spec 0 (Z.to_nat x)), (Nat.ltb_spec (Z.to_nat x) (0 + n));
      simpl; try reflexivity; lia.
Qed.

(** The bins of an array of labels of [k] clusters, and the lines printed
    for them. *)
Lemma summary (labels : list Z) (k : nat) :
  labels <> [] ->
  Forall (fun l => (0 <= l < Z.of_nat k)%Z) labels ->
  exists counts lines,
    bincount labels = Ok counts /\
    print_cluster_summary labels = Ok lines /\
    length lines = length counts /\
    length counts = S (Z.to_nat (fold_right Z.max 0%Z labels)) /\
    (1 <= length counts <= k)%nat /\
    fold_right Nat.add 0%nat counts = length labels /\
    nth (length counts - 1) counts 0%nat <> 0%nat /\
    forall i, (i < length counts)%nat ->
      nth i counts 0%nat = count_of (Z.of_nat i) labels /\
      nth i lines EmptyString
      = ("Cluster " ++ str (i + 1) ++ ": "
         ++ str (count_of (Z.of_nat i) labels) ++ " data points")%string.
Proof.
  intros Hne Hall.
  pose proof (@max_below k labels Hne Hall) as Hmax.
  set (m := fold_right Z.max 0%Z labels) in *.
  set (counts := map (fun v => count_of (Z.of_nat v) labels)
                     (seq 0 (S (Z.to_nat m)))).
  assert (bincount labels = Ok counts) as Hb.
  { unfold bincount. rewrite (@no_negative k _ Hall).
    destruct labels; [now destruct Hne | reflexivity]. }
  assert (length counts = S (Z.to_nat m)) as Hlen
    by (unfold counts; now rewrite length_map, length_seq).
  assert (forall i, (i < length counts)%nat ->
                    nth i counts 0%nat = count_of (Z.of_nat i) labels) as Hnth.
  { intros i Hi. unfold counts.
    rewrite (nth_indep _ 0%nat (count_of (Z.of_nat 0) labels))
      by (fold counts; exact Hi).
    rewrite (map_nth (fun v => count_of (Z.of_nat v) labels)).
    rewrite seq_nth by lia. reflexivity. }
  exists counts. eexists. split; [exact Hb|].
  split; [unfold print_cluster_summary; rewrite Hb; reflexivity|].
  split; [now rewrite length_map, length_combine, length_seq, Nat.min_id|].
  split; [exact Hlen|]. split; [lia|]. split; [|split].
  - unfold counts. apply bins_sum. apply Forall_forall. intros l Hl.
    rewrite Forall_forall in Hall. specialize (Hall l Hl).
    pose proof (@max_upper labels l Hl) as Hle. fold m in Hle. lia.
  - rewrite Hnth by lia. apply count_of_pos.
    replace (Z.of_nat (length counts - 1)) with m by lia.
    apply max_attained; [assumption|].
    eapply Forall_impl; [|exact Hall]. cbv beta. intros; lia.
  - intros i Hi. split; [now apply Hnth|].
    rewrite (nth_indep _ EmptyString
               ((fun ic => ("Cluster " ++ str (fst ic + 1) ++ ": "
                            ++ str (snd ic) ++ " data points")%string)
                  (0%nat, 0%nat)))
      by now rewrite length_map, length_combine, length_seq, Nat.min_id.
    rewrite (map_nth (fun ic => ("Cluster " ++ str (fst ic + 1) ++ ": "
                                 ++ str (snd ic) ++ " data points")%string)).
    rewrite combine_nth by now rewrite length_seq.
    cbn [fst snd]. rewrite seq_nth by exact Hi. rewrite (Hnth i Hi).
    reflexivity.
Qed.

End SummaryFacts.

(** X25: for the labels of [k] clusters (each between 0 and k - 1, at least
    one), [print_cluster_summary] prints one line per label value from 0 to
    the largest label met: at least one line and at most [k], the last one
    for a cluster that is not empty; clusters are numbered from 1; the count
    of line i + 1 is the number of points labelled i, and the counts add up
    to the number of points. *)
Theorem print_cluster_summary_counts (labels : list Z) (k : nat) :
  labels <> [] ->
  Forall (fun l => (0 <= l < Z.of_nat k)%Z) labels ->
  exists counts lines,
    bincount labels = Ok counts /\
    print_cluster_summary labels = Ok lines /\
    length lines = length counts /\
    length counts = S (Z.to_nat (fold_right Z.max 0%Z labels)) /\
    (1 <= length counts <= k)%nat /\
    fold_right Nat.add 0%nat counts = length labels /\
    nth (length counts - 1) counts 0%nat <> 0%nat /\
    forall i, (i < length counts)%nat ->
      nth i counts 0%nat = count_of (Z.of_nat i) labels /\
      nth i lines EmptyString
      = ("Cluster " ++ str (i + 1) ++ ": "
         ++ str (count_of (Z.of_nat i) labels) ++ " data points")%string.
Proof. exact (@SummaryFacts.summary labels k). Qed.

Lemma print_cluster_summary_counts_witness :
  exists counts lines,
    bincount [0; 1; 1; 0; 1]%Z = Ok counts /\
    print_cluster_summary [0; 1; 1; 0; 1]%Z = Ok lines /\
    length lines = length counts /\
    length counts = S (Z.to_nat (fold_right Z.max 0%Z [0; 1; 1; 0; 1]%Z)) /\
    (1 <= length counts <= 3)%nat /\
    fold_right Nat.add 0%nat counts = length [0; 1; 1; 0; 1]%Z /\
    nth (length counts - 1) counts 0%nat <> 0%nat /\
    forall i, (i < length counts)%nat ->
      nth i counts 0%nat = count_of (Z.of_nat i) [0; 1; 1; 0; 1]%Z /\
      nth i lines EmptyString
      = ("Cluster " ++ str (i + 1) ++ ": "
         ++ str (count_of (Z.of_nat i) [0; 1; 1; 0; 1]%Z)
         ++ " data points")%string.
Proof.
  apply (@print_cluster_summary_counts [0; 1; 1; 0; 1]%Z 3).
  - discriminate.
  - repeat constructor; lia.
Defined.

(** Three clusters, the third one empty: two lines. *)
Example print_cluster_summary_two_lines :
  print_cluster_summary [0; 1; 1; 0; 1]%Z
  = Ok ["Cluster 1: 2 data points"; "Cluster 2: 3 data points"]%string.
Proof. reflexivity. Qed.

Section MainSummary.

Variable RandomState : Type.
Variable seeded : Z -> RandomState.
Variable init_centroids :
  RandomState -> list (list R) -> nat -> list (list R) * RandomState.
Variable relocate_empty :
  list (list R) -> list (list R) -> list Z -> Z -> list R.

Hypothesis init_centroids_length :
  forall rs X k, length (fst (init_centroids rs X k)) = k.

(** X27: the summary of the main block.  On a subset without missing cell
    the labels that the clustering returns are printed as at least one and
    at most three lines, and the printed counts add up to 28, the number of
    years clustered. *)
Theorem main_cluster_summary (global : RandomState)
    (df_years : Pandas.DataFrame (string * string) Z)
    (df : Pandas.DataFrame Z (string * string)) :
  subset_data df_years main_countries main_indicators = Ok df ->
  Forall (Forall (fun v => v <> None)) (Pandas.data df) ->
  exists labels centers counts lines,
    main_clustering seeded init_centroids relocate_empty global df_years
    = Ok (labels, centers) /\
    bincount labels = Ok counts /\
    print_cluster_summary labels = Ok lines /\
    length lines = length counts /\
    (1 <= length lines <= 3)%nat /\
    fold_right Nat.add 0%nat counts = 28%nat.
Proof.
  intros Hsub Hfin.
  destruct (@main_clustering_labelling RandomState seeded init_centroids
              relocate_empty init_centroids_length global df_years df
              Hsub Hfin) as [labels [centers [Hmain [Hlen Hall]]]].
  destruct (subset_data_shape _ _ _ Hsub) as [_ [_ Hshape]].
  rewrite Hshape in Hlen. cbn [fst] in Hlen.
  assert (labels <> []) as Hne by (intros ->; discriminate).
  destruct (@SummaryFacts.summary labels 3 Hne Hall)
    as [counts [lines [Hb [Hp [Hl [_ [Hk [Hsum _]]]]]]]].
  exists labels, centers, counts, lines.
  split; [exact Hmain|]. split; [exact Hb|]. split; [exact Hp|].
  split; [exact Hl|]. split; [lia|]. now rewrite Hsum.
Qed.

End MainSummary.

Lemma main_cluster_summary_witness :
  exists labels centers counts lines,
    main_clustering unit_seeded first_rows_init keep_centre tt
                    scenario_df_years = Ok (labels, centers) /\
    bincount labels = Ok counts /\
    print_cluster_summary labels = Ok lines /\
    length lines = length counts /\
    (1 <= length lines <= 3)%nat /\
    fold_right Nat.add 0%nat counts = 28%nat.
Proof.
  destruct scenario_subset as [df [Hsub [_ [_ Hfin]]]].
  exact (@main_cluster_summary unit unit_seeded first_rows_init keep_centre
           first_rows_init_length tt scenario_df_years df Hsub Hfin).
Defined.
